(** * med-scribe: classification front end and decision core

    A shallow embedding of the TypeScript sources that decide how a
    classification request is validated, sent to the backend and turned
    into a [ClassificationResult], together with the rule validators of
    the attribute editor, the top-K control of the options panel and the
    classification store.  The Python backend that ranks candidates and
    evaluates rule trees is not part of the sources; the sections marked
    "Modelled from the spec" give the model of it used here.

    Conventions.
    - A JS string is a [string] whose characters are code units below 256.
    - A JS number is an IEEE double, [spec_float]; integers that the code
      only compares (topKCandidates, File.size) are [Z] and [N].
    - [new Date()] and [console] output are not modelled: records omit
      their timestamp field. *)

From Stdlib Require Import ZArith NArith List String Ascii Bool Lia Arith.
From Stdlib Require Import Floats.SpecFloat.
From Stdlib Require Import DecimalString.
Import ListNotations.
Set Warnings "-register-all".
Open Scope string_scope.
Open Scope list_scope.
Open Scope nat_scope.

(* ================================================================== *)
(** ** JavaScript strings *)
(* ================================================================== *)

Module JsString.

(** The code units matched by [\s] and removed by [trim], restricted to
    one-byte code units: TAB, LF, VT, FF, CR, SPACE and NBSP. *)
Definition isWhiteSpace (c : ascii) : bool :=
    let n := nat_of_ascii c in
    ((9 <=? n) && (n <=? 13)) || (n =? 32) || (n =? 160).

Fixpoint trimStart (s : string) : string :=
    match s with
    | EmptyString => EmptyString
    | String c rest => if isWhiteSpace c then trimStart rest else s
    end.

Fixpoint trimEnd (s : string) : string :=
    match s with
    | EmptyString => EmptyString
    | String c rest =>
        match trimEnd rest with
        | EmptyString => if isWhiteSpace c then EmptyString else String c EmptyString
        | kept => String c kept
        end
    end.

Definition trim (s : string) : string := trimEnd (trimStart s).

Definition lowerChar (c : ascii) : ascii :=
    let n := nat_of_ascii c in
    if ((65 <=? n) && (n <=? 90))
       || ((192 <=? n) && (n <=? 222) && negb (n =? 215))
    then ascii_of_nat (n + 32) else c.

Fixpoint toLowerCase (s : string) : string :=
    match s with
    | EmptyString => EmptyString
    | String c rest => String (lowerChar c) (toLowerCase rest)
    end.

Definition endsWith (s suffix : string) : bool :=
    (String.length suffix <=? String.length s)
    && String.eqb
         (substring (String.length s - String.length suffix)
                    (String.length suffix) s)
         suffix.

(** [s.replace(/\s+/g, '_')]: every maximal run of white space becomes
    one underscore.  [inRun] tells that the previous unit was white
    space. *)
Fixpoint replaceSpaces (inRun : bool) (s : string) : string :=
    match s with
    | EmptyString => EmptyString
    | String c rest =>
        if isWhiteSpace c
        then if inRun then replaceSpaces true rest
             else String "_" (replaceSpaces true rest)
        else String c (replaceSpaces false rest)
    end.

(** [!s?.trim()] for a possibly absent string. *)
Definition blank (s : option string) : bool :=
    match s with
    | None => true
    | Some v => String.eqb (trim v) EmptyString
    end.

Fixpoint join (sep : string) (parts : list string) : string :=
    match parts with
    | [] => EmptyString
    | [p] => p
    | p :: rest => (p ++ sep ++ join sep rest)%string
    end.

Definition ofNat (n : nat) : string := NilEmpty.string_of_uint (Nat.to_uint n).

End JsString.

(* ================================================================== *)
(** ** JavaScript values of type [any] *)
(* ================================================================== *)

Inductive JsValue : Type :=
| JsUndefined
| JsNull
| JsBool (b : bool)
| JsNumber (f : spec_float)
| JsString (s : string)
| JsObject (fields : list (string * JsValue)).

Module Js.

Definition zero : spec_float := S754_zero false.

(** ToBoolean. *)
Definition truthy (v : JsValue) : bool :=
    match v with
    | JsUndefined | JsNull => false
    | JsBool b => b
    | JsNumber (S754_zero _) | JsNumber S754_nan => false
    | JsNumber _ => true
    | JsString s => negb (String.eqb s EmptyString)
    | JsObject _ => true
    end.

(** [a || b]. *)
Definition or (a b : JsValue) : JsValue := if truthy a then a else b.

(** Property access [o.key] on a value known to be an object or absent
    ([o?.key]). *)
Fixpoint lookup (key : string) (fields : list (string * JsValue)) : JsValue :=
    match fields with
    | [] => JsUndefined
    | (k, v) :: rest => if String.eqb k key then v else lookup key rest
    end.

Definition get (key : string) (o : JsValue) : JsValue :=
    match o with
    | JsObject fields => lookup key fields
    | _ => JsUndefined
    end.

(** A number other than zero. *)
Definition nonzero (v : JsValue) : bool :=
  match v with
  | JsNumber (S754_zero _) => false
  | JsNumber _ => true
  | _ => false
  end.

(** The numbers JSON can carry: no NaN, no infinity. *)
Definition jsonNumber (f : spec_float) : bool :=
  match f with
  | S754_nan | S754_infinity _ => false
  | _ => true
  end.

(** A score field of a backend payload: a JSON number, or absent. *)
Definition score (v : JsValue) : bool :=
  match v with
  | JsUndefined | JsNull => true
  | JsNumber f => jsonNumber f
  | _ => false
  end.

End Js.

(* ================================================================== *)
(** ** Errors and API envelopes (types/errors.ts, types/api.ts) *)
(* ================================================================== *)

Inductive ErrorType : Type :=
| network | validation | processing | filesystem | auth | unknown.

Module ValidationError.
Record t : Type := mk {
    type : ErrorType;
    message : string;
    field : option string;
    validationRules : option (list string);
    recoverable : bool;
    suggestedAction : option string
  }.
End ValidationError.

Module AppError.
Record t : Type := mk {
    type : ErrorType;
    message : string;
    details : option string;
    code : option string;
    recoverable : bool;
    suggestedAction : option string
  }.
End AppError.

Module ApiError.
Record t : Type := mk {
    type : ErrorType;
    message : string;
    details : option string;
    code : option string;
    recoverable : bool;
    suggestedAction : option string
  }.
End ApiError.

Module ApiResponse.
Record t (T : Type) : Type := mk {
    success : bool;
    data : option T;
    error : option ApiError.t
  }.
Arguments mk {T}.
Arguments success {T}.
Arguments data {T}.
Arguments error {T}.
End ApiResponse.

(** What a [throw] carries: the plain object built by
    [createValidationError], or an [Error] instance (a TypeError raised by
    a property access on an absent value). *)
Inductive Thrown : Type :=
| ThrownValidation (e : ValidationError.t)
| ThrownError (message : string).

Inductive Outcome (A : Type) : Type :=
| Returned (a : A)
| Raised (t : Thrown).
Arguments Returned {A}.
Arguments Raised {A}.

Module ErrorHandler.

Definition createValidationError (message : string) (field : option string)
    : ValidationError.t :=
    {| ValidationError.type := validation;
       ValidationError.message := message;
       ValidationError.field := field;
       ValidationError.validationRules := None;
       ValidationError.recoverable := true;
       ValidationError.suggestedAction :=
         Some "Please correct the highlighted fields and try again." |}.

Section FromUnknown.
    (** [error.stack] and [JSON.stringify(error)]: text produced by the
        runtime, read by no caller. *)
Variable stack : string -> option string.
Variable stringify : ValidationError.t -> string.

Definition fromUnknown (error : Thrown) : AppError.t :=
      match error with
      | ThrownError msg =>
          {| AppError.type := unknown;
             AppError.message := msg;
             AppError.details := stack msg;
             AppError.code := None;
             AppError.recoverable := true;
             AppError.suggestedAction :=
               Some "Please try again or contact support if the problem persists." |}
      | ThrownValidation e =>
          {| AppError.type := unknown;
             AppError.message := "An unexpected error occurred";
             AppError.details := Some (stringify e);
             AppError.code := None;
             AppError.recoverable := true;
             AppError.suggestedAction := None |}
      end.
End FromUnknown.

End ErrorHandler.

(* ================================================================== *)
(** ** Evaluation trees (types/attributes.ts) *)
(* ================================================================== *)

Inductive NodeType : Type := condition_node | AND_node | OR_node.

(** [children] absent is the empty list. *)
Inductive EvaluationTreeNode : Type := mkNode {
  node_type : NodeType;
  satisfied : option bool;
  condition : option string;
  children : list EvaluationTreeNode;
  skipped : bool;
  error : option string
}.

(* ================================================================== *)
(** ** Classification types (types/classification.ts) *)
(* ================================================================== *)

Module ClassificationConfig.
Record t : Type := mk {
    useReranking : bool;
    rerankingModel : option string;
    rerankingParams : option (list (string * JsValue));
    useAttributeValidation : bool;
    topKCandidates : Z
  }.
End ClassificationConfig.

Module ClassDefinition.
Record t : Type := mk {
    id : string;
    name : string;
    description : string
  }.
End ClassDefinition.

Module ClassificationScores.
Record t : Type := mk {
    similarity : JsValue;
    rerank : JsValue;
    attribute : JsValue
  }.
End ClassificationScores.

Module ClassificationAlternative.
Record t : Type := mk {
    class : ClassDefinition.t;
    confidence : JsValue;
    scores : ClassificationScores.t
  }.
End ClassificationAlternative.

Module EvaluationDetails.
Record t : Type := mk {
    evaluation_tree : option EvaluationTreeNode;
    other : list (string * JsValue)
  }.
Definition empty : t := {| evaluation_tree := None; other := [] |}.
End EvaluationDetails.

Module AttributeValidationResult.
Record t : Type := mk {
    conditionsMet : list string;
    conditionsNotMet : list string;
    overallScore : JsValue;
    details : EvaluationDetails.t;
    evaluationTree : option EvaluationTreeNode
  }.
End AttributeValidationResult.

Module ClassificationResult.
Record t : Type := mk {
    predictedClass : ClassDefinition.t;
    confidence : JsValue;
    similarityScore : JsValue;
    rerankScore : JsValue;
    attributeScore : JsValue;
    alternatives : list ClassificationAlternative.t;
    attributeValidation : option AttributeValidationResult.t;
    processingTime : JsValue;
    metadata : list (string * JsValue)
  }.
End ClassificationResult.

Module File.
Record t : Type := mk {
    name : string;
    size : N
  }.
End File.

Module ClassifyTextRequest.
Record t : Type := mk {
    text : option string;
    datasetId : option string;
    config : option ClassificationConfig.t
  }.
End ClassifyTextRequest.

Module ClassifyPDFRequest.
Record t : Type := mk {
    file : option File.t;
    datasetId : option string;
    config : option ClassificationConfig.t
  }.
End ClassifyPDFRequest.

(* ================================================================== *)
(** ** The backend payloads read by the service *)
(* ================================================================== *)

Module BackendClass.
Record t : Type := mk {
    name : string;
    description : string
  }.
End BackendClass.

Module BackendAlternative.
Record t : Type := mk {
    name : string;
    description : option string;
    effective_score : JsValue;
    similarity_score : JsValue;
    rerank_score : JsValue;
    attribute_score : JsValue
  }.
End BackendAlternative.

Module BackendValidation.
Record t : Type := mk {
    conditions_met : option (list string);
    conditions_not_met : option (list string);
    overall_score : JsValue;
    evaluation_details : option EvaluationDetails.t
  }.
End BackendValidation.

Module BackendResult.
Record t : Type := mk {
    predicted_class : option BackendClass.t;
    effective_score : JsValue;
    similarity_score : JsValue;
    rerank_score : JsValue;
    attribute_score : JsValue;
    attribute_validation : option BackendValidation.t;
    alternatives : option (list BackendAlternative.t);
    processing_time : JsValue;
    metadata : option (list (string * JsValue));
    pdf_metadata : JsValue
  }.
End BackendResult.

Module ConfigPayload.
Record t : Type := mk {
    use_reranking : bool;
    reranking_model : string;
    use_attribute_validation : bool;
    top_k_candidates : Z
  }.
End ConfigPayload.

(** One request sent through [apiClient]. *)
Inductive BackendCall : Type :=
| PostClassifyText (text : option string) (dataset_id : option string)
                   (config : ConfigPayload.t)
| UploadClassifyPdf (file : File.t) (dataset_id : option string)
                    (config_json : ConfigPayload.t).

(* ================================================================== *)
(** ** The service monad: a log of backend calls, and exceptions *)
(* ================================================================== *)

Module Svc.

Definition t (A : Type) : Type := list BackendCall -> Outcome A * list BackendCall.

Definition ret {A} (a : A) : t A := fun log => (Returned a, log).

Definition bind {A B} (c : t A) (k : A -> t B) : t B :=
  fun log =>
    match c log with
    | (Returned a, log') => k a log'
    | (Raised e, log') => (Raised e, log')
    end.

Definition throw {A} (e : Thrown) : t A := fun log => (Raised e, log).

(** [try { body } catch (error) { handler }]. *)
Definition tryCatch {A} (body : t A) (handler : Thrown -> t A) : t A :=
  fun log =>
    match body log with
    | (Returned a, log') => (Returned a, log')
    | (Raised e, log') => handler e log'
    end.

(** A synchronous call that may throw. *)
Definition lift {A} (o : Outcome A) : t A := fun log => (o, log).

(** [await apiClient.post(...)] / [apiClient.uploadFile(...)]: the call is
    recorded and the client's answer returned. *)
Definition send {R} (client : BackendCall -> R) (call : BackendCall) : t R :=
  fun log => (Returned (client call), log ++ [call]).

Definition run {A} (c : t A) : Outcome A * list BackendCall := c [].

End Svc.

Notation "x <- c ;; k" := (Svc.bind c (fun x => k))
  (at level 61, c at next level, right associativity).
Notation "c ;;; k" := (Svc.bind c (fun _ => k))
  (at level 61, right associativity).

(** Sequencing of synchronous checks: the first [throw] wins. *)
Definition andThen (o : Outcome unit) (k : Outcome unit) : Outcome unit :=
  match o with
  | Returned _ => k
  | Raised e => Raised e
  end.

Definition throwIf (cond : bool) (e : ValidationError.t) : Outcome unit :=
  if cond then Raised (ThrownValidation e) else Returned tt.

(* ================================================================== *)
(** ** services/classification-service.ts *)
(* ================================================================== *)

Module ClassificationService.

Import ErrorHandler.

Definition maxSize : N := 50 * 1024 * 1024.

Definition validatePDFFile (file : option File.t) : Outcome unit :=
  match file with
  | None => Raised (ThrownValidation (createValidationError "PDF file is required" (Some "file")))
  | Some f =>
      andThen
        (throwIf (negb (JsString.endsWith (JsString.toLowerCase (File.name f)) ".pdf"))
           (createValidationError "Only PDF files are supported" (Some "file")))
        (andThen
           (throwIf (maxSize <? File.size f)%N
              (createValidationError "PDF file size must be less than 50MB" (Some "file")))
           (throwIf (File.size f =? 0)%N
              (createValidationError "PDF file cannot be empty" (Some "file"))))
  end.

Definition validateTextRequest (request : ClassifyTextRequest.t) : Outcome unit :=
  andThen
    (throwIf (JsString.blank (ClassifyTextRequest.text request))
       (createValidationError "Text content is required" (Some "text")))
    (andThen
       (throwIf (JsString.blank (ClassifyTextRequest.datasetId request))
          (createValidationError "Dataset ID is required" (Some "datasetId")))
       (match ClassifyTextRequest.config request with
        | None =>
            Raised (ThrownValidation
                      (createValidationError "Configuration is required" (Some "config")))
        | Some config =>
            throwIf
              ((ClassificationConfig.topKCandidates config <? 1)%Z
               || (100 <? ClassificationConfig.topKCandidates config)%Z)
              (createValidationError "Top K candidates must be between 1 and 100"
                 (Some "config.topKCandidates"))
        end)).

Definition validatePDFRequest (request : ClassifyPDFRequest.t) : Outcome unit :=
  andThen
    (validatePDFFile (ClassifyPDFRequest.file request))
    (andThen
       (throwIf (JsString.blank (ClassifyPDFRequest.datasetId request))
          (createValidationError "Dataset ID is required" (Some "datasetId")))
       (match ClassifyPDFRequest.config request with
        | None =>
            Raised (ThrownValidation
                      (createValidationError "Configuration is required" (Some "config")))
        | Some _ => Returned tt
        end)).

(** [s || fallback] on a possibly absent string. *)
Definition stringOr (s : option string) (fallback : string) : string :=
  match s with
  | Some v => if String.eqb v EmptyString then fallback else v
  | None => fallback
  end.

Definition listOr {A} (l : option (list A)) : list A :=
  match l with Some v => v | None => [] end.

Definition configPayload (config : ClassificationConfig.t) : ConfigPayload.t :=
  {| ConfigPayload.use_reranking := ClassificationConfig.useReranking config;
     ConfigPayload.reranking_model :=
       stringOr (ClassificationConfig.rerankingModel config) "us.amazon.nova-lite-v1:0";
     ConfigPayload.use_attribute_validation :=
       ClassificationConfig.useAttributeValidation config;
     ConfigPayload.top_k_candidates := ClassificationConfig.topKCandidates config |}.

Definition classId (name : string) : string :=
  JsString.replaceSpaces false (JsString.toLowerCase name).

Definition transformAlternative (alt : BackendAlternative.t)
  : ClassificationAlternative.t :=
  {| ClassificationAlternative.class :=
       {| ClassDefinition.id := classId (BackendAlternative.name alt);
          ClassDefinition.name := BackendAlternative.name alt;
          ClassDefinition.description :=
            stringOr (BackendAlternative.description alt) "Alternative classification" |};
     ClassificationAlternative.confidence :=
       Js.or (Js.or (BackendAlternative.effective_score alt)
                    (BackendAlternative.similarity_score alt))
             (JsNumber Js.zero);
     ClassificationAlternative.scores :=
       {| ClassificationScores.similarity :=
            Js.or (BackendAlternative.similarity_score alt) (JsNumber Js.zero);
          ClassificationScores.rerank := BackendAlternative.rerank_score alt;
          ClassificationScores.attribute := BackendAlternative.attribute_score alt |} |}.

Definition transformValidation (v : BackendValidation.t) : AttributeValidationResult.t :=
  {| AttributeValidationResult.conditionsMet := listOr (BackendValidation.conditions_met v);
     AttributeValidationResult.conditionsNotMet :=
       listOr (BackendValidation.conditions_not_met v);
     AttributeValidationResult.overallScore :=
       Js.or (BackendValidation.overall_score v) (JsNumber Js.zero);
     AttributeValidationResult.details :=
       match BackendValidation.evaluation_details v with
       | Some d => d
       | None => EvaluationDetails.empty
       end;
     AttributeValidationResult.evaluationTree :=
       match BackendValidation.evaluation_details v with
       | Some d => EvaluationDetails.evaluation_tree d
       | None => None
       end |}.

(** The object literal of lines 47-79 (text) and 134-169 (PDF); the two
    differ in [metadata] only.  Reading [predicted_class.name] of an
    absent [predicted_class] throws. *)
Definition transform (metadata : BackendResult.t -> list (string * JsValue))
  (backendResult : BackendResult.t) : Outcome ClassificationResult.t :=
  match BackendResult.predicted_class backendResult with
  | None => Raised (ThrownError "Cannot read properties of undefined (reading 'name')")
  | Some predicted =>
      Returned
        {| ClassificationResult.predictedClass :=
             {| ClassDefinition.id := classId (BackendClass.name predicted);
                ClassDefinition.name := BackendClass.name predicted;
                ClassDefinition.description := BackendClass.description predicted |};
           ClassificationResult.confidence :=
             Js.or (Js.or (BackendResult.effective_score backendResult)
                          (BackendResult.similarity_score backendResult))
                   (JsNumber Js.zero);
           ClassificationResult.similarityScore :=
             Js.or (BackendResult.similarity_score backendResult) (JsNumber Js.zero);
           ClassificationResult.rerankScore := BackendResult.rerank_score backendResult;
           ClassificationResult.attributeScore := BackendResult.attribute_score backendResult;
           ClassificationResult.alternatives :=
             map transformAlternative (listOr (BackendResult.alternatives backendResult));
           ClassificationResult.attributeValidation :=
             option_map transformValidation (BackendResult.attribute_validation backendResult);
           ClassificationResult.processingTime := BackendResult.processing_time backendResult;
           ClassificationResult.metadata := metadata backendResult |}
  end.

Definition textMetadata (backendResult : BackendResult.t) : list (string * JsValue) :=
  listOr (BackendResult.metadata backendResult).

(** [{ ...metadata, pdf_metadata: pdf_metadata }]. *)
Definition pdfMetadata (backendResult : BackendResult.t) : list (string * JsValue) :=
  filter (fun kv => negb (String.eqb (fst kv) "pdf_metadata"))
         (listOr (BackendResult.metadata backendResult))
  ++ [("pdf_metadata", BackendResult.pdf_metadata backendResult)].

Definition failure (message details suggestedAction : string)
  : ApiResponse.t ClassificationResult.t :=
  {| ApiResponse.success := false;
     ApiResponse.data := None;
     ApiResponse.error :=
       Some {| ApiError.type := processing;
               ApiError.message := message;
               ApiError.details := Some details;
               ApiError.code := None;
               ApiError.recoverable := true;
               ApiError.suggestedAction := Some suggestedAction |} |}.

(** A failed backend response is returned as it is; the client attaches
    no data to it. *)
Definition passThrough (response : ApiResponse.t BackendResult.t)
  : ApiResponse.t ClassificationResult.t :=
  {| ApiResponse.success := ApiResponse.success response;
     ApiResponse.data := None;
     ApiResponse.error := ApiResponse.error response |}.

Section Service.

Variable apiClient : BackendCall -> ApiResponse.t BackendResult.t.
Variable stack : string -> option string.
Variable stringify : ValidationError.t -> string.

(** The part of both methods after the request was sent. *)
Definition respond (metadata : BackendResult.t -> list (string * JsValue))
  (response : ApiResponse.t BackendResult.t)
  : Svc.t (ApiResponse.t ClassificationResult.t) :=
  if negb (ApiResponse.success response) then Svc.ret (passThrough response)
  else
    match ApiResponse.data response with
    | None =>
        Svc.throw (ThrownError "Cannot read properties of undefined (reading 'predicted_class')")
    | Some backendResult =>
        classificationResult <- Svc.lift (transform metadata backendResult) ;;
        Svc.ret {| ApiResponse.success := true;
                   ApiResponse.data := Some classificationResult;
                   ApiResponse.error := None |}
    end.

Definition classifyText (request : ClassifyTextRequest.t)
  : Svc.t (ApiResponse.t ClassificationResult.t) :=
  Svc.tryCatch
    (Svc.lift (validateTextRequest request) ;;;
     match ClassifyTextRequest.config request with
     | None => Svc.throw (ThrownError "Cannot read properties of undefined (reading 'useReranking')")
     | Some config =>
         response <- Svc.send apiClient
                       (PostClassifyText (ClassifyTextRequest.text request)
                          (ClassifyTextRequest.datasetId request)
                          (configPayload config)) ;;
         respond textMetadata response
     end)
    (fun error =>
       let appError := fromUnknown stack stringify error in
       Svc.ret (failure "Classification failed" (AppError.message appError)
                  "Please check your input and try again.")).

Definition classifyPDF (request : ClassifyPDFRequest.t)
  : Svc.t (ApiResponse.t ClassificationResult.t) :=
  Svc.tryCatch
    (Svc.lift (validatePDFRequest request) ;;;
     match ClassifyPDFRequest.file request, ClassifyPDFRequest.config request with
     | Some file, Some config =>
         response <- Svc.send apiClient
                       (UploadClassifyPdf file
                          (ClassifyPDFRequest.datasetId request)
                          (configPayload config)) ;;
         respond pdfMetadata response
     | _, _ => Svc.throw (ThrownError "Cannot read properties of undefined (reading 'useReranking')")
     end)
    (fun error =>
       let appError := fromUnknown stack stringify error in
       Svc.ret (failure "PDF classification failed" (AppError.message appError)
                  "Please check your PDF file and try again.")).

End Service.

End ClassificationService.

(* ================================================================== *)
(** ** stores/classification-store.ts *)
(* ================================================================== *)

Module PDFExtractionResult.
Record t : Type := mk {
  extractedText : JsValue;
  pageCount : JsValue;
  extractionMethod : string;
  confidence : spec_float
}.
End PDFExtractionResult.

Module ClassificationStore.

Record ClassificationState : Type := mkState {
  currentResult : option ClassificationResult.t;
  resultHistory : list ClassificationResult.t;
  config : ClassificationConfig.t;
  isClassifying : bool;
  error : option AppError.t;
  pdfExtractionResult : option PDFExtractionResult.t
}.

Definition defaultConfig : ClassificationConfig.t :=
  {| ClassificationConfig.useReranking := false;
     ClassificationConfig.rerankingModel := Some "us.amazon.nova-lite-v1:0";
     ClassificationConfig.rerankingParams := None;
     ClassificationConfig.useAttributeValidation := false;
     ClassificationConfig.topKCandidates := 5 |}.

Definition initialState : ClassificationState :=
  {| currentResult := None;
     resultHistory := [];
     config := defaultConfig;
     isClassifying := false;
     error := None;
     pdfExtractionResult := None |}.

(** What the promise of a store operation settles to. *)
Inductive Settled : Type :=
| Resolved (result : ClassificationResult.t)
| Rejected (appError : AppError.t).

Definition setCurrentResult (result : option ClassificationResult.t)
  (s : ClassificationState) : ClassificationState :=
  mkState result (resultHistory s) (config s) (isClassifying s) (error s)
          (pdfExtractionResult s).

(** [[result, ...state.resultHistory].slice(0, 50)] *)
Definition addToHistory (result : ClassificationResult.t)
  (s : ClassificationState) : ClassificationState :=
  mkState (currentResult s) (firstn 50 (result :: resultHistory s)) (config s)
          (isClassifying s) (error s) (pdfExtractionResult s).

Definition clearHistory (s : ClassificationState) : ClassificationState :=
  mkState (currentResult s) [] (config s) (isClassifying s) (error s)
          (pdfExtractionResult s).

Definition setClassifying (classifying : bool) (s : ClassificationState)
  : ClassificationState :=
  mkState (currentResult s) (resultHistory s) (config s) classifying (error s)
          (pdfExtractionResult s).

Definition setError (e : option AppError.t) (s : ClassificationState)
  : ClassificationState :=
  mkState (currentResult s) (resultHistory s) (config s) (isClassifying s) e
          (pdfExtractionResult s).

Definition setPdfExtractionResult (r : option PDFExtractionResult.t)
  (s : ClassificationState) : ClassificationState :=
  mkState (currentResult s) (resultHistory s) (config s) (isClassifying s) (error s) r.

Definition reset (_ : ClassificationState) : ClassificationState := initialState.

(** [set({ isClassifying: true, error: null })] *)
Definition begin (s : ClassificationState) : ClassificationState :=
  setError None (setClassifying true s).

(** The [catch] block: the state keeps the error and the promise rejects. *)
Definition fail (code message : string) (thrown : Thrown) (s : ClassificationState)
  : Settled * ClassificationState :=
  let appError :=
    {| AppError.type := processing;
       AppError.message := message;
       AppError.details :=
         Some (match thrown with
               | ThrownError msg => msg
               | ThrownValidation _ => "Unknown error"
               end);
       AppError.code := Some code;
       AppError.recoverable := true;
       AppError.suggestedAction := None |} in
  (Rejected appError, setClassifying false (setError (Some appError) s)).

(** [new Error(response.error?.message || fallback)] *)
Definition responseError (response : ApiResponse.t ClassificationResult.t)
  (fallback : string) : Thrown :=
  ThrownError
    (ClassificationService.stringOr
       (option_map ApiError.message (ApiResponse.error response)) fallback).

(** 0.95 as a double. *)
Definition extractionConfidence : spec_float :=
  S754_finite false 8556839292003942 (-53).

Definition one : spec_float := S754_finite false 4503599627370496 (-52).

Definition extraction (pdfMeta : JsValue) : PDFExtractionResult.t :=
  {| PDFExtractionResult.extractedText :=
       Js.or (Js.get "extracted_text_preview" pdfMeta) (JsString "Text extracted from PDF");
     PDFExtractionResult.pageCount :=
       Js.or (Js.get "page_count" pdfMeta) (JsNumber one);
     PDFExtractionResult.extractionMethod := "Multimodal LLM";
     PDFExtractionResult.confidence := extractionConfidence |}.

Section Operations.

Variable apiClient : BackendCall -> ApiResponse.t BackendResult.t.
Variable stack : string -> option string.
Variable stringify : ValidationError.t -> string.

(** The store and the log of backend calls before and after one
    operation.  [response.data!] of a successful response: the service
    always attaches the data (lemma [classifyText_success_has_data]), the
    other branch is never taken. *)
Definition classifyText (request : ClassifyTextRequest.t)
  (s : ClassificationState) (log : list BackendCall)
  : Settled * ClassificationState * list BackendCall :=
  let s1 := begin s in
  match ClassificationService.classifyText apiClient stack stringify request log with
  | (Returned response, log') =>
      if negb (ApiResponse.success response)
      then (fail "CLASSIFICATION_FAILED" "Failed to classify text"
                 (responseError response "Classification failed") s1, log')
      else
        match ApiResponse.data response with
        | Some result =>
            (Resolved result,
             addToHistory result (setClassifying false (setCurrentResult (Some result) s1)),
             log')
        | None =>
            (fail "CLASSIFICATION_FAILED" "Failed to classify text"
                  (ThrownError "Unknown error") s1, log')
        end
  | (Raised thrown, log') =>
      (fail "CLASSIFICATION_FAILED" "Failed to classify text" thrown s1, log')
  end.

Definition classifyPDF (request : ClassifyPDFRequest.t)
  (s : ClassificationState) (log : list BackendCall)
  : Settled * ClassificationState * list BackendCall :=
  let s1 := begin s in
  match ClassificationService.classifyPDF apiClient stack stringify request log with
  | (Returned response, log') =>
      if negb (ApiResponse.success response)
      then (fail "PDF_CLASSIFICATION_FAILED" "Failed to classify PDF"
                 (responseError response "PDF classification failed") s1, log')
      else
        match ApiResponse.data response with
        | Some result =>
            let pdfMeta := Js.lookup "pdf_metadata" (ClassificationResult.metadata result) in
            let s2 :=
              if Js.truthy pdfMeta
              then setPdfExtractionResult (Some (extraction pdfMeta)) s1
              else s1 in
            (Resolved result,
             addToHistory result (setClassifying false (setCurrentResult (Some result) s2)),
             log')
        | None =>
            (fail "PDF_CLASSIFICATION_FAILED" "Failed to classify PDF"
                  (ThrownError "Unknown error") s1, log')
        end
  | (Raised thrown, log') =>
      (fail "PDF_CLASSIFICATION_FAILED" "Failed to classify PDF" thrown s1, log')
  end.

End Operations.

(** A state holds a result when it is the current one or in the history. *)
Definition holds (s : ClassificationState) (r : ClassificationResult.t) : Prop :=
  currentResult s = Some r \/ In r (resultHistory s).

End ClassificationStore.

(* ================================================================== *)
(** ** components/classification/ClassificationOptions.tsx *)
(* ================================================================== *)

Module ClassificationOptions.

Import ClassificationConfig.

(** Each handler returns the configuration it passes to [onConfigChange],
    or [None] when it returns without calling it. *)
Definition handleToggleReranking (availableModels : list string) (config : t) : option t :=
  Some (mk (negb (useReranking config))
           (if negb (useReranking config) then hd_error availableModels
            else rerankingModel config)
           (rerankingParams config)
           (useAttributeValidation config)
           (topKCandidates config)).

Definition handleToggleAttributeValidation (attributesExist : bool) (config : t) : option t :=
  if negb (useAttributeValidation config) && negb attributesExist then None
  else Some (mk (useReranking config) (rerankingModel config) (rerankingParams config)
                (negb (useAttributeValidation config)) (topKCandidates config)).

Definition handleRerankingModelChange (modelId : string) (config : t) : option t :=
  Some (mk (useReranking config) (Some modelId) (rerankingParams config)
           (useAttributeValidation config) (topKCandidates config)).

Definition handleTopKChange (value : Z) (config : t) : option t :=
  Some (mk (useReranking config) (rerankingModel config) (rerankingParams config)
           (useAttributeValidation config)
           (Z.max 1 (Z.min 20 value))).

(** The effect that switches attribute validation off when the data set
    has no attributes (or none is selected, or the check fails). *)
Definition checkAttributes (found : bool) (config : t) : option t :=
  if useAttributeValidation config && negb found
  then Some (mk (useReranking config) (rerankingModel config) (rerankingParams config)
                false (topKCandidates config))
  else None.

Inductive Event : Type :=
| ToggleReranking (availableModels : list string)
| ToggleAttributeValidation (attributesExist : bool)
| RerankingModelChange (modelId : string)
| TopKChange (value : Z)
| CheckAttributes (found : bool).

Definition handle (e : Event) : t -> option t :=
  match e with
  | ToggleReranking models => handleToggleReranking models
  | ToggleAttributeValidation attributesExist =>
      handleToggleAttributeValidation attributesExist
  | RerankingModelChange modelId => handleRerankingModelChange modelId
  | TopKChange value => handleTopKChange value
  | CheckAttributes found => checkAttributes found
  end.

(** The configurations the panel passes to [onConfigChange] when the
    parent feeds each one back as the next [config] prop. *)
Inductive emits (start : t) : t -> Prop :=
| emits_first e c : handle e start = Some c -> emits start c
| emits_next e c c' : emits start c -> handle e c = Some c' -> emits start c'.

End ClassificationOptions.

(* ================================================================== *)
(** ** Attribute rules (types/attributes.ts) *)
(* ================================================================== *)

Inductive AttributeConditionType : Type :=
| text_match | numeric_range | boolean | custom.

Module AttributeCondition.
Record t : Type := mk {
  id : string;
  description : string;
  type : AttributeConditionType;
  parameters : option (list (string * JsValue))
}.
End AttributeCondition.

Inductive Operator : Type := AND | OR.

(** [conditions: (string | AttributeCondition | AttributeRule)[]] *)
Inductive AttributeRule : Type :=
| Rule (operator : Operator) (conditions : list RuleEntry)
with RuleEntry : Type :=
| Text (s : string)
| Condition (c : AttributeCondition.t)
| Nested (rule : AttributeRule).

Definition operator (rule : AttributeRule) : Operator :=
  match rule with Rule op _ => op end.

Definition conditions (rule : AttributeRule) : list RuleEntry :=
  match rule with Rule _ cs => cs end.

Definition operatorName (op : Operator) : string :=
  match op with AND => "AND" | OR => "OR" end.

Definition conditionTypeName (ty : AttributeConditionType) : string :=
  match ty with
  | text_match => "text_match"
  | numeric_range => "numeric_range"
  | boolean => "boolean"
  | custom => "custom"
  end.

(** [list.includes(s)] *)
Definition includes (l : list string) (s : string) : bool :=
  existsb (String.eqb s) l.

Section RuleInduction.

Variable P : AttributeRule -> Prop.
Variable Q : RuleEntry -> Prop.
Hypothesis HRule : forall op cs, Forall Q cs -> P (Rule op cs).
Hypothesis HText : forall s, Q (Text s).
Hypothesis HCondition : forall c, Q (Condition c).
Hypothesis HNested : forall r, P r -> Q (Nested r).

Fixpoint AttributeRule_ind' (r : AttributeRule) : P r :=
  match r with
  | Rule op cs =>
      HRule op cs
        ((fix all (l : list RuleEntry) : Forall Q l :=
            match l with
            | [] => Forall_nil Q
            | e :: rest =>
                @Forall_cons RuleEntry Q e rest
                  (match e return Q e with
                   | Text s => HText s
                   | Condition c => HCondition c
                   | Nested r' => HNested r' (AttributeRule_ind' r')
                   end)
                  (all rest)
            end) cs)
  end.

Definition RuleEntry_ind' (e : RuleEntry) : Q e :=
  match e with
  | Text s => HText s
  | Condition c => HCondition c
  | Nested r => HNested r (AttributeRule_ind' r)
  end.

End RuleInduction.

(** The result of a validator: [{ isValid, errors }]. *)
Record Validation : Type := mkValidation {
  isValid : bool;
  errors : list string
}.

Definition report (errs : list string) : Validation :=
  {| isValid := (List.length errs =? 0); errors := errs |}.

Definition emptyRuleMessage : string := "Rule must have at least one condition".

(** [errors.push(...)] for each element of [conditions], in order;
    [index] counts from 0. *)
Section ForEach.
Variable check : nat -> RuleEntry -> list string.
Fixpoint forEach (index : nat) (cs : list RuleEntry) : list string :=
  match cs with
  | [] => []
  | c :: rest => check index c ++ forEach (S index) rest
  end.
End ForEach.

Definition quote : string := String (ascii_of_nat 34) EmptyString.

Definition operatorMessage : string :=
  ("Rule operator must be either " ++ quote ++ "AND" ++ quote
   ++ " or " ++ quote ++ "OR" ++ quote)%string.

(** The two checks on the node itself, shared by both validators. *)
Definition nodeErrors (op : Operator) (cs : list RuleEntry) : list string :=
  (if String.eqb (operatorName op) EmptyString || negb (includes ["AND"; "OR"] (operatorName op))
   then [operatorMessage] else [])
  ++ (if List.length cs =? 0 then [emptyRuleMessage] else []).

Definition prefixed (kind : string) (index : nat) (text : string) : string :=
  (kind ++ " " ++ JsString.ofNat (index + 1) ++ ": " ++ text)%string.

(* ------------------------------------------------------------------ *)
(** *** services/dataset-service.ts *)

Module DatasetService.

Definition validateAttributeCondition (c : AttributeCondition.t) : Validation :=
  report
    ((if JsString.blank (Some (AttributeCondition.id c))
      then ["Condition ID is required"] else [])
     ++ (if JsString.blank (Some (AttributeCondition.description c))
         then ["Condition description is required"] else [])
     ++ (if String.eqb (conditionTypeName (AttributeCondition.type c)) EmptyString
            || negb (includes ["text_match"; "numeric_range"; "boolean"; "custom"]
                       (conditionTypeName (AttributeCondition.type c)))
         then ["Condition type must be one of: text_match, numeric_range, boolean, custom"]
         else [])
     ++ (if negb (String.eqb (AttributeCondition.description c) EmptyString)
            && (200 <? String.length (AttributeCondition.description c))
         then ["Condition description must be less than 200 characters"] else [])).

Fixpoint validateAttributeRule (rule : AttributeRule) : Validation :=
  match rule with
  | Rule op cs =>
      report
        (nodeErrors op cs
         ++ forEach
              (fun index entry =>
                 match entry with
                 | Text s =>
                     if JsString.blank (Some s)
                     then [prefixed "Condition" index "Cannot be empty"] else []
                 | Nested r =>
                     let nestedValidation := validateAttributeRule r in
                     if negb (isValid nestedValidation)
                     then [prefixed "Nested rule" index
                             (JsString.join ", " (errors nestedValidation))]
                     else []
                 | Condition c =>
                     let conditionValidation := validateAttributeCondition c in
                     if negb (isValid conditionValidation)
                     then [prefixed "Condition" index
                             (JsString.join ", " (errors conditionValidation))]
                     else []
                 end)
              0 cs)
  end.

End DatasetService.

(* ------------------------------------------------------------------ *)
(** *** components/attributes/AttributeEditor.tsx *)

Module AttributeEditor.

Fixpoint validateRule (rule : AttributeRule) : Validation :=
  match rule with
  | Rule op cs =>
      report
        (nodeErrors op cs
         ++ forEach
              (fun index entry =>
                 match entry with
                 | Text s =>
                     if JsString.blank (Some s)
                     then [prefixed "Condition" index "Cannot be empty"] else []
                 | Nested r =>
                     let nestedValidation := validateRule r in
                     if negb (isValid nestedValidation)
                     then [prefixed "Nested rule" index
                             (JsString.join ", " (errors nestedValidation))]
                     else []
                 | Condition c =>
                     (if JsString.blank (Some (AttributeCondition.id c))
                      then [prefixed "Condition" index "ID is required"] else [])
                     ++ (if JsString.blank (Some (AttributeCondition.description c))
                         then [prefixed "Condition" index "Description is required"]
                         else [])
                 end)
              0 cs)
  end.

(** [canSave]: the Save button is enabled for a valid, edited rule. *)
Definition canSave (rule : AttributeRule) (hasChanges : bool) : bool :=
  isValid (validateRule rule) && hasChanges.

End AttributeEditor.

(** A rule node with no condition occurs in the rule. *)
Fixpoint hasEmptyNode (rule : AttributeRule) : bool :=
  match rule with
  | Rule _ cs =>
      (List.length cs =? 0)
      || existsb (fun entry =>
                    match entry with
                    | Nested r => hasEmptyNode r
                    | _ => false
                    end) cs
  end.

(* ================================================================== *)
(** ** The decision core (backend) *)
(* ================================================================== *)

Module Core.

(** Modelled from the spec: the ConditionOracle of section 6.  The backend
    is not among the sources; [judge(description, document)] answers
    with a judgment or fails. *)
Inductive Judgment : Type :=
| JudgmentResult (satisfied : bool) (confidence : option spec_float)
| JudgmentError (message : string).

(** Modelled from the spec: the [type] of the node an AND or OR rule
    evaluates to (section 3, EvaluationTreeNode). *)
Definition nodeTypeOf (op : Operator) : NodeType :=
  match op with AND => AND_node | OR => OR_node end.

(** Modelled from the spec: a node that was not evaluated (section 4.1,
    "remaining children are marked skipped = true, satisfied = null");
    the evaluator of the backend is not among the sources.  A skipped
    rule keeps its shape, all of it skipped. *)
Fixpoint skipRule (rule : AttributeRule) : EvaluationTreeNode :=
  match rule with
  | Rule op cs =>
      mkNode (nodeTypeOf op) None None
        (map (fun entry =>
                match entry with
                | Nested r => skipRule r
                | Text s => mkNode condition_node None (Some s) [] true None
                | Condition c =>
                    mkNode condition_node None
                      (Some (AttributeCondition.description c)) [] true None
                end) cs)
        true None
  end.

(** Modelled from the spec: the same for one entry of [conditions]; a bare
    string is a condition whose description is the string (section 3). *)
Definition skipEntry (entry : RuleEntry) : EvaluationTreeNode :=
  match entry with
  | Nested r => skipRule r
  | Text s => mkNode condition_node None (Some s) [] true None
  | Condition c =>
      mkNode condition_node None (Some (AttributeCondition.description c)) [] true None
  end.

(** Modelled from the spec: the evaluator calls the oracle (section 4.1);
    here it threads the list of the descriptions sent to it, oldest
    first. *)
Definition Eval (A : Type) : Type := list string -> A * list string.

(** Modelled from the spec: section 4.1, "short-circuit on the first child
    with satisfied = false" (AND) and "with satisfied = true" (OR). *)
Definition shortCircuits (op : Operator) (child : EvaluationTreeNode) : bool :=
  match op, satisfied child with
  | AND, Some false => true
  | OR, Some true => true
  | _, _ => false
  end.

(** Modelled from the spec: section 4.1, a child counts as satisfied only
    when [satisfied = true]; a failed or skipped leaf does not
    ("fail-closed"). *)
Definition isTrue (child : EvaluationTreeNode) : bool :=
  match satisfied child with Some true => true | _ => false end.

(** Modelled from the spec: section 4.1, the [satisfied] flag of a node
    from its children: AND is true only if every child is true, OR is
    true if some child is true. *)
Definition combine (op : Operator) (children : list EvaluationTreeNode) : bool :=
  match op with
  | AND => forallb isTrue children
  | OR => existsb isTrue children
  end.

Section Children.
Variable evalEntry : RuleEntry -> Eval EvaluationTreeNode.
Variable op : Operator.

(** Modelled from the spec: section 4.1, children "in declared order";
    once [stopped], the remaining ones are skipped and not sent to the
    oracle. *)
Fixpoint evalChildren (stopped : bool) (cs : list RuleEntry)
  : Eval (list EvaluationTreeNode) :=
  fun log =>
    match cs with
    | [] => ([], log)
    | c :: rest =>
        if stopped
        then let '(nodes, log') := evalChildren true rest log in
             (skipEntry c :: nodes, log')
        else let '(node, log1) := evalEntry c log in
             let '(nodes, log2) := evalChildren (shortCircuits op node) rest log1 in
             (node :: nodes, log2)
    end.
End Children.

Section Evaluator.

Variable judge : string -> string -> Judgment.
Variable document : string.

(** Modelled from the spec: section 4.1, a leaf is sent to the oracle; on
    failure [satisfied = null] and the message is attached. *)
Definition evalLeaf (description : string) : Eval EvaluationTreeNode :=
  fun log =>
    (match judge description document with
     | JudgmentResult result _ =>
         mkNode condition_node (Some result) (Some description) [] false None
     | JudgmentError message =>
         mkNode condition_node None (Some description) [] false (Some message)
     end,
     log ++ [description]).

(** Modelled from the spec: [evaluate(rule, document)] of section 4.1; the
    backend evaluator is not among the sources.  An empty [conditions]
    list is [satisfied = false] with an explanatory error. *)
Fixpoint evaluate (rule : AttributeRule) : Eval EvaluationTreeNode :=
  fun log =>
    match rule with
    | Rule op [] =>
        (mkNode (nodeTypeOf op) (Some false) None [] false (Some emptyRuleMessage), log)
    | Rule op cs =>
        let '(nodes, log') :=
          evalChildren
            (fun entry =>
               match entry with
               | Nested r => evaluate r
               | Text s => evalLeaf s
               | Condition c => evalLeaf (AttributeCondition.description c)
               end)
            op false cs log in
        (mkNode (nodeTypeOf op) (Some (combine op nodes)) None nodes false None, log')
    end.

(** Modelled from the spec: the evaluation of one entry of [conditions]:
    a nested rule by [evaluate], a condition or bare string as a leaf. *)
Definition evalEntry (entry : RuleEntry) : Eval EvaluationTreeNode :=
  match entry with
  | Nested r => evaluate r
  | Text s => evalLeaf s
  | Condition c => evalLeaf (AttributeCondition.description c)
  end.

(** Modelled from the spec: the node an entry evaluates to, and the
    oracle calls it costs, starting from an empty log. *)
Definition entryNode (entry : RuleEntry) : EvaluationTreeNode := fst (evalEntry entry []).
Definition entryCalls (entry : RuleEntry) : list string := snd (evalEntry entry []).

End Evaluator.

(* ------------------------------------------------------------------ *)
(** *** ScoreAggregator and pipeline *)

(** Modelled from the spec: section 3, a class of the class set with its
    optional RequiredAttributes. *)
Module ClassEntry.
Record t : Type := mk {
  class : ClassDefinition.t;
  requiredAttributes : option AttributeRule
}.
End ClassEntry.

(** Modelled from the spec: section 3, ClassificationCandidate. *)
Module Candidate.
Record t : Type := mk {
  class : ClassDefinition.t;
  similarity : spec_float;
  rerank : option spec_float;
  attribute : option spec_float;
  effective : spec_float
}.
End Candidate.

(** Modelled from the spec: section 3, ClassificationResult, without the
    processing time. *)
Module Result.
Record t : Type := mk {
  predicted : ClassDefinition.t;
  primaryCandidate : Candidate.t;
  alternatives : list Candidate.t;
  evaluationTree : option EvaluationTreeNode
}.
End Result.

(** Modelled from the spec: section 7, the failures of the pipeline. *)
Inductive Failure : Type :=
| InputError (message : string)
| RetrievalError.

(** Modelled from the spec: section 6, what [Pipeline.classify] returns. *)
Inductive Classified : Type :=
| Done (result : Result.t)
| Failed (failure : Failure).

(** Modelled from the spec: the scores 0.0 and 1.0 of section 4.2. *)
Definition scoreZero : spec_float := S754_zero false.
Definition scoreOne : spec_float := S754_finite false 4503599627370496 (-52).

(** Modelled from the spec: section 4.2, "all scores are floats clamped to
    [0, 1]"; the aggregator of the backend is not among the sources. *)
Definition clamp (x : spec_float) : spec_float :=
  if SFltb x scoreZero then scoreZero
  else if SFltb scoreOne x then scoreOne
  else x.

(** Modelled from the spec: section 4.2, the effective score: the rerank
    score when reranking was requested and the reranker scored the
    candidate, the similarity score otherwise. *)
Definition effectiveScore (useReranking : bool) (similarity : spec_float)
  (rerank : option spec_float) : spec_float :=
  if useReranking
  then match rerank with
       | Some r => r
       | None => similarity
       end
  else similarity.

(** Modelled from the spec: section 6, the score a reranker returned for
    a class; none means "no rerank opinion". *)
Fixpoint scoreFor (id : string) (scores : list (ClassDefinition.t * spec_float))
  : option spec_float :=
  match scores with
  | [] => None
  | (c, x) :: rest =>
      if String.eqb (ClassDefinition.id c) id then Some x else scoreFor id rest
  end.

(** Modelled from the spec: one candidate of section 3, built from the
    similarity pair and the reranker's answer. *)
Definition candidate (useReranking : bool)
  (rescored : list (ClassDefinition.t * spec_float))
  (pair : ClassDefinition.t * spec_float) : Candidate.t :=
  let similarity := clamp (snd pair) in
  let rerank :=
    if useReranking
    then option_map clamp (scoreFor (ClassDefinition.id (fst pair)) rescored)
    else None in
  {| Candidate.class := fst pair;
     Candidate.similarity := similarity;
     Candidate.rerank := rerank;
     Candidate.attribute := None;
     Candidate.effective := effectiveScore useReranking similarity rerank |}.

(** Modelled from the spec: section 3, "sorted descending by effective with
    stable tie-break by original similarity rank": a stable insertion
    sort. *)
Fixpoint insertCandidate (x : Candidate.t) (sorted : list Candidate.t)
  : list Candidate.t :=
  match sorted with
  | [] => [x]
  | y :: rest =>
      if SFltb (Candidate.effective x) (Candidate.effective y)
      then y :: insertCandidate x rest
      else x :: sorted
  end.

(** Modelled from the spec: the ranking of section 4.2, by [insertCandidate]. *)
Fixpoint rankCandidates (candidates : list Candidate.t) : list Candidate.t :=
  match candidates with
  | [] => []
  | x :: rest => insertCandidate x (rankCandidates rest)
  end.

(** Modelled from the spec: the RequiredAttributes attached to a class
    of the class set (section 3). *)
Fixpoint requiredAttributesOf (id : string) (classSet : list ClassEntry.t)
  : option AttributeRule :=
  match classSet with
  | [] => None
  | entry :: rest =>
      if String.eqb (ClassDefinition.id (ClassEntry.class entry)) id
      then ClassEntry.requiredAttributes entry
      else requiredAttributesOf id rest
  end.

(** Modelled from the spec: section 4.2, the attribute score: "1.0 if the
    root evaluation tree is satisfied = true, 0.0 otherwise". *)
Definition attributeScore (tree : EvaluationTreeNode) : spec_float :=
  match satisfied tree with
  | Some true => scoreOne
  | _ => scoreZero
  end.

(** Modelled from the spec: section 4.2, the attribute score is reported
    alongside the candidate; its other scores stay. *)
Definition withAttribute (attribute : option spec_float) (c : Candidate.t) : Candidate.t :=
  {| Candidate.class := Candidate.class c;
     Candidate.similarity := Candidate.similarity c;
     Candidate.rerank := Candidate.rerank c;
     Candidate.attribute := attribute;
     Candidate.effective := Candidate.effective c |}.

Section Pipeline.

(** Modelled from the spec: the three oracles of section 6; [None] is an
    oracle failure. *)
Variable rank :
  string -> list ClassDefinition.t -> Z -> option (list (ClassDefinition.t * spec_float)).
Variable rerank :
  string -> list (ClassDefinition.t * spec_float) -> string
  -> option (list (ClassDefinition.t * spec_float)).
Variable judge : string -> string -> Judgment.

(** Modelled from the spec: the Reranking stage of section 4.3; a failure
    of the reranker falls back to similarity for all candidates. *)
Definition rescore (config : ClassificationConfig.t) (document : string)
  (retained : list (ClassDefinition.t * spec_float))
  : list (ClassDefinition.t * spec_float) :=
  if ClassificationConfig.useReranking config
  then match rerank document retained
               (ClassificationService.stringOr
                  (ClassificationConfig.rerankingModel config) EmptyString) with
       | Some scores => scores
       | None => []
       end
  else [].

(** Modelled from the spec: the Validating stage: the rule of the primary
    candidate only, and only when validation is requested and the class
    has required attributes. *)
Definition validatePrimary (config : ClassificationConfig.t) (document : string)
  (classSet : list ClassEntry.t) (primary : Candidate.t)
  : Eval (option EvaluationTreeNode) :=
  fun log =>
    if ClassificationConfig.useAttributeValidation config
    then match requiredAttributesOf (ClassDefinition.id (Candidate.class primary)) classSet with
         | Some rule =>
             let '(tree, log') := evaluate judge document rule log in
             (Some tree, log')
         | None => (None, log)
         end
    else (None, log).

(** Modelled from the spec: the Retrieving stage of section 4.3, the
    similarity pairs kept: the first [topKCandidates] of the ranker. *)
Definition retainedOf (document : string) (classSet : list ClassEntry.t)
  (config : ClassificationConfig.t) : list (ClassDefinition.t * spec_float) :=
  match rank document (map ClassEntry.class classSet)
             (ClassificationConfig.topKCandidates config) with
  | Some ranked => firstn (Z.to_nat (ClassificationConfig.topKCandidates config)) ranked
  | None => []
  end.

(** Modelled from the spec: the candidates of a request, in similarity
    order. *)
Definition candidatesFor (document : string) (classSet : list ClassEntry.t)
  (config : ClassificationConfig.t) : list Candidate.t :=
  map (candidate (ClassificationConfig.useReranking config)
         (rescore config document (retainedOf document classSet config)))
      (retainedOf document classSet config).

(** Modelled from the spec: [Pipeline.classify] of sections 4.3 and 6; the
    backend pipeline is not among the sources.  The second component is
    the list of leaf descriptions sent to the condition oracle. *)
Definition classify (document : string) (classSet : list ClassEntry.t)
  (config : ClassificationConfig.t) : Classified * list string :=
  if String.eqb document EmptyString then (Failed (InputError "empty document"), [])
  else if (List.length classSet =? 0)%nat then (Failed (InputError "empty class set"), [])
  else if ((ClassificationConfig.topKCandidates config <? 1)%Z
           || (100 <? ClassificationConfig.topKCandidates config)%Z)
  then (Failed (InputError "topKCandidates outside [1,100]"), [])
  else
    match rank document (map ClassEntry.class classSet)
               (ClassificationConfig.topKCandidates config) with
    | None => (Failed RetrievalError, [])
    | Some ranked =>
        let retained :=
          firstn (Z.to_nat (ClassificationConfig.topKCandidates config)) ranked in
        let rescored := rescore config document retained in
        let candidates :=
          map (candidate (ClassificationConfig.useReranking config) rescored) retained in
        match rankCandidates candidates with
        | [] => (Failed RetrievalError, [])
        | primary :: alternatives =>
            let '(tree, log) := validatePrimary config document classSet primary [] in
            (Done {| Result.predicted := Candidate.class primary;
                     Result.primaryCandidate :=
                       withAttribute (option_map attributeScore tree) primary;
                     Result.alternatives := alternatives;
                     Result.evaluationTree := tree |},
             log)
        end
    end.

End Pipeline.

(** The configuration with [useAttributeValidation] set to [flag]. *)
Definition setValidation (flag : bool) (config : ClassificationConfig.t)
  : ClassificationConfig.t :=
  ClassificationConfig.mk
    (ClassificationConfig.useReranking config)
    (ClassificationConfig.rerankingModel config)
    (ClassificationConfig.rerankingParams config)
    flag
    (ClassificationConfig.topKCandidates config).

(** Modelled from the spec: the candidates of a result, the primary one
    first. *)
Definition candidatesOf (r : Result.t) : list Candidate.t :=
  Result.primaryCandidate r :: Result.alternatives r.

(** Modelled from the spec: the predicted class, when there is a result. *)
Definition predictedOf (c : Classified) : option ClassDefinition.t :=
  match c with
  | Done r => Some (Result.predicted r)
  | Failed _ => None
  end.

End Core.

From Stdlib Require DecimalNat.

(* ================================================================== *)
(** ** services/attribute-service.ts: requests and their validation *)
(* ================================================================== *)

(** [lastUpdated] is a Date and is left out. *)
Module ClassAttribute.
Record t : Type := mk {
  classId : string;
  className : string;
  requiredAttributes : option AttributeRule;
  generated : bool
}.
End ClassAttribute.

Module SaveAttributesRequest.
Record t : Type := mk {
  datasetId : string;
  attributes : list ClassAttribute.t
}.
End SaveAttributesRequest.

(** Checks run one after the other inside [forEach]: the first [throw]
    leaves the loop. *)
Fixpoint firstThrow {A : Type} (check : nat -> A -> Outcome unit) (index : nat)
  (items : list A) : Outcome unit :=
  match items with
  | [] => Returned tt
  | item :: rest => andThen (check index item) (firstThrow check (S index) rest)
  end.

Module AttributeService.

Import ErrorHandler.

Definition validateDatasetId (datasetId : string) : Outcome unit :=
  throwIf (JsString.blank (Some datasetId))
    (createValidationError "Dataset ID is required" (Some "datasetId")).

(** [`attributes[${index}].${name}`] *)
Definition attributeField (index : nat) (name : string) : string :=
  ("attributes[" ++ JsString.ofNat index ++ "]." ++ name)%string.

(** [`Attribute ${index + 1} ${text}`] *)
Definition attributeMessage (index : nat) (text : string) : string :=
  ("Attribute " ++ JsString.ofNat (index + 1) ++ " " ++ text)%string.

(** The body of [request.attributes.forEach] in [validateSaveRequest]. *)
Definition validateAttribute (index : nat) (attr : ClassAttribute.t) : Outcome unit :=
  andThen
    (throwIf (JsString.blank (Some (ClassAttribute.classId attr)))
       (createValidationError (attributeMessage index "class ID is required")
          (Some (attributeField index "classId"))))
    (andThen
       (throwIf (JsString.blank (Some (ClassAttribute.className attr)))
          (createValidationError (attributeMessage index "class name is required")
             (Some (attributeField index "className"))))
       (match ClassAttribute.requiredAttributes attr with
        | None =>
            Raised (ThrownValidation
                      (createValidationError
                         (attributeMessage index "required attributes are required")
                         (Some (attributeField index "requiredAttributes"))))
        | Some rule =>
            let ruleValidation := DatasetService.validateAttributeRule rule in
            throwIf (negb (isValid ruleValidation))
              (createValidationError
                 (attributeMessage index
                    ("rule validation failed: "
                       ++ JsString.join ", " (errors ruleValidation))%string)
                 (Some (attributeField index "requiredAttributes")))
        end)).

Definition validateSaveRequest (request : SaveAttributesRequest.t) : Outcome unit :=
  andThen (validateDatasetId (SaveAttributesRequest.datasetId request))
    (andThen
       (throwIf (List.length (SaveAttributesRequest.attributes request) =? 0)
          (createValidationError "At least one attribute is required" (Some "attributes")))
       (andThen
          (throwIf (50 <? List.length (SaveAttributesRequest.attributes request))
             (createValidationError "Maximum 50 attributes allowed" (Some "attributes")))
          (firstThrow validateAttribute 0 (SaveAttributesRequest.attributes request)))).

(** One element of [classes] in the backend's attribute document. *)
Record AttributeClass : Type := mkAttributeClass {
  class_name : string;
  class_description : string;
  required_attributes : option AttributeRule
}.

(** [getAttributes]: the conversion of one class of the response;
    [generated] comes from the metadata. *)
Definition processedAttribute (generatedFlag : bool) (cls : AttributeClass)
  : ClassAttribute.t :=
  {| ClassAttribute.classId := ClassificationService.classId (class_name cls);
     ClassAttribute.className := class_name cls;
     ClassAttribute.requiredAttributes :=
       Some (match required_attributes cls with
             | Some rule => rule
             | None => Rule AND []
             end);
     ClassAttribute.generated := generatedFlag |}.

Definition processedAttributes (generatedFlag : bool) (classes : list AttributeClass)
  : list ClassAttribute.t :=
  map (processedAttribute generatedFlag) classes.

(** [saveAttributes]: one element of [requestData.classes]. *)
Definition savedClass (attr : ClassAttribute.t) : AttributeClass :=
  {| class_name := ClassAttribute.className attr;
     class_description := (ClassAttribute.className attr ++ " class attributes")%string;
     required_attributes := ClassAttribute.requiredAttributes attr |}.

Definition savedClasses (request : SaveAttributesRequest.t) : list AttributeClass :=
  map savedClass (SaveAttributesRequest.attributes request).

End AttributeService.

(** A rule both validators' checks can be read off: every node has a
    condition, no text condition is blank, and every condition object
    passes [conditionOk]. *)
Section WellFormed.
Variable conditionOk : AttributeCondition.t -> bool.
Fixpoint wellFormed (rule : AttributeRule) : bool :=
  match rule with
  | Rule _ cs =>
      negb (List.length cs =? 0)
      && forallb (fun entry =>
                    match entry with
                    | Text s => negb (JsString.blank (Some s))
                    | Condition c => conditionOk c
                    | Nested r => wellFormed r
                    end) cs
  end.
End WellFormed.

(** What [validateAttributeCondition] asks of a condition object. *)
Definition serviceConditionOk (c : AttributeCondition.t) : bool :=
  negb (JsString.blank (Some (AttributeCondition.id c)))
  && negb (JsString.blank (Some (AttributeCondition.description c)))
  && (String.length (AttributeCondition.description c) <=? 200).

(** What the editor's [validateRule] asks of a condition object. *)
Definition editorConditionOk (c : AttributeCondition.t) : bool :=
  negb (JsString.blank (Some (AttributeCondition.id c)))
  && negb (JsString.blank (Some (AttributeCondition.description c))).

(** A string of [n] copies of one character. *)
Fixpoint repeatChar (n : nat) (c : ascii) : string :=
  match n with
  | 0 => EmptyString
  | S k => String c (repeatChar k c)
  end.

(** What [validateSaveRequest] asks of one attribute and of a request. *)
Definition attributeOk (attr : ClassAttribute.t) : bool :=
  negb (JsString.blank (Some (ClassAttribute.classId attr)))
  && negb (JsString.blank (Some (ClassAttribute.className attr)))
  && match ClassAttribute.requiredAttributes attr with
     | Some rule => wellFormed serviceConditionOk rule
     | None => false
     end.

Definition saveRequestOk (request : SaveAttributesRequest.t) : bool :=
  negb (JsString.blank (Some (SaveAttributesRequest.datasetId request)))
  && (1 <=? List.length (SaveAttributesRequest.attributes request))
  && (List.length (SaveAttributesRequest.attributes request) <=? 50)
  && forallb attributeOk (SaveAttributesRequest.attributes request).

(** The rule a class ends up with after [getAttributes]. *)
Definition loadedRule (cls : AttributeService.AttributeClass) : AttributeRule :=
  match AttributeService.required_attributes cls with
  | Some rule => rule
  | None => Rule AND []
  end.

(** A class of the backend's document that can be saved back as loaded. *)
Definition loadedClassOk (cls : AttributeService.AttributeClass) : bool :=
  negb (JsString.blank (Some (AttributeService.class_name cls)))
  && match AttributeService.required_attributes cls with
     | Some rule => wellFormed serviceConditionOk rule
     | None => false
     end.

(* ================================================================== *)
(** ** components/attributes/ConditionBuilder.tsx *)
(* ================================================================== *)

Module ConditionBuilder.

(** Each handler returns the rule it passes to [onChange]. *)
Definition addCondition (rule : AttributeRule) : AttributeRule :=
  Rule (operator rule) (conditions rule ++ [Text EmptyString]).

Definition addNestedRule (op : Operator) (rule : AttributeRule) : AttributeRule :=
  Rule (operator rule) (conditions rule ++ [Nested (Rule op [])]).

(** [newConditions[index] = condition] on a copy of the array: inside
    the array the element is replaced, at its end the array grows by
    one.  Further out JavaScript leaves holes, which no rule has: [None]. *)
Fixpoint assign (index : nat) (condition : RuleEntry) (cs : list RuleEntry)
  : option (list RuleEntry) :=
  match index, cs with
  | 0, [] => Some [condition]
  | 0, _ :: rest => Some (condition :: rest)
  | S i, c :: rest => option_map (cons c) (assign i condition rest)
  | S _, [] => None
  end.

Definition updateCondition (index : nat) (condition : RuleEntry) (rule : AttributeRule)
  : option AttributeRule :=
  option_map (Rule (operator rule)) (assign index condition (conditions rule)).

(** [conditions.filter((_, i) => i !== index)] *)
Fixpoint without (index : nat) (cs : list RuleEntry) {struct cs} : list RuleEntry :=
  match cs with
  | [] => []
  | c :: rest =>
      match index with
      | 0 => rest
      | S i => c :: without i rest
      end
  end.

Definition removeCondition (index : nat) (rule : AttributeRule) : AttributeRule :=
  Rule (operator rule) (without index (conditions rule)).

Definition toggleOperator (rule : AttributeRule) : AttributeRule :=
  Rule (match operator rule with AND => OR | OR => AND end) (conditions rule).

End ConditionBuilder.

(* ================================================================== *)
(** ** What a classification call sends *)
(* ================================================================== *)

(** The request [classifyText] sends for a request that passed
    validation. *)
Definition textCallOf (request : ClassifyTextRequest.t) : list BackendCall :=
  match ClassificationService.validateTextRequest request,
        ClassifyTextRequest.config request with
  | Returned _, Some config =>
      [PostClassifyText (ClassifyTextRequest.text request)
         (ClassifyTextRequest.datasetId request)
         (ClassificationService.configPayload config)]
  | _, _ => []
  end.

Definition pdfCallOf (request : ClassifyPDFRequest.t) : list BackendCall :=
  match ClassificationService.validatePDFRequest request,
        ClassifyPDFRequest.file request,
        ClassifyPDFRequest.config request with
  | Returned _, Some file, Some config =>
      [UploadClassifyPdf file (ClassifyPDFRequest.datasetId request)
         (ClassificationService.configPayload config)]
  | _, _, _ => []
  end.

(** The backend answered the call with a usable payload. *)
Definition answered (apiClient : BackendCall -> ApiResponse.t BackendResult.t)
  (call : BackendCall) : Prop :=
  ApiResponse.success (apiClient call) = true
  /\ exists payload,
       ApiResponse.data (apiClient call) = Some payload
       /\ BackendResult.predicted_class payload <> None.

(* ================================================================== *)
(** ** stores/classification-store.ts: the remaining actions *)
(* ================================================================== *)

(** [Partial<ClassificationConfig>]: a key that is absent leaves the
    field as it is. *)
Module PartialConfig.
Record t : Type := mk {
  useReranking : option bool;
  rerankingModel : option (option string);
  rerankingParams : option (option (list (string * JsValue)));
  useAttributeValidation : option bool;
  topKCandidates : option Z
}.
Definition ofConfig (c : ClassificationConfig.t) : t :=
  {| useReranking := Some (ClassificationConfig.useReranking c);
     rerankingModel := Some (ClassificationConfig.rerankingModel c);
     rerankingParams := Some (ClassificationConfig.rerankingParams c);
     useAttributeValidation := Some (ClassificationConfig.useAttributeValidation c);
     topKCandidates := Some (ClassificationConfig.topKCandidates c) |}.
End PartialConfig.

Module StoreActions.

Import ClassificationStore.

Definition orKeep {A : Type} (update : option A) (current : A) : A :=
  match update with
  | Some v => v
  | None => current
  end.

(** [{ ...config, ...updates }] *)
Definition merge (config : ClassificationConfig.t) (updates : PartialConfig.t)
  : ClassificationConfig.t :=
  {| ClassificationConfig.useReranking :=
       orKeep (PartialConfig.useReranking updates)
              (ClassificationConfig.useReranking config);
     ClassificationConfig.rerankingModel :=
       orKeep (PartialConfig.rerankingModel updates)
              (ClassificationConfig.rerankingModel config);
     ClassificationConfig.rerankingParams :=
       orKeep (PartialConfig.rerankingParams updates)
              (ClassificationConfig.rerankingParams config);
     ClassificationConfig.useAttributeValidation :=
       orKeep (PartialConfig.useAttributeValidation updates)
              (ClassificationConfig.useAttributeValidation config);
     ClassificationConfig.topKCandidates :=
       orKeep (PartialConfig.topKCandidates updates)
              (ClassificationConfig.topKCandidates config) |}.

Definition setConfig (c : ClassificationConfig.t) (s : ClassificationState)
  : ClassificationState :=
  mkState (currentResult s) (resultHistory s) c (isClassifying s) (error s)
          (pdfExtractionResult s).

Definition updateConfig (updates : PartialConfig.t) (s : ClassificationState)
  : ClassificationState :=
  setConfig (merge (config s) updates) s.

Definition clearError (s : ClassificationState) : ClassificationState :=
  setError None s.

Definition clearPdfExtractionResult (s : ClassificationState) : ClassificationState :=
  setPdfExtractionResult None s.

(** Everything a component can ask of the store. *)
Inductive Action : Type :=
| SetCurrentResult (result : option ClassificationResult.t)
| AddToHistory (result : ClassificationResult.t)
| ClearHistory
| SetConfig (c : ClassificationConfig.t)
| UpdateConfig (updates : PartialConfig.t)
| SetClassifying (classifying : bool)
| SetError (e : option AppError.t)
| SetPdfExtractionResult (r : option PDFExtractionResult.t)
| ClassifyText (request : ClassifyTextRequest.t)
| ClassifyPDF (request : ClassifyPDFRequest.t)
| ClearError
| ClearPdfExtractionResult
| Reset.

Section Run.

Variable apiClient : BackendCall -> ApiResponse.t BackendResult.t.
Variable stack : string -> option string.
Variable stringify : ValidationError.t -> string.

Definition step (a : Action) (state : ClassificationState * list BackendCall)
  : ClassificationState * list BackendCall :=
  let (s, log) := state in
  match a with
  | SetCurrentResult result => (setCurrentResult result s, log)
  | AddToHistory result => (addToHistory result s, log)
  | ClearHistory => (clearHistory s, log)
  | SetConfig c => (setConfig c s, log)
  | UpdateConfig updates => (updateConfig updates s, log)
  | SetClassifying classifying => (setClassifying classifying s, log)
  | SetError e => (setError e s, log)
  | SetPdfExtractionResult r => (setPdfExtractionResult r s, log)
  | ClassifyText request =>
      let '(_, s', log') := classifyText apiClient stack stringify request s log in
      (s', log')
  | ClassifyPDF request =>
      let '(_, s', log') := classifyPDF apiClient stack stringify request s log in
      (s', log')
  | ClearError => (clearError s, log)
  | ClearPdfExtractionResult => (clearPdfExtractionResult s, log)
  | Reset => (reset s, log)
  end.

(** The actions of a session, oldest first, from the initial store. *)
Definition run (actions : list Action) : ClassificationState * list BackendCall :=
  fold_left (fun state a => step a state) actions (initialState, []).

End Run.

End StoreActions.

(** The error the store keeps when a classification fails. *)
Definition storeError (code message details : string) : AppError.t :=
  {| AppError.type := processing;
     AppError.message := message;
     AppError.details := Some details;
     AppError.code := Some code;
     AppError.recoverable := true;
     AppError.suggestedAction := None |}.

(** Sample data for the PDF path: a backend that reports the extracted
    pages under [pdf_metadata] while its own metadata carries a stale
    entry under the same key. *)
Module PdfSamples.

Definition half : spec_float := S754_finite false 4503599627370496 (-53).

Definition pages : JsValue := JsObject [("pages", JsNumber half)].

Definition payload (label : string) : BackendResult.t :=
  {| BackendResult.predicted_class :=
       Some {| BackendClass.name := label; BackendClass.description := "A class" |};
     BackendResult.effective_score := JsNumber half;
     BackendResult.similarity_score := JsNumber half;
     BackendResult.rerank_score := JsUndefined;
     BackendResult.attribute_score := JsUndefined;
     BackendResult.attribute_validation := None;
     BackendResult.alternatives := None;
     BackendResult.processing_time := JsNumber half;
     BackendResult.metadata :=
       Some [("pdf_metadata", JsString "stale"); ("source", JsString "upload")];
     BackendResult.pdf_metadata := pages |}.

Definition client (call : BackendCall) : ApiResponse.t BackendResult.t :=
  {| ApiResponse.success := true;
     ApiResponse.data :=
       Some (payload match call with
                     | PostClassifyText _ _ _ => "none"
                     | UploadClassifyPdf file _ _ => File.name file
                     end);
     ApiResponse.error := None |}.

End PdfSamples.

(* ================================================================== *)
(** ** types/dataset.ts and the Classify page (pages/Classify.tsx) *)
(* ================================================================== *)

Module Dataset.
Record t : Type := mk {
  id : string;
  name : string;
  description : string;
  classes : list ClassDefinition.t;
  embeddingsGenerated : bool
}.
End Dataset.

Definition isSome {A : Type} (o : option A) : bool :=
  match o with Some _ => true | None => false end.

Module Classify.

Import ClassificationStore.

(** The page's own state, the dataset it reads from the dataset store,
    the classification store and the requests sent so far. *)
Record Page : Type := mkPage {
  documentText : string;
  selectedFile : option File.t;
  extractedText : string;
  isExampleSelectorOpen : bool;
  selectedDataset : option Dataset.t;
  store : ClassificationState;
  log : list BackendCall
}.

Definition initialPage : Page :=
  mkPage EmptyString None EmptyString false None initialState [].

Definition withStore (s : ClassificationState) (p : Page) : Page :=
  mkPage (documentText p) (selectedFile p) (extractedText p) (isExampleSelectorOpen p)
         (selectedDataset p) s (log p).

Definition handleTextInput (text : string) (p : Page) : Page :=
  let clear := isSome (selectedFile p) || isSome (pdfExtractionResult (store p)) in
  mkPage text
         (if clear then None else selectedFile p)
         (if clear then EmptyString else extractedText p)
         (isExampleSelectorOpen p)
         (selectedDataset p)
         (StoreActions.clearError
            (if clear then StoreActions.clearPdfExtractionResult (store p) else store p))
         (log p).

Definition handlePDFUpload (file : File.t) (p : Page) : Page :=
  mkPage EmptyString (Some file) EmptyString (isExampleSelectorOpen p)
         (selectedDataset p)
         (StoreActions.clearError (StoreActions.clearPdfExtractionResult (store p)))
         (log p).

Definition handleExtractedTextChange (text : string) (p : Page) : Page :=
  mkPage (documentText p) (selectedFile p) text (isExampleSelectorOpen p)
         (selectedDataset p) (store p) (log p).

Definition handleConfigChange (newConfig : ClassificationConfig.t) (p : Page) : Page :=
  withStore (StoreActions.updateConfig (PartialConfig.ofConfig newConfig) (store p)) p.

Definition setSelectedDataset (dataset : Dataset.t) (p : Page) : Page :=
  mkPage (documentText p) (selectedFile p) (extractedText p) (isExampleSelectorOpen p)
         (Some dataset) (store p) (log p).

Definition handleDatasetChange (datasets : list Dataset.t) (datasetId : string)
  (p : Page) : Page :=
  match find (fun d => String.eqb (Dataset.id d) datasetId) datasets with
  | Some dataset => setSelectedDataset dataset p
  | None => p
  end.

Definition setExampleSelectorOpen (open : bool) (p : Page) : Page :=
  mkPage (documentText p) (selectedFile p) (extractedText p) open
         (selectedDataset p) (store p) (log p).

Definition handleLoadExample (p : Page) : Page := setExampleSelectorOpen true p.

Definition handleSelectExample (text : string) (p : Page) : Page :=
  setExampleSelectorOpen false (handleTextInput text p).

Definition canClassify (p : Page) : bool :=
  isSome (selectedDataset p)
  && (negb (JsString.blank (Some (documentText p))) || isSome (selectedFile p)).

Section Handlers.

Variable apiClient : BackendCall -> ApiResponse.t BackendResult.t.
Variable stack : string -> option string.
Variable stringify : ValidationError.t -> string.

Definition textRequest (dataset : Dataset.t) (p : Page) : ClassifyTextRequest.t :=
  {| ClassifyTextRequest.text := Some (documentText p);
     ClassifyTextRequest.datasetId := Some (Dataset.id dataset);
     ClassifyTextRequest.config := Some (config (store p)) |}.

Definition pdfRequest (dataset : Dataset.t) (file : File.t) (p : Page)
  : ClassifyPDFRequest.t :=
  {| ClassifyPDFRequest.file := Some file;
     ClassifyPDFRequest.datasetId := Some (Dataset.id dataset);
     ClassifyPDFRequest.config := Some (config (store p)) |}.

(** The rejection of the store is caught and logged to the console. *)
Definition handleClassifyText (p : Page) : Page :=
  match selectedDataset p with
  | None => p
  | Some dataset =>
      if JsString.blank (Some (documentText p)) then p
      else
        let '(_, s', log') :=
          classifyText apiClient stack stringify (textRequest dataset p)
            (store p) (log p) in
        mkPage (documentText p) (selectedFile p) (extractedText p)
               (isExampleSelectorOpen p) (selectedDataset p) s' log'
  end.

Definition handleClassifyPDF (p : Page) : Page :=
  match selectedDataset p, selectedFile p with
  | Some dataset, Some file =>
      let '(_, s', log') :=
        classifyPDF apiClient stack stringify (pdfRequest dataset file p)
          (store p) (log p) in
      mkPage (documentText p) (selectedFile p) (extractedText p)
             (isExampleSelectorOpen p) (selectedDataset p) s' log'
  | _, _ => p
  end.

(** [onClassify={documentText ? handleClassifyText : handleClassifyPDF}] *)
Definition onClassify (p : Page) : Page :=
  if String.eqb (documentText p) EmptyString
  then handleClassifyPDF p else handleClassifyText p.

(** What the user and the effects of the page can do.  [Options] is an
    event of the options panel, which is given the store's configuration
    and [handleConfigChange]. *)
Inductive Event : Type :=
| TextInput (text : string)
| PDFUpload (file : File.t)
| ExtractedTextChange (text : string)
| Options (e : ClassificationOptions.Event)
| DatasetChange (datasets : list Dataset.t) (datasetId : string)
| SetSelectedDataset (dataset : Dataset.t)
| ClassifyText
| ClassifyPDF
| OnClassify
| LoadExample
| SelectExample (text : string).

Definition step (p : Page) (e : Event) : Page :=
  match e with
  | TextInput text => handleTextInput text p
  | PDFUpload file => handlePDFUpload file p
  | ExtractedTextChange text => handleExtractedTextChange text p
  | Options o =>
      match ClassificationOptions.handle o (config (store p)) with
      | Some newConfig => handleConfigChange newConfig p
      | None => p
      end
  | DatasetChange datasets datasetId => handleDatasetChange datasets datasetId p
  | SetSelectedDataset dataset => setSelectedDataset dataset p
  | ClassifyText => handleClassifyText p
  | ClassifyPDF => handleClassifyPDF p
  | OnClassify => onClassify p
  | LoadExample => handleLoadExample p
  | SelectExample text => handleSelectExample text p
  end.

(** The page after the events of a session, oldest first. *)
Definition session (events : list Event) : Page :=
  fold_left step events initialPage.

End Handlers.

(** What every request of the page satisfies. *)
Definition callOk (call : BackendCall) : Prop :=
  match call with
  | PostClassifyText text dataset_id payload =>
      JsString.blank text = false
      /\ JsString.blank dataset_id = false
      /\ (1 <= ConfigPayload.top_k_candidates payload <= 20)%Z
  | UploadClassifyPdf file dataset_id payload =>
      ClassificationService.validatePDFFile (Some file) = Returned tt
      /\ JsString.blank dataset_id = false
      /\ (1 <= ConfigPayload.top_k_candidates payload <= 20)%Z
  end.

(** What holds of the page between two events. *)
Definition pageOk (p : Page) : Prop :=
  (documentText p = EmptyString \/ selectedFile p = None)
  /\ (1 <= ClassificationConfig.topKCandidates (config (store p)) <= 20)%Z
  /\ Forall callOk (log p).

End Classify.

(** A data set for the sample sessions of the page. *)
Definition notesDataset : Dataset.t :=
  {| Dataset.id := "notes";
     Dataset.name := "Notes";
     Dataset.description := "Clinical notes";
     Dataset.classes := [];
     Dataset.embeddingsGenerated := true |}.

(* ================================================================== *)
(** ** services/api-client.ts *)
(* ================================================================== *)

(** The string operations the client relies on. *)
Module JsText.

(** [s.includes(sub)] *)
Fixpoint includes (s sub : string) : bool :=
  String.prefix sub s
  || match s with
     | EmptyString => false
     | String _ rest => includes rest sub
     end.

(** [\d] *)
Definition isDigit (c : ascii) : bool :=
  (48 <=? nat_of_ascii c)%nat && (nat_of_ascii c <=? 57)%nat.

(** The longest prefix of digits, and what follows it. *)
Fixpoint takeDigits (s : string) : string :=
  match s with
  | String c rest => if isDigit c then String c (takeDigits rest) else EmptyString
  | EmptyString => EmptyString
  end.

Fixpoint dropDigits (s : string) : string :=
  match s with
  | String c rest => if isDigit c then dropDigits rest else s
  | EmptyString => EmptyString
  end.

Fixpoint digitsValue (acc : Z) (s : string) : Z :=
  match s with
  | String c rest => digitsValue (acc * 10 + (Z.of_nat (nat_of_ascii c) - 48)) rest
  | EmptyString => acc
  end.

(** [parseInt(digits)] on a group captured by [(\d+)]. *)
Definition parseInt (digits : string) : Z := digitsValue 0 digits.

(** [s.match(/HTTP (\d+):/)]: the digits captured by the leftmost match. *)
Fixpoint httpMatch (s : string) : option string :=
  let here :=
    if String.prefix "HTTP " s then
      let after := String.substring 5 (String.length s - 5) s in
      if negb (String.eqb (takeDigits after) EmptyString)
         && String.prefix ":" (dropDigits after)
      then Some (takeDigits after) else None
    else None in
  match here, s with
  | Some digits, _ => Some digits
  | None, String _ rest => httpMatch rest
  | None, EmptyString => None
  end.

End JsText.

Module JsError.
Record t : Type := mk {
  name : string;
  message : string
}.
End JsError.

(** [new Error(message)] *)
Definition newError (message : string) : JsError.t :=
  {| JsError.name := "Error"; JsError.message := message |}.

Module NetworkError.
Record t : Type := mk {
  type : ErrorType;
  message : string;
  statusCode : option Z;
  endpoint : option string;
  recoverable : bool;
  suggestedAction : string
}.
End NetworkError.

(** utils/error-handler.ts: network errors. *)
Module NetworkErrors.

Definition suggestions : list (Z * string) :=
  [ (400, "Please check your input and try again.");
    (401, "Please log in and try again.");
    (403, "You do not have permission to perform this action.");
    (404, "The requested resource was not found.");
    (408, "The request timed out. Please try again.");
    (429, "Too many requests. Please wait a moment and try again.");
    (500, "Server error. Please try again later.");
    (502, "Service temporarily unavailable. Please try again later.");
    (503, "Service temporarily unavailable. Please try again later.") ]%Z.

Definition getNetworkErrorSuggestion (statusCode : option Z) : string :=
  match statusCode with
  | None => "Please check your internet connection and try again."
  | Some code =>
      if (code =? 0)%Z then "Please check your internet connection and try again."
      else match find (fun entry => (fst entry =? code)%Z) suggestions with
           | Some entry => snd entry
           | None => "Please try again later."
           end
  end.

Definition isNot (statusCode : option Z) (code : Z) : bool :=
  match statusCode with
  | Some c => negb (c =? code)%Z
  | None => true
  end.

Definition createNetworkError (message : string) (statusCode : option Z)
  (endpoint : option string) : NetworkError.t :=
  {| NetworkError.type := network;
     NetworkError.message := message;
     NetworkError.statusCode := statusCode;
     NetworkError.endpoint := endpoint;
     NetworkError.recoverable := isNot statusCode 401 && isNot statusCode 403;
     NetworkError.suggestedAction := getNetworkErrorSuggestion statusCode |}.

End NetworkErrors.

Module ApiClientConfig.
Record t : Type := mk {
  baseUrl : string;
  timeout : Z;
  retryAttempts : Z;
  retryDelay : Z
}.
End ApiClientConfig.

(** [Partial<ApiClientConfig>] *)
Module PartialApiClientConfig.
Record t : Type := mk {
  baseUrl : option string;
  timeout : option Z;
  retryAttempts : option Z;
  retryDelay : option Z
}.
End PartialApiClientConfig.

Module ApiClient.

(** [value || fallback] on a possibly absent number. *)
Definition numberOr (value : option Z) (fallback : Z) : Z :=
  match value with
  | Some v => if (v =? 0)%Z then fallback else v
  | None => fallback
  end.

Definition constructor (config : PartialApiClientConfig.t) : ApiClientConfig.t :=
  {| ApiClientConfig.baseUrl :=
       ClassificationService.stringOr (PartialApiClientConfig.baseUrl config)
         "http://localhost:8000";
     ApiClientConfig.timeout := numberOr (PartialApiClientConfig.timeout config) 30000;
     ApiClientConfig.retryAttempts :=
       numberOr (PartialApiClientConfig.retryAttempts config) 3;
     ApiClientConfig.retryDelay :=
       numberOr (PartialApiClientConfig.retryDelay config) 1000 |}.

(** [new ApiClient()] *)
Definition apiClient : ApiClientConfig.t :=
  constructor (PartialApiClientConfig.mk None None None None).

Definition isClientError (error : JsError.t) : bool :=
  JsText.includes (JsError.message error) "HTTP 4".

Definition handleError (error : JsError.t) : NetworkError.t :=
  if String.eqb (JsError.name error) "AbortError"
     || JsText.includes (JsError.message error) "timeout"
  then NetworkErrors.createNetworkError "Request timeout" (Some 408%Z) None
  else if JsText.includes (JsError.message error) "Failed to fetch"
          || JsText.includes (JsError.message error) "NetworkError"
  then NetworkErrors.createNetworkError "Network connection failed" None None
  else match JsText.httpMatch (JsError.message error) with
       | Some digits =>
           NetworkErrors.createNetworkError (JsError.message error)
             (Some (JsText.parseInt digits)) None
       | None =>
           {| NetworkError.type := network;
              NetworkError.message :=
                if String.eqb (JsError.message error) EmptyString
                then "Unknown error occurred" else JsError.message error;
              NetworkError.statusCode := None;
              NetworkError.endpoint := None;
              NetworkError.recoverable := true;
              NetworkError.suggestedAction :=
                "Please try again or check your connection." |}
       end.

(** What the client does to the outside: a call of [makeRequest] and a
    wait of [ms] milliseconds. *)
Inductive Effect : Type :=
| Fetch (attempt : nat)
| Delay (ms : Z).

(** What [request] settles with: the response of [makeRequest], the
    failure built from the last error, or the [TypeError] of
    [handleError(null)] when the loop made no attempt. *)
Inductive Reply (R : Type) : Type :=
| Passed (response : R)
| Failed (error : NetworkError.t)
| RejectedTypeError.
Arguments Passed {R}.
Arguments Failed {R}.
Arguments RejectedTypeError {R}.

Section Request.

Variable R : Type.
Variable self : ApiClientConfig.t.
(** The outcome of the [attempt]-th call of [makeRequest]: a response, or
    the error it throws. *)
Variable makeRequest : nat -> R + JsError.t.

(** The [for] loop from [attempt] on, for at most [remaining] rounds. *)
Fixpoint retry (remaining attempt : nat) (lastError : option JsError.t)
  : (R + option JsError.t) * list Effect :=
  match remaining with
  | O => (inr lastError, [])
  | S remaining' =>
      match makeRequest attempt with
      | inl response => (inl response, [Fetch attempt])
      | inr error =>
          if (Z.of_nat attempt =? ApiClientConfig.retryAttempts self)%Z
             || isClientError error
          then (inr (Some error), [Fetch attempt])
          else
            let (outcome, effects) := retry remaining' (S attempt) (Some error) in
            (outcome,
             Fetch attempt
             :: Delay (ApiClientConfig.retryDelay self * 2 ^ Z.of_nat attempt)%Z
             :: effects)
      end
  end.

Definition request : Reply R * list Effect :=
  let (outcome, effects) :=
    retry (Z.to_nat (ApiClientConfig.retryAttempts self + 1)) 0 None in
  (match outcome with
   | inl response => Passed response
   | inr (Some error) => Failed (handleError error)
   | inr None => RejectedTypeError
   end,
   effects).

End Request.

(** The [load] handler of [uploadFile] for a status outside 200..299
    whose body parsed: [errorData.error || `HTTP ${xhr.status}`], with
    [errorData.error] a string or absent. *)
Definition uploadFailure (errorText : option string) (status : nat) : NetworkError.t :=
  handleError
    (newError (ClassificationService.stringOr errorText
                 ("HTTP " ++ JsString.ofNat status)%string)).

(** The error [makeRequest] throws for a response that is not ok:
    [`HTTP ${response.status}: ${detail}`]. *)
Definition httpError (status : nat) (detail : string) : JsError.t :=
  newError ("HTTP " ++ JsString.ofNat status ++ ": " ++ detail)%string.

Fixpoint fetches (effects : list Effect) : list nat :=
  match effects with
  | Fetch attempt :: rest => attempt :: fetches rest
  | Delay _ :: rest => fetches rest
  | [] => []
  end.

Fixpoint totalDelay (effects : list Effect) : Z :=
  match effects with
  | Fetch _ :: rest => totalDelay rest
  | Delay ms :: rest => (ms + totalDelay rest)%Z
  | [] => 0%Z
  end.

(** [Fetch 0; Delay d0; Fetch 1; ...; Delay d(k-1)] from attempt [from]. *)
Fixpoint rounds (self : ApiClientConfig.t) (from count : nat) : list Effect :=
  match count with
  | O => []
  | S count' =>
      Fetch from
      :: Delay (ApiClientConfig.retryDelay self * 2 ^ Z.of_nat from)%Z
      :: rounds self (S from) count'
  end.

End ApiClient.

(** A network that fails twice before it answers, and one that always
    answers 404. *)
Definition flaky (attempt : nat) : string + JsError.t :=
  if attempt <? 2 then inr (newError "Failed to fetch") else inl "pong".


(** The characters of a string, and the first character of a text
    searched for. *)
Fixpoint avoids (c : ascii) (s : string) : bool :=
  match s with
  | String d rest => negb (Ascii.eqb d c) && avoids c rest
  | EmptyString => true
  end.

Fixpoint allDigits (s : string) : bool :=
  match s with
  | String c rest => JsText.isDigit c && allDigits rest
  | EmptyString => true
  end.

(* ================================================================== *)
(** ** services/dataset-service.ts: class DatasetService *)
(* ================================================================== *)

Definition isLower (c : ascii) : bool :=
  (97 <=? nat_of_ascii c) && (nat_of_ascii c <=? 122).

Definition isUpper (c : ascii) : bool :=
  (65 <=? nat_of_ascii c) && (nat_of_ascii c <=? 90).

Fixpoint allChars (p : ascii -> bool) (s : string) : bool :=
  match s with
  | String c rest => p c && allChars p rest
  | EmptyString => true
  end.

(** [s.replace(/[^...]/g, '')] for a class of characters [p]. *)
Fixpoint keepChars (p : ascii -> bool) (s : string) : string :=
  match s with
  | String c rest => if p c then String c (keepChars p rest) else keepChars p rest
  | EmptyString => EmptyString
  end.

(** [Omit<ClassDefinition, 'id'>] *)
Module ClassDraft.
Record t : Type := mk {
  name : string;
  description : string
}.
End ClassDraft.

Module CreateDatasetRequest.
Record t : Type := mk {
  name : string;
  description : string;
  classes : list ClassDraft.t
}.
End CreateDatasetRequest.

Module Datasets.

Import ErrorHandler.

(** [[a-zA-Z0-9_-]] *)
Definition isIdChar (c : ascii) : bool :=
  isLower c || isUpper c || JsText.isDigit c
  || Ascii.eqb c "_" || Ascii.eqb c "-".

(** [/^[a-zA-Z0-9_-]+$/.test(id)] *)
Definition idPattern (id : string) : bool :=
  negb (String.eqb id EmptyString) && allChars isIdChar id.

Definition validateDatasetId (id : string) : Outcome unit :=
  andThen
    (throwIf (JsString.blank (Some id))
       (createValidationError "Dataset ID is required" (Some "id")))
    (andThen
       (throwIf ((String.length id <? 1) || (100 <? String.length id))
          (createValidationError "Dataset ID must be between 1 and 100 characters"
             (Some "id")))
       (throwIf (negb (idPattern id))
          (createValidationError
             "Dataset ID can only contain letters, numbers, underscores, and hyphens"
             (Some "id")))).

(** [`classes[${index}].${name}`] and [`Class ${index + 1} ${text}`] *)
Definition classField (index : nat) (name : string) : string :=
  ("classes[" ++ JsString.ofNat index ++ "]." ++ name)%string.

Definition classMessage (index : nat) (text : string) : string :=
  ("Class " ++ JsString.ofNat (index + 1) ++ " " ++ text)%string.

(** The body of [dataset.classes.forEach]. *)
Definition validateClass (index : nat) (cls : ClassDraft.t) : Outcome unit :=
  andThen
    (throwIf (JsString.blank (Some (ClassDraft.name cls)))
       (createValidationError (classMessage index "name is required")
          (Some (classField index "name"))))
    (andThen
       (throwIf (JsString.blank (Some (ClassDraft.description cls)))
          (createValidationError (classMessage index "description is required")
             (Some (classField index "description"))))
       (andThen
          (throwIf (100 <? String.length (ClassDraft.name cls))
             (createValidationError
                (classMessage index "name must be less than 100 characters")
                (Some (classField index "name"))))
          (throwIf (500 <? String.length (ClassDraft.description cls))
             (createValidationError
                (classMessage index "description must be less than 500 characters")
                (Some (classField index "description")))))).

(** [names.indexOf(name)] *)
Fixpoint indexOf (name : string) (names : list string) : option nat :=
  match names with
  | [] => None
  | first :: rest =>
      if String.eqb first name then Some 0
      else option_map S (indexOf name rest)
  end.

(** [classNames.filter((name, index) => classNames.indexOf(name) !== index)],
    on the part of the list from [index] on. *)
Fixpoint duplicatesFrom (classNames : list string) (index : nat) (names : list string)
  : list string :=
  match names with
  | [] => []
  | name :: rest =>
      if match indexOf name classNames with
         | Some first => first =? index
         | None => false
         end
      then duplicatesFrom classNames (S index) rest
      else name :: duplicatesFrom classNames (S index) rest
  end.

Definition classNames (request : CreateDatasetRequest.t) : list string :=
  map (fun cls => JsString.toLowerCase (ClassDraft.name cls))
      (CreateDatasetRequest.classes request).

Definition duplicates (request : CreateDatasetRequest.t) : list string :=
  duplicatesFrom (classNames request) 0 (classNames request).

Definition validateDatasetRequest (dataset : CreateDatasetRequest.t) : Outcome unit :=
  andThen
    (throwIf (JsString.blank (Some (CreateDatasetRequest.name dataset)))
       (createValidationError "Dataset name is required" (Some "name")))
    (andThen
       (throwIf ((String.length (CreateDatasetRequest.name dataset) <? 1)
                 || (100 <? String.length (CreateDatasetRequest.name dataset)))
          (createValidationError "Dataset name must be between 1 and 100 characters"
             (Some "name")))
       (andThen
          (throwIf (JsString.blank (Some (CreateDatasetRequest.description dataset)))
             (createValidationError "Dataset description is required"
                (Some "description")))
          (andThen
             (throwIf (500 <? String.length (CreateDatasetRequest.description dataset))
                (createValidationError
                   "Dataset description must be less than 500 characters"
                   (Some "description")))
             (andThen
                (throwIf (List.length (CreateDatasetRequest.classes dataset) =? 0)
                   (createValidationError "At least one class is required"
                      (Some "classes")))
                (andThen
                   (throwIf (50 <? List.length (CreateDatasetRequest.classes dataset))
                      (createValidationError "Maximum 50 classes allowed per dataset"
                         (Some "classes")))
                   (andThen
                      (firstThrow validateClass 0 (CreateDatasetRequest.classes dataset))
                      (throwIf (0 <? List.length (duplicates dataset))
                         (createValidationError
                            ("Duplicate class names found: "
                               ++ JsString.join ", " (duplicates dataset))%string
                            (Some "classes"))))))))).

(** One digit of [toString(36)]. *)
Definition digit36 (d : N) : ascii :=
  if (d <? 10)%N then ascii_of_N (48 + d) else ascii_of_N (87 + d).

(** [n.toString(36)] for a non-negative integer, most significant digit
    first; [fuel] bounds the number of digits. *)
Fixpoint toString36From (fuel : nat) (n : N) (digits : string) : string :=
  match fuel with
  | O => digits
  | S fuel' =>
      let digits' := String (digit36 (n mod 36)) digits in
      if (n / 36 =? 0)%N then digits' else toString36From fuel' (n / 36) digits'
  end.

Definition toString36 (n : N) : string :=
  toString36From (S (N.to_nat (N.log2 n))) n EmptyString.

(** The first three steps of [generateDatasetId]. *)
Definition cleanName (name : string) : string :=
  String.substring 0 50
    (JsString.replaceSpaces false
       (keepChars (fun c => isLower c || JsText.isDigit c || JsString.isWhiteSpace c)
          (JsString.toLowerCase name))).

(** [now] is [Date.now()]. *)
Definition generateDatasetId (name : string) (now : N) : string :=
  (cleanName name ++ "_" ++ toString36 now)%string.

(** The value of a numeral in base 36. *)
Definition value36 (c : ascii) : N :=
  if JsText.isDigit c then N_of_ascii c - 48 else N_of_ascii c - 87.

Fixpoint parse36 (acc : N) (s : string) : N :=
  match s with
  | String c rest => parse36 (acc * 36 + value36 c) rest
  | EmptyString => acc
  end.

(** What [validateDatasetRequest] asks of a class and of a request. *)
Definition classOk (cls : ClassDraft.t) : bool :=
  negb (JsString.blank (Some (ClassDraft.name cls)))
  && negb (JsString.blank (Some (ClassDraft.description cls)))
  && (String.length (ClassDraft.name cls) <=? 100)
  && (String.length (ClassDraft.description cls) <=? 500).

End Datasets.

Definition datasetRequestOk (request : CreateDatasetRequest.t) : bool :=
  negb (JsString.blank (Some (CreateDatasetRequest.name request)))
  && (String.length (CreateDatasetRequest.name request) <=? 100)
  && negb (JsString.blank (Some (CreateDatasetRequest.description request)))
  && (String.length (CreateDatasetRequest.description request) <=? 500)
  && (1 <=? List.length (CreateDatasetRequest.classes request))
  && (List.length (CreateDatasetRequest.classes request) <=? 50)
  && forallb Datasets.classOk (CreateDatasetRequest.classes request).

(* ================================================================== *)
(** ** services/file-upload.ts: class FileUploadService *)
(* ================================================================== *)

Module FileValidationResult.
Record t : Type := mk {
  isValid : bool;
  errors : list string;
  warnings : list string
}.
End FileValidationResult.

(** The [options] of [validateFile]. *)
Module FileOptions.
Record t : Type := mk {
  maxSize : option N;
  allowedTypes : option (list string);
  minSize : option N
}.
End FileOptions.

Module FileUploadService.

Definition defaultMaxSize : N := 50 * 1024 * 1024.
Definition defaultAllowedTypes : list string := [".pdf"].

(** [s.lastIndexOf(c)] for one character. *)
Fixpoint lastIndexOf (c : ascii) (s : string) : option nat :=
  match s with
  | EmptyString => None
  | String d rest =>
      match lastIndexOf c rest with
      | Some i => Some (S i)
      | None => if Ascii.eqb d c then Some 0 else None
      end
  end.

Definition getFileExtension (filename : string) : string :=
  match lastIndexOf "." filename with
  | Some lastDotIndex =>
      String.substring lastDotIndex (String.length filename - lastDotIndex) filename
  | None => EmptyString
  end.

Definition isFileTypeSupported (filename : string) : bool :=
  existsb (String.eqb (JsString.toLowerCase (getFileExtension filename)))
    defaultAllowedTypes.

(** [value || fallback] on a possibly absent size. *)
Definition sizeOr (value : option N) (fallback : N) : N :=
  match value with
  | Some v => if (v =? 0)%N then fallback else v
  | None => fallback
  end.

(** The characters of the file name pattern: less-than, greater-than,
    colon, double quote, slash, backslash, bar, question mark and star,
    by character code. *)
Definition isSpecial (c : ascii) : bool :=
  existsb (Nat.eqb (nat_of_ascii c)) [60; 62; 58; 34; 47; 92; 124; 63; 42].

Fixpoint anyChar (p : ascii -> bool) (s : string) : bool :=
  match s with
  | String c rest => p c || anyChar p rest
  | EmptyString => false
  end.

Section ValidateFile.

(** [formatFileSize]: the text of a size, produced by the runtime's number
    formatting and read by no check. *)
Variable formatFileSize : N -> string.

Definition validateFile (file : option File.t) (options : FileOptions.t)
  : FileValidationResult.t :=
  let maxSize := sizeOr (FileOptions.maxSize options) defaultMaxSize in
  let allowedTypes :=
    match FileOptions.allowedTypes options with
    | Some types => types
    | None => defaultAllowedTypes
    end in
  let minSize := sizeOr (FileOptions.minSize options) 1 in
  match file with
  | None => FileValidationResult.mk false ["No file selected"] []
  | Some f =>
      let sizeErrors :=
        if (File.size f =? 0)%N then ["File is empty"]
        else if (File.size f <? minSize)%N
        then [("File is too small (minimum " ++ formatFileSize minSize ++ ")")%string]
        else if (maxSize <? File.size f)%N
        then [("File is too large (maximum " ++ formatFileSize maxSize ++ ")")%string]
        else [] in
      let fileExtension := getFileExtension (File.name f) in
      let typeErrors :=
        if negb (existsb
                   (fun type =>
                      String.eqb (JsString.toLowerCase fileExtension)
                                 (JsString.toLowerCase type))
                   allowedTypes)
        then [("File type not supported. Allowed types: "
                 ++ JsString.join ", " allowedTypes)%string]
        else [] in
      let nameErrors :=
        if JsString.blank (Some (File.name f)) then ["File must have a name"]
        else if 255 <? String.length (File.name f)
        then ["File name is too long (maximum 255 characters)"]
        else [] in
      let errors := sizeErrors ++ typeErrors ++ nameErrors in
      let warnings :=
        (if (10 * 1024 * 1024 <? File.size f)%N
         then ["Large file may take longer to process"] else [])
        ++ (if anyChar isSpecial (File.name f)
            then ["File name contains special characters that may cause issues"]
            else []) in
      FileValidationResult.mk (List.length errors =? 0) errors warnings
  end.

End ValidateFile.

(** The options [uploadForClassification] passes on when the caller gave
    none. *)
Definition uploadOptions : FileOptions.t :=
  FileOptions.mk (Some defaultMaxSize) (Some [".pdf"]) None.

End FileUploadService.

(* ================================================================== *)
(** ** The Attributes page (pages/Attributes.tsx) *)
(* ================================================================== *)

Module AttributesPage.

(** [currentAttributes.filter(attr => attr.classId !== classId)] *)
Definition withoutClass (classId : string) (currentAttributes : list ClassAttribute.t)
  : list ClassAttribute.t :=
  filter (fun attr => negb (String.eqb (ClassAttribute.classId attr) classId))
         currentAttributes.

(** The list [handleSaveAttribute] builds: the attribute replaces the
    entries of its class, and is pushed when there is none. *)
Definition withAttribute (attribute : ClassAttribute.t)
  (currentAttributes : list ClassAttribute.t) : list ClassAttribute.t :=
  map (fun attr =>
         if String.eqb (ClassAttribute.classId attr) (ClassAttribute.classId attribute)
         then attribute else attr)
      currentAttributes
  ++ (if existsb
           (fun attr =>
              String.eqb (ClassAttribute.classId attr) (ClassAttribute.classId attribute))
           currentAttributes
      then [] else [attribute]).

(** Each handler returns the request it passes to [saveAttributes], or
    [None] when it returns at once. *)
Definition handleDeleteAttribute (selectedDatasetId : string)
  (currentAttributes : list ClassAttribute.t) (classId : string)
  : option SaveAttributesRequest.t :=
  if String.eqb selectedDatasetId EmptyString then None
  else Some (SaveAttributesRequest.mk selectedDatasetId
               (withoutClass classId currentAttributes)).

Definition handleSaveAttribute (selectedDatasetId : string)
  (currentAttributes : list ClassAttribute.t) (attribute : ClassAttribute.t)
  : option SaveAttributesRequest.t :=
  if String.eqb selectedDatasetId EmptyString then None
  else Some (SaveAttributesRequest.mk selectedDatasetId
               (withAttribute attribute currentAttributes)).

End AttributesPage.

Definition classIds (attributes : list ClassAttribute.t) : list string :=
  map ClassAttribute.classId attributes.

Definition hasClass (classId : string) (attributes : list ClassAttribute.t) : bool :=
  existsb (fun attr => String.eqb (ClassAttribute.classId attr) classId) attributes.

(** A valid attribute for the sample requests. *)
Definition invoiceAttribute : ClassAttribute.t :=
  ClassAttribute.mk "invoice" "Invoice" (Some (Rule AND [Text "mentions an amount"])) false.

Definition receiptAttribute : ClassAttribute.t :=
  ClassAttribute.mk "receipt" "Receipt" (Some (Rule OR [Text "lists a payment"])) false.

(* ================================================================== *)
(** ** Predicates of the statements *)
(* ================================================================== *)

(** Every code unit of the string is white space (so also: it is empty). *)
Fixpoint whitespaceOnly (s : string) : bool :=
  match s with
  | EmptyString => true
  | String c rest => JsString.isWhiteSpace c && whitespaceOnly rest
  end.

(** A file that must not reach the backend: missing, empty, above 50MB,
    or not named [*.pdf] in any letter case. *)
Definition badFile (file : option File.t) : Prop :=
  match file with
  | None => True
  | Some f =>
      File.size f = 0%N
      \/ (50 * 1024 * 1024 < File.size f)%N
      \/ JsString.endsWith (JsString.toLowerCase (File.name f)) ".pdf" = false
  end.

(** The confidence rule in words: the effective score when it is a number
    other than zero, otherwise the similarity score when that is one,
    otherwise 0. *)
Definition reportedConfidence (effective similarity : JsValue) : JsValue :=
  if Js.nonzero effective then effective
  else if Js.nonzero similarity then similarity
  else JsNumber Js.zero.

(** The confidence of a result built from the payload [b] follows the
    rule; when the effective score is a zero it is the reported
    similarity score, which is the backend's when that is not zero. *)
Definition confidenceFollowsRule (result : ClassificationResult.t)
  (b : BackendResult.t) : Prop :=
  (Js.score (BackendResult.effective_score b) = true ->
   Js.score (BackendResult.similarity_score b) = true ->
   ClassificationResult.confidence result
   = reportedConfidence (BackendResult.effective_score b)
       (BackendResult.similarity_score b))
  /\ (forall sign,
        BackendResult.effective_score b = JsNumber (S754_zero sign) ->
        ClassificationResult.confidence result
        = ClassificationResult.similarityScore result
        /\ (Js.score (BackendResult.similarity_score b) = true ->
            Js.nonzero (BackendResult.similarity_score b) = true ->
            ClassificationResult.confidence result
            = BackendResult.similarity_score b)).

(** The range of the slider. *)
Definition inSlider (k : Z) : Prop := (1 <= k <= 20)%Z.

(* ================================================================== *)
(** ** Sample data *)
(* ================================================================== *)

Module Samples.

Definition half : spec_float := S754_finite false 4503599627370496 (-53).
Definition threeQuarters : spec_float := S754_finite false 6755399441055744 (-53).

Definition noStack (_ : string) : option string := None.
Definition showError (e : ValidationError.t) : string := ValidationError.message e.

(** A backend payload whose effective score is 0 and whose similarity
    score is 0.75. *)
Definition payload (label : string) : BackendResult.t :=
  {| BackendResult.predicted_class :=
       Some {| BackendClass.name := label; BackendClass.description := "A class" |};
     BackendResult.effective_score := JsNumber (S754_zero false);
     BackendResult.similarity_score := JsNumber threeQuarters;
     BackendResult.rerank_score := JsUndefined;
     BackendResult.attribute_score := JsUndefined;
     BackendResult.attribute_validation := None;
     BackendResult.alternatives := None;
     BackendResult.processing_time := JsNumber half;
     BackendResult.metadata := None;
     BackendResult.pdf_metadata := JsUndefined |}.

Definition answer (label : string) : ApiResponse.t BackendResult.t :=
  {| ApiResponse.success := true;
     ApiResponse.data := Some (payload label);
     ApiResponse.error := None |}.

(** A backend that answers every request, naming the class after the
    text or the file. *)
Definition client (call : BackendCall) : ApiResponse.t BackendResult.t :=
  match call with
  | PostClassifyText text _ _ => answer (ClassificationService.stringOr text "none")
  | UploadClassifyPdf file _ _ => answer (File.name file)
  end.

Definition config (topK : Z) : ClassificationConfig.t :=
  {| ClassificationConfig.useReranking := false;
     ClassificationConfig.rerankingModel := None;
     ClassificationConfig.rerankingParams := None;
     ClassificationConfig.useAttributeValidation := false;
     ClassificationConfig.topKCandidates := topK |}.

Definition textRequest (text : string) (topK : Z) : ClassifyTextRequest.t :=
  {| ClassifyTextRequest.text := Some text;
     ClassifyTextRequest.datasetId := Some "notes";
     ClassifyTextRequest.config := Some (config topK) |}.

Definition pdfRequest (file : option File.t) (topK : Z) : ClassifyPDFRequest.t :=
  {| ClassifyPDFRequest.file := file;
     ClassifyPDFRequest.datasetId := Some "notes";
     ClassifyPDFRequest.config := Some (config topK) |}.

Definition report : File.t := {| File.name := "Report.PDF"; File.size := 2048 |}.

(** What the service makes of [payload label]. *)
Definition result (label : string) (metadata : list (string * JsValue))
  : ClassificationResult.t :=
  {| ClassificationResult.predictedClass :=
       {| ClassDefinition.id := ClassificationService.classId label;
          ClassDefinition.name := label;
          ClassDefinition.description := "A class" |};
     ClassificationResult.confidence := JsNumber threeQuarters;
     ClassificationResult.similarityScore := JsNumber threeQuarters;
     ClassificationResult.rerankScore := JsUndefined;
     ClassificationResult.attributeScore := JsUndefined;
     ClassificationResult.alternatives := [];
     ClassificationResult.attributeValidation := None;
     ClassificationResult.processingTime := JsNumber half;
     ClassificationResult.metadata := metadata |}.

Definition ok (r : ClassificationResult.t) : ApiResponse.t ClassificationResult.t :=
  {| ApiResponse.success := true;
     ApiResponse.data := Some r;
     ApiResponse.error := None |}.

Definition textCall (text : string) (topK : Z) : BackendCall :=
  PostClassifyText (Some text) (Some "notes")
    (ClassificationService.configPayload (config topK)).

(** An oracle that finds no monetary amount and fails on the payee. *)
Definition judge (description document : string) : Core.Judgment :=
  if String.eqb description "mentions a monetary amount"
  then Core.JudgmentResult false None
  else if String.eqb description "identifies payer and payee"
  then Core.JudgmentError "timeout"
  else Core.JudgmentResult true (Some half).

Definition invoiceRule : AttributeRule :=
  Rule AND
    [Text "is dated";
     Text "mentions a monetary amount";
     Text "identifies payer and payee";
     Nested (Rule OR [Text "is signed"; Text "is stamped"])].

(** The scenario of the spec: 0.81, 0.35 and 0.9 as doubles. *)
Definition p81 : spec_float := S754_finite false 7295831396340204 (-53).
Definition p35 : spec_float := S754_finite false 6305039478318694 (-54).
Definition p90 : spec_float := S754_finite false 8106479329266893 (-53).

Definition invoice : ClassDefinition.t :=
  {| ClassDefinition.id := "invoice";
     ClassDefinition.name := "Invoice";
     ClassDefinition.description := "A request for payment" |}.

Definition resume : ClassDefinition.t :=
  {| ClassDefinition.id := "resume";
     ClassDefinition.name := "Resume";
     ClassDefinition.description := "A curriculum vitae" |}.

Definition resumeRule : AttributeRule :=
  Rule OR [Text "lists work experience"; Text "lists education"].

Definition classSet : list Core.ClassEntry.t :=
  [ {| Core.ClassEntry.class := invoice;
       Core.ClassEntry.requiredAttributes :=
         Some (Rule AND [Text "mentions a monetary amount";
                         Text "identifies payer and payee"]) |};
    {| Core.ClassEntry.class := resume;
       Core.ClassEntry.requiredAttributes := Some resumeRule |} ].

Definition rank (_ : string) (_ : list ClassDefinition.t) (_ : Z)
  : option (list (ClassDefinition.t * spec_float)) :=
  Some [(invoice, p81); (resume, p35)].

(** A reranker that scores Resume only. *)
Definition rerank (_ : string) (_ : list (ClassDefinition.t * spec_float)) (_ : string)
  : option (list (ClassDefinition.t * spec_float)) :=
  Some [(resume, p90)].

Definition pipelineConfig (useReranking useAttributeValidation : bool)
  : ClassificationConfig.t :=
  {| ClassificationConfig.useReranking := useReranking;
     ClassificationConfig.rerankingModel := None;
     ClassificationConfig.rerankingParams := None;
     ClassificationConfig.useAttributeValidation := useAttributeValidation;
     ClassificationConfig.topKCandidates := 5 |}.

Definition invoiceCandidate : Core.Candidate.t :=
  {| Core.Candidate.class := invoice;
     Core.Candidate.similarity := p81;
     Core.Candidate.rerank := None;
     Core.Candidate.attribute := None;
     Core.Candidate.effective := p81 |}.

Definition resumeCandidate (attribute : option spec_float) : Core.Candidate.t :=
  {| Core.Candidate.class := resume;
     Core.Candidate.similarity := p35;
     Core.Candidate.rerank := Some p90;
     Core.Candidate.attribute := attribute;
     Core.Candidate.effective := p90 |}.

Definition resumeTree : EvaluationTreeNode :=
  mkNode OR_node (Some true) None
    [mkNode condition_node (Some true) (Some "lists work experience") [] false None;
     mkNode condition_node None (Some "lists education") [] true None]
    false None.

(** Reranking on, validation on: Resume wins and passes its rule. *)
Definition rerankedResult : Core.Result.t :=
  {| Core.Result.predicted := resume;
     Core.Result.primaryCandidate := resumeCandidate (Some Core.scoreOne);
     Core.Result.alternatives := [invoiceCandidate];
     Core.Result.evaluationTree := Some resumeTree |}.

End Samples.

(* ================================================================== *)
(** * Properties *)
(* ================================================================== *)

(** ** Strings *)

Lemma trimStart_whitespaceOnly s :
  whitespaceOnly s = true -> JsString.trimStart s = EmptyString.
Proof.
  induction s as [|c rest IH]; simpl; [reflexivity|].
  intros H. apply andb_prop in H as [Hc Hrest].
  rewrite Hc. now apply IH.
Qed.

Lemma trimEnd_empty s : JsString.trimEnd s = EmptyString -> whitespaceOnly s = true.
Proof.
  induction s as [|c rest IH]; simpl; [reflexivity|].
  destruct (JsString.trimEnd rest) eqn:E.
  - destruct (JsString.isWhiteSpace c); [intros _|discriminate].
    now rewrite IH.
  - discriminate.
Qed.

Lemma trimStart_suffix s :
  whitespaceOnly (JsString.trimStart s) = true -> whitespaceOnly s = true.
Proof.
  induction s as [|c rest IH]; simpl; [reflexivity|].
  destruct (JsString.isWhiteSpace c) eqn:E; simpl.
  - exact IH.
  - rewrite E. discriminate.
Qed.

Example trim_inner_spaces : JsString.trim "  two words  " = "two words".
Proof. reflexivity. Qed.

Example endsWith_pdf :
  JsString.endsWith (JsString.toLowerCase "Report.PDF") ".pdf" = true
  /\ JsString.endsWith (JsString.toLowerCase "pdf") ".pdf" = false
  /\ JsString.endsWith (JsString.toLowerCase "notes.pdf.txt") ".pdf" = false.
Proof. repeat split. Qed.

Example join_errors :
  JsString.join ", " ["Condition ID is required"; "Condition description is required"]
  = "Condition ID is required, Condition description is required".
Proof. reflexivity. Qed.

(** [trim] leaves nothing exactly when the string is white space only. *)
Lemma blank_whitespaceOnly s :
  JsString.blank (Some s) = whitespaceOnly s.
Proof.
  unfold JsString.blank, JsString.trim.
  destruct (whitespaceOnly s) eqn:W.
  - now rewrite (trimStart_whitespaceOnly _ W).
  - apply String.eqb_neq. intros E.
    apply trimEnd_empty, trimStart_suffix in E. congruence.
Qed.

(** ** Classification service *)

Section ServiceFacts.

Import ClassificationService ErrorHandler.

Variable apiClient : BackendCall -> ApiResponse.t BackendResult.t.
Variable stack : string -> option string.
Variable stringify : ValidationError.t -> string.

(** A request that fails validation is answered by the [catch] block:
    nothing is sent. *)
Lemma classifyText_invalid request e log :
  validateTextRequest request = Raised (ThrownValidation e) ->
  classifyText apiClient stack stringify request log
  = (Returned (failure "Classification failed" "An unexpected error occurred"
                 "Please check your input and try again."), log).
Proof.
  intros H. unfold classifyText, Svc.tryCatch, Svc.bind, Svc.lift.
  now rewrite H.
Qed.

Lemma classifyPDF_invalid request e log :
  validatePDFRequest request = Raised (ThrownValidation e) ->
  classifyPDF apiClient stack stringify request log
  = (Returned (failure "PDF classification failed" "An unexpected error occurred"
                 "Please check your PDF file and try again."), log).
Proof.
  intros H. unfold classifyPDF, Svc.tryCatch, Svc.bind, Svc.lift.
  now rewrite H.
Qed.

Lemma validateTextRequest_blank request :
  JsString.blank (ClassifyTextRequest.text request) = true ->
  validateTextRequest request
  = Raised (ThrownValidation
              (createValidationError "Text content is required" (Some "text"))).
Proof.
  intros H. unfold validateTextRequest. now rewrite H.
Qed.

(** The check of [topKCandidates] in the text path. *)
Lemma validateTextRequest_topK request config :
  JsString.blank (ClassifyTextRequest.text request) = false ->
  JsString.blank (ClassifyTextRequest.datasetId request) = false ->
  ClassifyTextRequest.config request = Some config ->
  validateTextRequest request
  = if ((ClassificationConfig.topKCandidates config <? 1)%Z
        || (100 <? ClassificationConfig.topKCandidates config)%Z)
    then Raised (ThrownValidation
                   (createValidationError "Top K candidates must be between 1 and 100"
                      (Some "config.topKCandidates")))
    else Returned tt.
Proof.
  intros Ht Hd Hc. unfold validateTextRequest. rewrite Ht, Hd, Hc. reflexivity.
Qed.

(** Whatever the request, a rejected text request raises a validation
    error. *)
Lemma validateTextRequest_raises request t :
  validateTextRequest request = Raised t -> exists e, t = ThrownValidation e.
Proof.
  unfold validateTextRequest, andThen, throwIf.
  destruct (JsString.blank (ClassifyTextRequest.text request)).
  { intros H. inversion H. eauto. }
  destruct (JsString.blank (ClassifyTextRequest.datasetId request)).
  { intros H. inversion H. eauto. }
  destruct (ClassifyTextRequest.config request) as [c|].
  - destruct (_ || _); intros H; inversion H. eauto.
  - intros H; inversion H. eauto.
Qed.

Lemma validatePDFFile_spec file :
  validatePDFFile file
  = match file with
    | None =>
        Raised (ThrownValidation (createValidationError "PDF file is required" (Some "file")))
    | Some f =>
        if negb (JsString.endsWith (JsString.toLowerCase (File.name f)) ".pdf")
        then Raised (ThrownValidation
                       (createValidationError "Only PDF files are supported" (Some "file")))
        else if (maxSize <? File.size f)%N
        then Raised (ThrownValidation
                       (createValidationError "PDF file size must be less than 50MB"
                          (Some "file")))
        else if (File.size f =? 0)%N
        then Raised (ThrownValidation
                       (createValidationError "PDF file cannot be empty" (Some "file")))
        else Returned tt
    end.
Proof.
  destruct file as [f|]; [|reflexivity].
  unfold validatePDFFile, andThen, throwIf.
  destruct (negb _); [reflexivity|].
  destruct (_ <? _)%N; [reflexivity|].
  destruct (_ =? _)%N; reflexivity.
Qed.

Lemma validatePDFFile_bad file :
  badFile file ->
  exists message,
    validatePDFFile file
    = Raised (ThrownValidation (createValidationError message (Some "file"))).
Proof.
  intros H. rewrite validatePDFFile_spec.
  destruct file as [f|]; [|eauto].
  simpl in H.
  destruct (JsString.endsWith _ _) eqn:E; simpl; [|eauto].
  destruct (maxSize <? File.size f)%N eqn:L; [eauto|].
  destruct (File.size f =? 0)%N eqn:Z; [eauto|].
  exfalso. apply N.ltb_ge in L. apply N.eqb_neq in Z.
  unfold maxSize in L.
  destruct H as [H|[H|H]]; [congruence|lia|discriminate].
Qed.

End ServiceFacts.

(** C6. A text request whose text is empty or white space only fails
    validation with the error 'Text content is required'; [classifyText]
    then returns at once a failed response without data (its error is
    the 'processing' error of the catch block), and sends nothing to the
    backend. *)
Theorem classifyText_rejects_blank_text
  (apiClient : BackendCall -> ApiResponse.t BackendResult.t)
  (stack : string -> option string) (stringify : ValidationError.t -> string)
  (request : ClassifyTextRequest.t) (text : string) (log : list BackendCall) :
  ClassifyTextRequest.text request = Some text ->
  whitespaceOnly text = true ->
  ClassificationService.validateTextRequest request
  = Raised (ThrownValidation
              (ErrorHandler.createValidationError "Text content is required" (Some "text")))
  /\ exists response,
       ClassificationService.classifyText apiClient stack stringify request log
       = (Returned response, log)
       /\ ApiResponse.success response = false
       /\ ApiResponse.data response = None
       /\ option_map ApiError.type (ApiResponse.error response) = Some processing
       /\ option_map ApiError.message (ApiResponse.error response)
          = Some "Classification failed".
Proof.
  intros Htext Hblank.
  assert (V : JsString.blank (ClassifyTextRequest.text request) = true).
  { rewrite Htext, blank_whitespaceOnly. exact Hblank. }
  split; [now apply validateTextRequest_blank|].
  eexists. split.
  - eapply classifyText_invalid.
    now apply validateTextRequest_blank.
  - repeat split.
Qed.

Lemma classifyText_rejects_blank_text_witness :
  whitespaceOnly "   " = true
  /\ ClassificationService.validateTextRequest (Samples.textRequest "   " 5)
     = Raised (ThrownValidation
                 (ErrorHandler.createValidationError "Text content is required"
                    (Some "text")))
  /\ exists response,
       ClassificationService.classifyText Samples.client Samples.noStack
         Samples.showError (Samples.textRequest "   " 5) []
       = (Returned response, [])
       /\ ApiResponse.success response = false
       /\ ApiResponse.data response = None
       /\ option_map ApiError.type (ApiResponse.error response) = Some processing
       /\ option_map ApiError.message (ApiResponse.error response)
          = Some "Classification failed".
Proof.
  split; [reflexivity|].
  exact (classifyText_rejects_blank_text Samples.client Samples.noStack
           Samples.showError (Samples.textRequest "   " 5) "   " []
           eq_refl eq_refl).
Defined.

(** C10. [classifyPDF] answers a request whose file is missing, empty,
    larger than 50MB or not named [*.pdf] (in any letter case) with a
    failed response without data: the file check raises a validation
    error and nothing is sent to the backend. *)
Theorem classifyPDF_rejects_bad_file
  (apiClient : BackendCall -> ApiResponse.t BackendResult.t)
  (stack : string -> option string) (stringify : ValidationError.t -> string)
  (request : ClassifyPDFRequest.t) (log : list BackendCall) :
  badFile (ClassifyPDFRequest.file request) ->
  (exists message,
     ClassificationService.validatePDFFile (ClassifyPDFRequest.file request)
     = Raised (ThrownValidation
                 (ErrorHandler.createValidationError message (Some "file"))))
  /\ exists response,
       ClassificationService.classifyPDF apiClient stack stringify request log
       = (Returned response, log)
       /\ ApiResponse.success response = false
       /\ ApiResponse.data response = None
       /\ option_map ApiError.type (ApiResponse.error response) = Some processing
       /\ option_map ApiError.message (ApiResponse.error response)
          = Some "PDF classification failed".
Proof.
  intros Hbad.
  destruct (validatePDFFile_bad _ Hbad) as [message Hv].
  split; [eauto|].
  eexists. split.
  - eapply classifyPDF_invalid.
    unfold ClassificationService.validatePDFRequest. rewrite Hv. reflexivity.
  - repeat split.
Qed.

Lemma classifyPDF_rejects_bad_file_witness :
  badFile (Some {| File.name := "scan.docx"; File.size := 10 |})
  /\ ((exists message,
         ClassificationService.validatePDFFile
           (Some {| File.name := "scan.docx"; File.size := 10 |})
         = Raised (ThrownValidation
                     (ErrorHandler.createValidationError message (Some "file"))))
      /\ exists response,
           ClassificationService.classifyPDF Samples.client Samples.noStack
             Samples.showError
             (Samples.pdfRequest (Some {| File.name := "scan.docx"; File.size := 10 |}) 5)
             []
           = (Returned response, [])
           /\ ApiResponse.success response = false
           /\ ApiResponse.data response = None
           /\ option_map ApiError.type (ApiResponse.error response) = Some processing
           /\ option_map ApiError.message (ApiResponse.error response)
              = Some "PDF classification failed").
Proof.
  assert (B : badFile (Some {| File.name := "scan.docx"; File.size := 10 |})).
  { simpl. right. right. reflexivity. }
  split; [exact B|].
  exact (classifyPDF_rejects_bad_file Samples.client Samples.noStack Samples.showError
           (Samples.pdfRequest (Some {| File.name := "scan.docx"; File.size := 10 |}) 5)
           [] B).
Defined.

(** A file that passes the check is named [*.pdf], is not empty and has
    at most 50MB: the four cases of [badFile] are all there is. *)
Lemma validatePDFFile_accepts file :
  ClassificationService.validatePDFFile file = Returned tt <-> ~ badFile file.
Proof.
  rewrite validatePDFFile_spec. destruct file as [f|]; simpl.
  - destruct (JsString.endsWith _ _) eqn:E; simpl.
    + destruct (ClassificationService.maxSize <? File.size f)%N eqn:L.
      * split; [discriminate|]. intros H. exfalso. apply H.
        apply N.ltb_lt in L. unfold ClassificationService.maxSize in L. lia.
      * destruct (File.size f =? 0)%N eqn:Z.
        -- split; [discriminate|]. intros H. exfalso. apply H.
           left. now apply N.eqb_eq.
        -- split; [|reflexivity]. intros _ [H|[H|H]].
           ++ apply N.eqb_neq in Z. congruence.
           ++ apply N.ltb_ge in L. unfold ClassificationService.maxSize in L. lia.
           ++ discriminate.
    + split; [discriminate|]. intros H. exfalso. apply H. tauto.
  - split; [discriminate|]. tauto.
Qed.

(** The text path does reject a [topKCandidates] outside [1,100]:
    whatever else the request holds, nothing is sent and the response has
    no data. *)
Lemma classifyText_rejects_topK
  (apiClient : BackendCall -> ApiResponse.t BackendResult.t)
  (stack : string -> option string) (stringify : ValidationError.t -> string)
  (request : ClassifyTextRequest.t) (config : ClassificationConfig.t)
  (log : list BackendCall) :
  ClassifyTextRequest.config request = Some config ->
  (ClassificationConfig.topKCandidates config < 1
   \/ 100 < ClassificationConfig.topKCandidates config)%Z ->
  ClassificationService.classifyText apiClient stack stringify request log
  = (Returned (ClassificationService.failure "Classification failed"
                 "An unexpected error occurred"
                 "Please check your input and try again."), log).
Proof.
  intros Hc Hk.
  destruct (ClassificationService.validateTextRequest request) as [[]|t] eqn:V.
  - exfalso. revert V.
    unfold ClassificationService.validateTextRequest, andThen, throwIf.
    rewrite Hc.
    destruct (JsString.blank (ClassifyTextRequest.text request)); [discriminate|].
    destruct (JsString.blank (ClassifyTextRequest.datasetId request)); [discriminate|].
    assert (E : ((ClassificationConfig.topKCandidates config <? 1)%Z
                 || (100 <? ClassificationConfig.topKCandidates config)%Z) = true).
    { apply orb_true_iff. destruct Hk; [left; now apply Z.ltb_lt|right; now apply Z.ltb_lt]. }
    rewrite E. discriminate.
  - destruct (validateTextRequest_raises _ _ V) as [e ->].
    eapply classifyText_invalid; eassumption.
Qed.

(** The PDF path never looks at [topKCandidates]. *)
Lemma validatePDFRequest_ignores_topK file datasetId config config' :
  ClassificationService.validatePDFRequest
    (ClassifyPDFRequest.mk file datasetId (Some config))
  = ClassificationService.validatePDFRequest
      (ClassifyPDFRequest.mk file datasetId (Some config')).
Proof. reflexivity. Qed.

(** C5 (the PDF path misses the check).  A PDF request with a good file,
    a data set and [topKCandidates = 0] passes [validatePDFRequest]; it is
    sent to the backend with [top_k_candidates = 0] and the backend's
    answer becomes a successful classification result.  The text request
    with the same configuration is rejected. *)
Theorem classifyPDF_accepts_topK_out_of_range :
  ClassificationService.validatePDFRequest
    (Samples.pdfRequest (Some Samples.report) 0) = Returned tt
  /\ Svc.run (ClassificationService.classifyPDF Samples.client Samples.noStack
                Samples.showError (Samples.pdfRequest (Some Samples.report) 0))
     = (Returned (Samples.ok (Samples.result "Report.PDF"
                                [("pdf_metadata", JsUndefined)])),
        [UploadClassifyPdf Samples.report (Some "notes")
           (ClassificationService.configPayload (Samples.config 0))])
  /\ ConfigPayload.top_k_candidates
       (ClassificationService.configPayload (Samples.config 0)) = 0%Z
  /\ ClassificationService.validateTextRequest (Samples.textRequest "note" 0)
     = Raised (ThrownValidation
                 (ErrorHandler.createValidationError
                    "Top K candidates must be between 1 and 100"
                    (Some "config.topKCandidates"))).
Proof.
  repeat split.
Qed.

(** ** The reported confidence *)

Lemma or_or_zero (effective similarity : JsValue) :
  Js.or (Js.or effective similarity) (JsNumber Js.zero)
  = if Js.truthy effective then effective
    else if Js.truthy similarity then similarity
    else JsNumber Js.zero.
Proof.
  unfold Js.or.
  destruct (Js.truthy effective) eqn:E; [now rewrite E|].
  destruct (Js.truthy similarity) eqn:S; reflexivity.
Qed.

(** On a score field, [||] keeps exactly the numbers other than zero. *)
Lemma truthy_score v : Js.score v = true -> Js.truthy v = Js.nonzero v.
Proof. destruct v as [| | |[]| |]; simpl; congruence. Qed.

Lemma transform_confidence metadata backendResult result :
  ClassificationService.transform metadata backendResult = Returned result ->
  ClassificationResult.confidence result
  = Js.or (Js.or (BackendResult.effective_score backendResult)
                 (BackendResult.similarity_score backendResult))
          (JsNumber Js.zero).
Proof.
  unfold ClassificationService.transform.
  destruct (BackendResult.predicted_class backendResult); [|discriminate].
  intros H. inversion H. reflexivity.
Qed.

Section Responses.

Import ClassificationService.

Variable apiClient : BackendCall -> ApiResponse.t BackendResult.t.
Variable stack : string -> option string.
Variable stringify : ValidationError.t -> string.

Lemma respond_data metadata response log response' log' result :
  respond metadata response log = (Returned response', log') ->
  ApiResponse.data response' = Some result ->
  exists backendResult,
    ApiResponse.data response = Some backendResult
    /\ transform metadata backendResult = Returned result.
Proof.
  unfold respond.
  destruct (negb (ApiResponse.success response)).
  { unfold Svc.ret. intros H. inversion H. discriminate. }
  destruct (ApiResponse.data response) as [b|]; [|discriminate].
  unfold Svc.bind, Svc.lift, Svc.ret.
  destruct (transform metadata b) as [r|t] eqn:T; [|discriminate].
  intros H Hd. inversion H; subst. simpl in Hd. inversion Hd; subst. eauto.
Qed.

(** The data of a text response is the transformed payload of the
    backend's answer to this request. *)
Lemma classifyText_data request log response log' result :
  classifyText apiClient stack stringify request log = (Returned response, log') ->
  ApiResponse.data response = Some result ->
  exists config backendResult,
    ClassifyTextRequest.config request = Some config
    /\ ApiResponse.data
         (apiClient (PostClassifyText (ClassifyTextRequest.text request)
                       (ClassifyTextRequest.datasetId request) (configPayload config)))
       = Some backendResult
    /\ transform textMetadata backendResult = Returned result.
Proof.
  unfold classifyText, Svc.tryCatch, Svc.bind, Svc.lift.
  destruct (validateTextRequest request) as [[]|t].
  2:{ unfold Svc.ret. intros H. inversion H. discriminate. }
  destruct (ClassifyTextRequest.config request) as [config|].
  2:{ unfold Svc.throw, Svc.ret. intros H. inversion H. discriminate. }
  unfold Svc.send.
  destruct (respond textMetadata _ _) as [[r|t] l] eqn:R.
  - intros H Hd. inversion H; subst.
    destruct (respond_data _ _ _ _ _ _ R Hd) as [b [Hb Ht]]. eauto.
  - unfold Svc.ret. intros H. inversion H. discriminate.
Qed.

Lemma classifyPDF_data request log response log' result :
  classifyPDF apiClient stack stringify request log = (Returned response, log') ->
  ApiResponse.data response = Some result ->
  exists file config backendResult,
    ClassifyPDFRequest.file request = Some file
    /\ ClassifyPDFRequest.config request = Some config
    /\ ApiResponse.data
         (apiClient (UploadClassifyPdf file (ClassifyPDFRequest.datasetId request)
                       (configPayload config)))
       = Some backendResult
    /\ transform pdfMetadata backendResult = Returned result.
Proof.
  unfold classifyPDF, Svc.tryCatch, Svc.bind, Svc.lift.
  destruct (validatePDFRequest request) as [[]|t].
  2:{ unfold Svc.ret. intros H. inversion H. discriminate. }
  destruct (ClassifyPDFRequest.file request) as [file|].
  2:{ unfold Svc.throw, Svc.ret. intros H. inversion H. discriminate. }
  destruct (ClassifyPDFRequest.config request) as [config|].
  2:{ unfold Svc.throw, Svc.ret. intros H. inversion H. discriminate. }
  unfold Svc.send.
  destruct (respond pdfMetadata _ _) as [[r|t] l] eqn:R.
  - intros H Hd. inversion H; subst.
    destruct (respond_data _ _ _ _ _ _ R Hd) as [b [Hb Ht]]. eauto 8.
  - unfold Svc.ret. intros H. inversion H. discriminate.
Qed.

(** Every successful response carries its data. *)
Lemma classifyText_success_has_data request log response log' :
  classifyText apiClient stack stringify request log = (Returned response, log') ->
  ApiResponse.success response = true ->
  exists result, ApiResponse.data response = Some result.
Proof.
  unfold classifyText, Svc.tryCatch, Svc.bind, Svc.lift.
  destruct (validateTextRequest request) as [[]|t].
  2:{ unfold Svc.ret. intros H. inversion H. discriminate. }
  destruct (ClassifyTextRequest.config request) as [config|].
  2:{ unfold Svc.throw, Svc.ret. intros H. inversion H. discriminate. }
  unfold Svc.send, respond.
  destruct (ApiResponse.success (apiClient _)) eqn:S; simpl.
  - destruct (ApiResponse.data (apiClient _)) as [b|]; simpl.
    + unfold Svc.bind, Svc.lift, Svc.ret.
      destruct (transform textMetadata b); intros H; inversion H; simpl; eauto.
      discriminate.
    + unfold Svc.throw, Svc.ret. intros H. inversion H. discriminate.
  - unfold Svc.ret, passThrough. intros H. inversion H; simpl. congruence.
Qed.

End Responses.

Lemma transform_similarity metadata backendResult result :
  ClassificationService.transform metadata backendResult = Returned result ->
  ClassificationResult.similarityScore result
  = Js.or (BackendResult.similarity_score backendResult) (JsNumber Js.zero).
Proof.
  unfold ClassificationService.transform.
  destruct (BackendResult.predicted_class backendResult); [|discriminate].
  intros H. inversion H. reflexivity.
Qed.

Lemma transform_follows_rule metadata b result :
  ClassificationService.transform metadata b = Returned result ->
  confidenceFollowsRule result b.
Proof.
  intros T. split.
  - intros He Hs.
    rewrite (transform_confidence _ _ _ T), or_or_zero.
    now rewrite (truthy_score _ He), (truthy_score _ Hs).
  - intros sign E.
    rewrite (transform_confidence _ _ _ T), (transform_similarity _ _ _ T), E.
    split; [reflexivity|].
    intros Hs N. unfold Js.or. simpl.
    rewrite (truthy_score _ Hs), N. reflexivity.
Qed.

(** C8. In the data of a [classifyText] or [classifyPDF] response, the
    confidence is the backend's effective score when that is a number
    other than zero, otherwise its similarity score when that is one,
    otherwise 0; so an effective score of exactly 0 is replaced by a
    nonzero similarity score. *)
Theorem confidence_falls_back_on_zero
  (apiClient : BackendCall -> ApiResponse.t BackendResult.t)
  (stack : string -> option string) (stringify : ValidationError.t -> string) :
  (forall request log response log' result,
      ClassificationService.classifyText apiClient stack stringify request log
      = (Returned response, log') ->
      ApiResponse.data response = Some result ->
      exists config b,
        ClassifyTextRequest.config request = Some config
        /\ ApiResponse.data
             (apiClient (PostClassifyText (ClassifyTextRequest.text request)
                           (ClassifyTextRequest.datasetId request)
                           (ClassificationService.configPayload config)))
           = Some b
        /\ confidenceFollowsRule result b)
  /\ (forall request log response log' result,
         ClassificationService.classifyPDF apiClient stack stringify request log
         = (Returned response, log') ->
         ApiResponse.data response = Some result ->
         exists file config b,
           ClassifyPDFRequest.file request = Some file
           /\ ClassifyPDFRequest.config request = Some config
           /\ ApiResponse.data
                (apiClient (UploadClassifyPdf file (ClassifyPDFRequest.datasetId request)
                              (ClassificationService.configPayload config)))
              = Some b
           /\ confidenceFollowsRule result b).
Proof.
  split.
  - intros request log response log' result H Hd.
    destruct (classifyText_data _ _ _ _ _ _ _ _ H Hd) as [config [b [Hc [Hb T]]]].
    exists config, b. split; [exact Hc|]. split; [exact Hb|].
    exact (transform_follows_rule _ _ _ T).
  - intros request log response log' result H Hd.
    destruct (classifyPDF_data _ _ _ _ _ _ _ _ H Hd) as [file [config [b [Hf [Hc [Hb T]]]]]].
    exists file, config, b. split; [exact Hf|]. split; [exact Hc|]. split; [exact Hb|].
    exact (transform_follows_rule _ _ _ T).
Qed.

Lemma confidence_falls_back_on_zero_witness :
  ClassificationService.classifyText Samples.client Samples.noStack Samples.showError
    (Samples.textRequest "Progress Note" 5) []
  = (Returned (Samples.ok (Samples.result "Progress Note" [])),
     [Samples.textCall "Progress Note" 5])
  /\ BackendResult.effective_score (Samples.payload "Progress Note")
     = JsNumber (S754_zero false)
  /\ Js.score (BackendResult.similarity_score (Samples.payload "Progress Note")) = true
  /\ Js.nonzero (BackendResult.similarity_score (Samples.payload "Progress Note")) = true
  /\ ClassificationResult.confidence (Samples.result "Progress Note" [])
     = BackendResult.similarity_score (Samples.payload "Progress Note").
Proof.
  split; [reflexivity|]. split; [reflexivity|]. split; [reflexivity|].
  split; [reflexivity|].
  destruct (proj1 (confidence_falls_back_on_zero Samples.client Samples.noStack
                     Samples.showError)
              (Samples.textRequest "Progress Note" 5) []
              (Samples.ok (Samples.result "Progress Note" []))
              [Samples.textCall "Progress Note" 5]
              (Samples.result "Progress Note" [])
              eq_refl eq_refl) as [config [b [_ [Hb [_ Hzero]]]]].
  simpl in Hb. injection Hb as <-.
  exact (proj2 (Hzero false eq_refl) eq_refl eq_refl).
Defined.

(** The sample: effective score 0, similarity 0.75, confidence 0.75; the
    class id is the lower-cased, underscored name. *)
Example confidence_of_sample :
  ClassificationResult.confidence (Samples.result "Progress Note" [])
  = BackendResult.similarity_score (Samples.payload "Progress Note")
  /\ ClassDefinition.id (ClassificationResult.predictedClass
                           (Samples.result "Progress  Note" []))
     = "progress_note".
Proof. split; reflexivity. Qed.

(** ** The top-K control of the options panel *)

Section TopK.

Import ClassificationOptions ClassificationConfig.

(** Only the slider changes [topKCandidates]. *)
Lemma handle_topK e c c' :
  handle e c = Some c' ->
  topKCandidates c' = topKCandidates c
  \/ exists v, e = TopKChange v /\ topKCandidates c' = Z.max 1 (Z.min 20 v).
Proof.
  destruct e as [models|exist|modelId|v|found]; simpl.
  - intros [= <-]. now left.
  - unfold handleToggleAttributeValidation.
    destruct (_ && _); [discriminate|]. intros [= <-]. now left.
  - intros [= <-]. now left.
  - intros [= <-]. right. now exists v.
  - unfold checkAttributes.
    destruct (_ && _); [|discriminate]. intros [= <-]. now left.
Qed.

Lemma clamp_inSlider v : inSlider (Z.max 1 (Z.min 20 v)).
Proof. unfold inSlider. lia. Qed.

Lemma emits_inSlider start c :
  inSlider (topKCandidates start) -> emits start c -> inSlider (topKCandidates c).
Proof.
  intros Hstart He. induction He as [e c H|e c c' _ IH H].
  - destruct (handle_topK _ _ _ H) as [->|[v [_ ->]]];
      [assumption|apply clamp_inSlider].
  - destruct (handle_topK _ _ _ H) as [->|[v [_ ->]]];
      [assumption|apply clamp_inSlider].
Qed.

End TopK.

Lemma validateTextRequest_accepts request config :
  JsString.blank (ClassifyTextRequest.text request) = false ->
  JsString.blank (ClassifyTextRequest.datasetId request) = false ->
  ClassifyTextRequest.config request = Some config ->
  (ClassificationService.validateTextRequest request = Returned tt
   <-> (1 <= ClassificationConfig.topKCandidates config <= 100)%Z).
Proof.
  intros Ht Hd Hc. rewrite (validateTextRequest_topK _ _ Ht Hd Hc).
  destruct (ClassificationConfig.topKCandidates config <? 1)%Z eqn:L; simpl.
  - apply Z.ltb_lt in L. split; [discriminate|lia].
  - apply Z.ltb_ge in L.
    destruct (100 <? ClassificationConfig.topKCandidates config)%Z eqn:G.
    + apply Z.ltb_lt in G. split; [discriminate|lia].
    + apply Z.ltb_ge in G. split; [lia|reflexivity].
Qed.

(** C9. For every integer [v] the slider handler passes on a
    configuration whose [topKCandidates] is [max 1 (min 20 v)] and that is
    otherwise unchanged; starting from the default configuration, no
    configuration the panel emits has [topKCandidates] outside [1,20];
    yet the service accepts every value up to 100. *)
Theorem topK_control_stays_within_20 :
  (forall (v : Z) (config : ClassificationConfig.t),
      exists config',
        ClassificationOptions.handleTopKChange v config = Some config'
        /\ ClassificationConfig.topKCandidates config' = Z.max 1 (Z.min 20 v)
        /\ (ClassificationConfig.topKCandidates config' <= 20)%Z
        /\ ClassificationConfig.useReranking config'
           = ClassificationConfig.useReranking config
        /\ ClassificationConfig.rerankingModel config'
           = ClassificationConfig.rerankingModel config
        /\ ClassificationConfig.useAttributeValidation config'
           = ClassificationConfig.useAttributeValidation config)
  /\ (forall config,
         ClassificationOptions.emits ClassificationStore.defaultConfig config ->
         (1 <= ClassificationConfig.topKCandidates config <= 20)%Z)
  /\ (forall request config,
         JsString.blank (ClassifyTextRequest.text request) = false ->
         JsString.blank (ClassifyTextRequest.datasetId request) = false ->
         ClassifyTextRequest.config request = Some config ->
         (20 < ClassificationConfig.topKCandidates config <= 100)%Z ->
         ClassificationService.validateTextRequest request = Returned tt).
Proof.
  split; [|split].
  - intros v config. eexists. split; [reflexivity|]. simpl.
    repeat split. lia.
  - intros config H.
    apply (emits_inSlider ClassificationStore.defaultConfig config); [|exact H].
    unfold inSlider. simpl. lia.
  - intros request config Ht Hd Hc Hk.
    apply (validateTextRequest_accepts _ _ Ht Hd Hc). lia.
Qed.

Lemma topK_control_stays_within_20_witness :
  ClassificationOptions.emits ClassificationStore.defaultConfig
    (ClassificationConfig.mk false (Some "us.amazon.nova-lite-v1:0") None false 20)
  /\ (1 <= 20 <= 20)%Z
  /\ ClassificationService.validateTextRequest (Samples.textRequest "note" 100)
     = Returned tt.
Proof.
  assert (E : ClassificationOptions.emits ClassificationStore.defaultConfig
                (ClassificationConfig.mk false (Some "us.amazon.nova-lite-v1:0")
                   None false 20)).
  { apply (ClassificationOptions.emits_first _ (ClassificationOptions.TopKChange 57)).
    reflexivity. }
  split; [exact E|]. split.
  - exact (proj1 (proj2 topK_control_stays_within_20) _ E).
  - apply (proj2 (proj2 topK_control_stays_within_20)
             (Samples.textRequest "note" 100) (Samples.config 100));
      [reflexivity|reflexivity|reflexivity|simpl; lia].
Defined.

(** ** The classification store *)

Section StoreFacts.

Import ClassificationStore.

Variable apiClient : BackendCall -> ApiResponse.t BackendResult.t.
Variable stack : string -> option string.
Variable stringify : ValidationError.t -> string.

Lemma fail_keeps_results code message thrown s settled s' :
  fail code message thrown (begin s) = (settled, s') ->
  (exists e, settled = Rejected e)
  /\ currentResult s' = currentResult s
  /\ resultHistory s' = resultHistory s.
Proof.
  unfold fail. intros H. inversion H; subst. simpl. eauto.
Qed.

Lemma classifyText_settles request s log settled s' log' :
  classifyText apiClient stack stringify request s log = (settled, s', log') ->
  match settled with
  | Resolved result =>
      currentResult s' = Some result
      /\ resultHistory s' = firstn 50 (result :: resultHistory s)
  | Rejected _ =>
      currentResult s' = currentResult s
      /\ resultHistory s' = resultHistory s
  end.
Proof.
  unfold classifyText.
  destruct (ClassificationService.classifyText _ _ _ _ _) as [[response|thrown] l].
  - destruct (negb (ApiResponse.success response)).
    + destruct (fail _ _ _ _) as [st s1] eqn:F. intros H. inversion H; subst.
      destruct (fail_keeps_results _ _ _ _ _ _ F) as [[e ->] R]. exact R.
    + destruct (ApiResponse.data response) as [result|].
      * intros H. inversion H; subst. split; reflexivity.
      * destruct (fail _ _ _ _) as [st s1] eqn:F. intros H. inversion H; subst.
        destruct (fail_keeps_results _ _ _ _ _ _ F) as [[e ->] R]. exact R.
  - destruct (fail _ _ _ _) as [st s1] eqn:F. intros H. inversion H; subst.
    destruct (fail_keeps_results _ _ _ _ _ _ F) as [[e ->] R]. exact R.
Qed.

Lemma classifyPDF_settles request s log settled s' log' :
  classifyPDF apiClient stack stringify request s log = (settled, s', log') ->
  match settled with
  | Resolved result =>
      currentResult s' = Some result
      /\ resultHistory s' = firstn 50 (result :: resultHistory s)
  | Rejected _ =>
      currentResult s' = currentResult s
      /\ resultHistory s' = resultHistory s
  end.
Proof.
  unfold classifyPDF.
  destruct (ClassificationService.classifyPDF _ _ _ _ _) as [[response|thrown] l].
  - destruct (negb (ApiResponse.success response)).
    + destruct (fail _ _ _ _) as [st s1] eqn:F. intros H. inversion H; subst.
      destruct (fail_keeps_results _ _ _ _ _ _ F) as [[e ->] R]. exact R.
    + destruct (ApiResponse.data response) as [result|].
      * intros H. inversion H; subst.
        destruct (Js.truthy _); split; reflexivity.
      * destruct (fail _ _ _ _) as [st s1] eqn:F. intros H. inversion H; subst.
        destruct (fail_keeps_results _ _ _ _ _ _ F) as [[e ->] R]. exact R.
  - destruct (fail _ _ _ _) as [st s1] eqn:F. intros H. inversion H; subst.
    destruct (fail_keeps_results _ _ _ _ _ _ F) as [[e ->] R]. exact R.
Qed.

(** The history never grows beyond 50 results. *)
Lemma addToHistory_length result s :
  List.length (resultHistory (addToHistory result s)) <= 50.
Proof. unfold addToHistory, resultHistory at 1. apply firstn_le_length. Qed.

(** A result among the 49 most recent ones is still there after the next
    successful call, one place further down. *)
Lemma history_shifts result s i previous :
  nth_error (resultHistory s) i = Some previous ->
  i < 49 ->
  nth_error (firstn 50 (result :: resultHistory s)) (S i) = Some previous.
Proof.
  intros H Hi.
  rewrite nth_error_firstn.
  destruct (Nat.ltb_spec (S i) 50); [exact H|lia].
Qed.

End StoreFacts.

(** The service has no memory: its answer depends on the request (and
    the backend) only, and the log only grows by the calls it makes. *)
Lemma respond_log metadata response log :
  ClassificationService.respond metadata response log
  = (fst (ClassificationService.respond metadata response []), log).
Proof.
  unfold ClassificationService.respond.
  destruct (negb (ApiResponse.success response)); [reflexivity|].
  destruct (ApiResponse.data response) as [b|]; [|reflexivity].
  unfold Svc.bind, Svc.lift, Svc.ret.
  destruct (ClassificationService.transform metadata b); reflexivity.
Qed.

Lemma service_classifyText_stateless apiClient stack stringify request log :
  ClassificationService.classifyText apiClient stack stringify request log
  = (fst (ClassificationService.classifyText apiClient stack stringify request []),
     log ++ snd (ClassificationService.classifyText apiClient stack stringify request [])).
Proof.
  unfold ClassificationService.classifyText, Svc.tryCatch, Svc.bind, Svc.lift.
  destruct (ClassificationService.validateTextRequest request) as [[]|t].
  2:{ unfold Svc.ret. simpl. now rewrite app_nil_r. }
  destruct (ClassifyTextRequest.config request) as [config|].
  2:{ unfold Svc.throw, Svc.ret. simpl. now rewrite app_nil_r. }
  unfold Svc.send.
  rewrite (respond_log _ _ (log ++ _)), (respond_log _ _ ([] ++ _)).
  destruct (fst (ClassificationService.respond _ _ [])); reflexivity.
Qed.

(** C7, as the code has it.  The service keeps nothing between calls, but
    the store does: a call that resolves makes its result the current one
    and puts it in front of the history, which is cut to the 50 most
    recent results; a call that rejects leaves both as they were. *)
Theorem store_keeps_result_history
  (apiClient : BackendCall -> ApiResponse.t BackendResult.t)
  (stack : string -> option string) (stringify : ValidationError.t -> string)
  (s s' : ClassificationStore.ClassificationState)
  (log log' : list BackendCall) (settled : ClassificationStore.Settled) :
  (exists request,
      ClassificationStore.classifyText apiClient stack stringify request s log
      = (settled, s', log'))
  \/ (exists request,
        ClassificationStore.classifyPDF apiClient stack stringify request s log
        = (settled, s', log')) ->
  match settled with
  | ClassificationStore.Resolved result =>
      ClassificationStore.currentResult s' = Some result
      /\ ClassificationStore.resultHistory s'
         = firstn 50 (result :: ClassificationStore.resultHistory s)
      /\ (forall i previous,
             nth_error (ClassificationStore.resultHistory s) i = Some previous ->
             i < 49 ->
             nth_error (ClassificationStore.resultHistory s') (S i) = Some previous)
  | ClassificationStore.Rejected _ =>
      ClassificationStore.currentResult s' = ClassificationStore.currentResult s
      /\ ClassificationStore.resultHistory s' = ClassificationStore.resultHistory s
  end.
Proof.
  intros [[request H]|[request H]].
  - apply classifyText_settles in H. destruct settled as [result|e]; [|exact H].
    destruct H as [Hc Hh]. repeat split; [exact Hc|exact Hh|].
    intros i previous Hi Hlt. rewrite Hh. now apply history_shifts.
  - apply classifyPDF_settles in H. destruct settled as [result|e]; [|exact H].
    destruct H as [Hc Hh]. repeat split; [exact Hc|exact Hh|].
    intros i previous Hi Hlt. rewrite Hh. now apply history_shifts.
Qed.

(** C7, as stated, fails: after a second call the store still holds the
    result of the first one. *)
Lemma store_holds_previous_result :
  exists s1 s2 log2,
    ClassificationStore.classifyText Samples.client Samples.noStack Samples.showError
      (Samples.textRequest "first" 5) ClassificationStore.initialState []
    = (ClassificationStore.Resolved (Samples.result "first" []), s1,
       [Samples.textCall "first" 5])
    /\ ClassificationStore.classifyText Samples.client Samples.noStack Samples.showError
         (Samples.textRequest "second" 5) s1 [Samples.textCall "first" 5]
       = (ClassificationStore.Resolved (Samples.result "second" []), s2, log2)
    /\ Samples.result "first" [] <> Samples.result "second" []
    /\ ClassificationStore.holds s2 (Samples.result "first" [])
    /\ ClassificationStore.resultHistory s2
       = [Samples.result "second" []; Samples.result "first" []].
Proof.
  eexists. eexists. eexists.
  split; [vm_compute; reflexivity|].
  split; [vm_compute; reflexivity|].
  split; [discriminate|].
  split; [right; simpl; auto|].
  reflexivity.
Qed.

Lemma store_keeps_result_history_witness :
  let s1 :=
    ClassificationStore.addToHistory (Samples.result "first" [])
      (ClassificationStore.setClassifying false
         (ClassificationStore.setCurrentResult (Some (Samples.result "first" []))
            (ClassificationStore.begin ClassificationStore.initialState))) in
  ClassificationStore.classifyText Samples.client Samples.noStack Samples.showError
    (Samples.textRequest "first" 5) ClassificationStore.initialState []
  = (ClassificationStore.Resolved (Samples.result "first" []), s1,
     [Samples.textCall "first" 5])
  /\ ClassificationStore.currentResult s1 = Some (Samples.result "first" [])
  /\ ClassificationStore.resultHistory s1
     = firstn 50 (Samples.result "first" []
                  :: ClassificationStore.resultHistory ClassificationStore.initialState).
Proof.
  intros s1.
  assert (H : ClassificationStore.classifyText Samples.client Samples.noStack
                Samples.showError (Samples.textRequest "first" 5)
                ClassificationStore.initialState []
              = (ClassificationStore.Resolved (Samples.result "first" []), s1,
                 [Samples.textCall "first" 5])) by reflexivity.
  split; [exact H|].
  pose proof (store_keeps_result_history Samples.client Samples.noStack
                Samples.showError ClassificationStore.initialState s1 []
                [Samples.textCall "first" 5]
                (ClassificationStore.Resolved (Samples.result "first" []))
                (or_introl (ex_intro _ (Samples.textRequest "first" 5) H))) as K.
  simpl in K. destruct K as [Kc [Kh _]]. split; [exact Kc|exact Kh].
Defined.

(** ** Rules without conditions *)

Lemma forEach_nonempty check index cs entry :
  In entry cs ->
  (forall i, check i entry <> []) ->
  forEach check index cs <> [].
Proof.
  revert index. induction cs as [|c rest IH]; intros index Hin Hcheck; [contradiction|].
  simpl. destruct Hin as [->|Hin].
  - specialize (Hcheck index). destruct (check index entry); [congruence|discriminate].
  - intros E. apply app_eq_nil in E as [_ E]. now apply (IH (S index)).
Qed.

Lemma report_invalid errs : errs <> [] -> isValid (report errs) = false.
Proof. destruct errs; [congruence|reflexivity]. Qed.

Lemma nodeErrors_empty op : nodeErrors op [] = [emptyRuleMessage].
Proof. destruct op; reflexivity. Qed.

Lemma hasEmptyNode_cases op cs :
  hasEmptyNode (Rule op cs) = true ->
  cs = [] \/ exists r, In (Nested r) cs /\ hasEmptyNode r = true.
Proof.
  simpl. intros H. apply orb_true_iff in H as [H|H].
  - left. destruct cs; [reflexivity|discriminate].
  - right. apply existsb_exists in H as [entry [Hin He]].
    destruct entry as [s|c|r]; try discriminate. eauto.
Qed.

(** A rule with an empty node anywhere inside is reported invalid by
    both validators. *)
Lemma validateAttributeRule_empty_node rule :
  hasEmptyNode rule = true ->
  isValid (DatasetService.validateAttributeRule rule) = false.
Proof.
  induction rule as [op cs IH| | |r IH]
    using AttributeRule_ind'
    with (Q := fun entry =>
                 match entry with
                 | Nested r =>
                     hasEmptyNode r = true ->
                     isValid (DatasetService.validateAttributeRule r) = false
                 | _ => True
                 end); try exact I; try exact IH.
  intros H. apply hasEmptyNode_cases in H as [->|[r [Hin Hr]]].
  - simpl. now rewrite nodeErrors_empty.
  - simpl. apply report_invalid. intros E. apply app_eq_nil in E as [_ E].
    revert E. apply (forEach_nonempty _ _ _ _ Hin).
    intros i. rewrite Forall_forall in IH. specialize (IH _ Hin Hr).
    rewrite IH. discriminate.
Qed.

Lemma validateRule_empty_node rule :
  hasEmptyNode rule = true ->
  isValid (AttributeEditor.validateRule rule) = false.
Proof.
  induction rule as [op cs IH| | |r IH]
    using AttributeRule_ind'
    with (Q := fun entry =>
                 match entry with
                 | Nested r =>
                     hasEmptyNode r = true ->
                     isValid (AttributeEditor.validateRule r) = false
                 | _ => True
                 end); try exact I; try exact IH.
  intros H. apply hasEmptyNode_cases in H as [->|[r [Hin Hr]]].
  - simpl. now rewrite nodeErrors_empty.
  - simpl. apply report_invalid. intros E. apply app_eq_nil in E as [_ E].
    revert E. apply (forEach_nonempty _ _ _ _ Hin).
    intros i. rewrite Forall_forall in IH. specialize (IH _ Hin Hr).
    rewrite IH. discriminate.
Qed.

(** ** The rule evaluator *)

Section EvaluatorFacts.

Import Core.

Variable judge : string -> string -> Judgment.
Variable document : string.

Let evalE := evalEntry judge document.
Let nodeOf := entryNode judge document.
Let callsOf := entryCalls judge document.

Lemma evaluate_empty op log :
  evaluate judge document (Rule op []) log
  = (mkNode (nodeTypeOf op) (Some false) None [] false (Some emptyRuleMessage), log).
Proof. reflexivity. Qed.

Lemma evaluate_cons op c cs log :
  evaluate judge document (Rule op (c :: cs)) log
  = let '(nodes, log') := evalChildren evalE op false (c :: cs) log in
    (mkNode (nodeTypeOf op) (Some (combine op nodes)) None nodes false None, log').
Proof. reflexivity. Qed.

Lemma skipEntry_skipped entry :
  skipped (skipEntry entry) = true /\ satisfied (skipEntry entry) = None.
Proof. destruct entry as [s|c|[op cs]]; split; reflexivity. Qed.

Lemma evalChildren_stopped op cs log :
  evalChildren evalE op true cs log = (map skipEntry cs, log).
Proof.
  induction cs as [|c rest IH]; simpl; [reflexivity|]. now rewrite IH.
Qed.

(** The log only grows, by calls that do not depend on it. *)
Let appends (entry : RuleEntry) : Prop :=
  forall log, evalE entry log = (nodeOf entry, log ++ callsOf entry).

Lemma evalChildren_appends op cs :
  Forall appends cs ->
  forall stopped log,
    evalChildren evalE op stopped cs log
    = (fst (evalChildren evalE op stopped cs []),
       log ++ snd (evalChildren evalE op stopped cs [])).
Proof.
  induction 1 as [|c rest Hc _ IH]; intros stopped log; simpl.
  - now rewrite app_nil_r.
  - destruct stopped.
    + rewrite !evalChildren_stopped. simpl. now rewrite app_nil_r.
    + rewrite (Hc log), (Hc []). simpl.
      rewrite (IH _ (log ++ callsOf c)), (IH _ (callsOf c)).
      simpl. now rewrite app_assoc.
Qed.

Lemma evalEntry_appends entry : appends entry.
Proof.
  apply (RuleEntry_ind'
           (fun r => forall log,
                evaluate judge document r log
                = (fst (evaluate judge document r []),
                   log ++ snd (evaluate judge document r [])))
           appends).
  - intros op cs Hcs log. destruct cs as [|c rest].
    + rewrite !evaluate_empty. simpl. now rewrite app_nil_r.
    + rewrite !evaluate_cons.
      rewrite (evalChildren_appends op (c :: rest) Hcs false log).
      destruct (evalChildren evalE op false (c :: rest) []) as [nodes calls].
      reflexivity.
  - intros s log. reflexivity.
  - intros c log. reflexivity.
  - intros r IH log. exact (IH log).
Qed.

Lemma evalChildren_log op stopped cs log :
  evalChildren evalE op stopped cs log
  = (fst (evalChildren evalE op stopped cs []),
     log ++ snd (evalChildren evalE op stopped cs [])).
Proof.
  apply evalChildren_appends. apply Forall_forall. intros e _. apply evalEntry_appends.
Qed.

(** Children that do not decide the node are evaluated one after the
    other, in the order of the rule. *)
Lemma evalChildren_app op before rest log :
  Forall (fun b => shortCircuits op (nodeOf b) = false) before ->
  evalChildren evalE op false (before ++ rest) log
  = (map nodeOf before
       ++ fst (evalChildren evalE op false rest []),
     log ++ flat_map callsOf before
         ++ snd (evalChildren evalE op false rest [])).
Proof.
  intros H. revert log. induction H as [|b before Hb _ IH]; intros log; simpl.
  - apply evalChildren_log.
  - rewrite (evalEntry_appends b log). rewrite Hb. rewrite IH.
    now rewrite <- !app_assoc.
Qed.

(** The child that decides the node is the last one sent to the oracle. *)
Lemma evalChildren_decided op before c rest log :
  Forall (fun b => shortCircuits op (nodeOf b) = false) before ->
  shortCircuits op (nodeOf c) = true ->
  evalChildren evalE op false (before ++ c :: rest) log
  = (map nodeOf before ++ nodeOf c :: map skipEntry rest,
     log ++ flat_map callsOf (before ++ [c])).
Proof.
  intros Hb Hc. rewrite (evalChildren_app op before (c :: rest) log Hb).
  simpl. rewrite (evalEntry_appends c []). rewrite Hc.
  rewrite evalChildren_stopped. simpl.
  rewrite flat_map_app. simpl. now rewrite app_nil_r.
Qed.

(** Without a deciding child, every child is evaluated. *)
Lemma evalChildren_all op cs log :
  Forall (fun b => shortCircuits op (nodeOf b) = false) cs ->
  evalChildren evalE op false cs log = (map nodeOf cs, log ++ flat_map callsOf cs).
Proof.
  intros H. pose proof (evalChildren_app op cs [] log H) as E.
  rewrite !app_nil_r in E. exact E.
Qed.

(** An evaluated entry is not marked skipped. *)
Lemma entryNode_evaluated entry : skipped (nodeOf entry) = false.
Proof.
  destruct entry as [s|c|[op [|c cs]]]; unfold nodeOf, entryNode, evalEntry.
  - unfold evalLeaf. simpl. destruct (judge s document); reflexivity.
  - unfold evalLeaf. simpl. destruct (judge _ document); reflexivity.
  - reflexivity.
  - rewrite evaluate_cons.
    destruct (evalChildren evalE op false (c :: cs) []) as [nodes calls]. reflexivity.
Qed.

Lemma combine_AND_false nodes node :
  In node nodes -> satisfied node = Some false -> combine AND nodes = false.
Proof.
  intros Hin Hs. simpl. apply not_true_is_false. intros E.
  rewrite forallb_forall in E. specialize (E _ Hin).
  unfold isTrue in E. rewrite Hs in E. discriminate.
Qed.

End EvaluatorFacts.

Lemma shortCircuits_AND node :
  Core.shortCircuits AND node = true <-> satisfied node = Some false.
Proof.
  unfold Core.shortCircuits. destruct (satisfied node) as [[]|]; split; congruence.
Qed.

(** C2. An AND rule evaluates its children in the order of the rule and
    stops at the first child found [satisfied = false]: the children
    before it and that child are the only ones sent to the oracle, every
    later child is in the tree as a node with [skipped = true] and
    [satisfied = null], and the tree has one child per condition.  For
    AND[c1, c2, c3] with c1 judged false the oracle is called once, for
    c1, and c2 and c3 are skipped. *)
Theorem and_short_circuits
  (judge : string -> string -> Core.Judgment) (document : string) :
  (forall (before : list RuleEntry) (c : RuleEntry) (rest : list RuleEntry)
          (log : list string),
      Forall (fun b => satisfied (Core.entryNode judge document b) <> Some false) before ->
      satisfied (Core.entryNode judge document c) = Some false ->
      exists root,
        Core.evaluate judge document (Rule AND (before ++ c :: rest)) log
        = (root, log ++ flat_map (Core.entryCalls judge document) (before ++ [c]))
        /\ node_type root = AND_node
        /\ satisfied root = Some false
        /\ children root
           = map (Core.entryNode judge document) before
               ++ Core.entryNode judge document c :: map Core.skipEntry rest
        /\ List.length (children root) = List.length (before ++ c :: rest)
        /\ Forall (fun node => skipped node = true /\ satisfied node = None)
                  (map Core.skipEntry rest))
  /\ (forall (c : RuleEntry) (cs : list RuleEntry) (log : list string),
         Forall (fun b => satisfied (Core.entryNode judge document b) <> Some false)
                (c :: cs) ->
         exists root,
           Core.evaluate judge document (Rule AND (c :: cs)) log
           = (root, log ++ flat_map (Core.entryCalls judge document) (c :: cs))
           /\ children root = map (Core.entryNode judge document) (c :: cs)
           /\ Forall (fun node => skipped node = false) (children root))
  /\ (forall (c1 : string) (c2 c3 : RuleEntry) (confidence : option spec_float),
         judge c1 document = Core.JudgmentResult false confidence ->
         exists n1,
           Core.evaluate judge document (Rule AND [Text c1; c2; c3]) []
           = (mkNode AND_node (Some false) None
                [n1; Core.skipEntry c2; Core.skipEntry c3] false None,
              [c1])
           /\ satisfied n1 = Some false
           /\ skipped (Core.skipEntry c2) = true
           /\ skipped (Core.skipEntry c3) = true).
Proof.
  assert (undecided :
            forall l,
              Forall (fun b => satisfied (Core.entryNode judge document b) <> Some false) l ->
              Forall (fun b => Core.shortCircuits AND
                                 (Core.entryNode judge document b) = false) l).
  { intros l Hl. eapply Forall_impl; [|exact Hl]. intros b Hn. simpl in Hn.
    apply not_true_is_false. intros E. now apply shortCircuits_AND in E. }
  split; [|split].
  - intros before c rest log Hbefore Hc.
    pose proof (undecided _ Hbefore) as Hb.
    assert (Hs : Core.shortCircuits AND (Core.entryNode judge document c) = true)
      by now apply shortCircuits_AND.
    pose proof (evalChildren_decided judge document AND before c rest log Hb Hs) as E.
    assert (R : Core.evaluate judge document (Rule AND (before ++ c :: rest)) log
                = (mkNode AND_node
                     (Some (Core.combine AND
                              (map (Core.entryNode judge document) before
                                 ++ Core.entryNode judge document c
                                 :: map Core.skipEntry rest)))
                     None
                     (map (Core.entryNode judge document) before
                        ++ Core.entryNode judge document c :: map Core.skipEntry rest)
                     false None,
                   log ++ flat_map (Core.entryCalls judge document) (before ++ [c]))).
    { destruct (before ++ c :: rest) as [|x xs] eqn:L.
      { destruct before; discriminate. }
      rewrite evaluate_cons, E. reflexivity. }
    eexists. split; [exact R|]. simpl.
    repeat split.
    + f_equal. apply (combine_AND_false _ (Core.entryNode judge document c));
        [apply in_or_app; right; now left|exact Hc].
    + rewrite !length_app. simpl. now rewrite !length_map.
    + apply Forall_forall. intros node Hin.
      apply in_map_iff in Hin as [entry [<- _]]. apply skipEntry_skipped.
  - intros c cs log Hall.
    rewrite evaluate_cons.
    rewrite (evalChildren_all judge document AND (c :: cs) log (undecided _ Hall)).
    eexists. split; [reflexivity|]. split; [reflexivity|].
    apply Forall_forall. intros node Hin.
    apply in_map_iff in Hin as [entry [<- _]]. apply entryNode_evaluated.
  - intros c1 c2 c3 confidence Hj.
    exists (mkNode condition_node (Some false) (Some c1) [] false None).
    split; [|repeat split; apply skipEntry_skipped].
    rewrite evaluate_cons. simpl.
    unfold Core.evalLeaf. rewrite Hj. simpl.
    reflexivity.
Qed.

Lemma and_short_circuits_witness :
  Forall (fun b => satisfied (Core.entryNode Samples.judge "invoice 12" b) <> Some false)
         [Text "is dated"]
  /\ satisfied (Core.entryNode Samples.judge "invoice 12"
                  (Text "mentions a monetary amount")) = Some false
  /\ exists root,
       Core.evaluate Samples.judge "invoice 12" Samples.invoiceRule []
       = (root, ["is dated"; "mentions a monetary amount"])
       /\ node_type root = AND_node
       /\ satisfied root = Some false
       /\ children root
          = map (Core.entryNode Samples.judge "invoice 12") [Text "is dated"]
              ++ Core.entryNode Samples.judge "invoice 12"
                   (Text "mentions a monetary amount")
              :: map Core.skipEntry
                   [Text "identifies payer and payee";
                    Nested (Rule OR [Text "is signed"; Text "is stamped"])]
       /\ List.length (children root) = 4
       /\ Forall (fun node => skipped node = true /\ satisfied node = None)
                 (map Core.skipEntry
                    [Text "identifies payer and payee";
                     Nested (Rule OR [Text "is signed"; Text "is stamped"])]).
Proof.
  assert (H1 : Forall (fun b => satisfied (Core.entryNode Samples.judge "invoice 12" b)
                                <> Some false) [Text "is dated"]).
  { constructor; [discriminate|constructor]. }
  split; [exact H1|]. split; [reflexivity|].
  exact (proj1 (and_short_circuits Samples.judge "invoice 12")
           [Text "is dated"] (Text "mentions a monetary amount")
           [Text "identifies payer and payee";
            Nested (Rule OR [Text "is signed"; Text "is stamped"])]
           [] H1 eq_refl).
Defined.

(** C3. A rule node without conditions, AND or OR, is invalid input: both
    validators answer [isValid = false] with the error 'Rule must have at
    least one condition' (so the editor cannot save it), a rule that has
    such a node anywhere inside is invalid too, and evaluating the node
    gives [satisfied = false] with that error, without asking the
    oracle. *)
Theorem empty_rule_is_rejected (op : Operator) :
  emptyRuleMessage = "Rule must have at least one condition"
  /\ DatasetService.validateAttributeRule (Rule op [])
     = {| isValid := false; errors := [emptyRuleMessage] |}
  /\ AttributeEditor.validateRule (Rule op [])
     = {| isValid := false; errors := [emptyRuleMessage] |}
  /\ (forall hasChanges, AttributeEditor.canSave (Rule op []) hasChanges = false)
  /\ (forall rule,
         hasEmptyNode rule = true ->
         isValid (DatasetService.validateAttributeRule rule) = false
         /\ isValid (AttributeEditor.validateRule rule) = false)
  /\ (forall judge document log,
         exists root,
           Core.evaluate judge document (Rule op []) log = (root, log)
           /\ satisfied root = Some false
           /\ skipped root = false
           /\ error root = Some emptyRuleMessage).
Proof.
  split; [reflexivity|].
  split; [destruct op; reflexivity|].
  split; [destruct op; reflexivity|].
  split; [intros hasChanges; destruct op; reflexivity|].
  split.
  - intros rule H. split;
      [now apply validateAttributeRule_empty_node|now apply validateRule_empty_node].
  - intros judge document log. eexists. split; [apply evaluate_empty|].
    repeat split.
Qed.

Lemma empty_rule_is_rejected_witness :
  hasEmptyNode (Rule AND [Text "is dated"; Nested (Rule OR [])]) = true
  /\ isValid (DatasetService.validateAttributeRule
                (Rule AND [Text "is dated"; Nested (Rule OR [])])) = false
  /\ isValid (AttributeEditor.validateRule
                (Rule AND [Text "is dated"; Nested (Rule OR [])])) = false.
Proof.
  split; [reflexivity|].
  exact (proj1 (proj2 (proj2 (proj2 (proj2 (empty_rule_is_rejected AND)))))
           (Rule AND [Text "is dated"; Nested (Rule OR [])]) eq_refl).
Defined.

(** What the validators say of that rule. *)
Example nested_empty_rule_errors :
  errors (DatasetService.validateAttributeRule
            (Rule AND [Text "is dated"; Nested (Rule OR [])]))
  = ["Nested rule 2: Rule must have at least one condition"].
Proof. reflexivity. Qed.

(** An empty node counts as false in its parent: it cannot make an OR
    true, and it makes an AND false. *)
Example empty_child_is_false :
  satisfied (fst (Core.evaluate Samples.judge "invoice 12"
                    (Rule OR [Nested (Rule AND [])]) [])) = Some false
  /\ satisfied (fst (Core.evaluate Samples.judge "invoice 12"
                       (Rule AND [Text "is dated"; Nested (Rule OR [])]) []))
     = Some false.
Proof. split; reflexivity. Qed.

(** ** Score aggregation and the pipeline *)

Lemma In_insertCandidate x y sorted :
  In x (Core.insertCandidate y sorted) <-> x = y \/ In x sorted.
Proof.
  induction sorted as [|z rest IH]; simpl.
  - intuition congruence.
  - destruct (SFltb _ _); simpl; [rewrite IH|]; intuition congruence.
Qed.

Lemma In_rankCandidates x candidates :
  In x (Core.rankCandidates candidates) <-> In x candidates.
Proof.
  induction candidates as [|y rest IH]; simpl; [tauto|].
  rewrite In_insertCandidate, IH. intuition congruence.
Qed.

Section PipelineFacts.

Import Core.

Variable rank :
  string -> list ClassDefinition.t -> Z -> option (list (ClassDefinition.t * spec_float)).
Variable rerank :
  string -> list (ClassDefinition.t * spec_float) -> string
  -> option (list (ClassDefinition.t * spec_float)).
Variable judge : string -> string -> Judgment.

Lemma classify_done document classSet config result log :
  classify rank rerank judge document classSet config = (Done result, log) ->
  exists primary alternatives tree,
    rankCandidates (candidatesFor rank rerank document classSet config) = primary :: alternatives
    /\ validatePrimary judge config document classSet primary [] = (tree, log)
    /\ result = {| Result.predicted := Candidate.class primary;
                   Result.primaryCandidate :=
                     withAttribute (option_map attributeScore tree) primary;
                   Result.alternatives := alternatives;
                   Result.evaluationTree := tree |}.
Proof.
  unfold classify, candidatesFor, retainedOf.
  destruct (String.eqb document EmptyString); [discriminate|].
  destruct (List.length classSet =? 0); [discriminate|].
  destruct (_ || _); [discriminate|].
  destruct (rank _ _ _) as [ranked|]; [|discriminate].
  destruct (rankCandidates _) as [|primary alternatives]; [discriminate|].
  destruct (validatePrimary _ _ _ _ _ _) as [tree l] eqn:V.
  intros H. inversion H; subst. eauto 6.
Qed.

(** Every candidate of a result was built by [candidate] from one of the
    retained similarity pairs; the primary one then got its attribute
    score. *)
Lemma candidatesOf_built document classSet config result log x :
  classify rank rerank judge document classSet config = (Done result, log) ->
  In x (candidatesOf result) ->
  exists pair attribute,
    In pair (retainedOf rank document classSet config)
    /\ x = withAttribute attribute
             (candidate (ClassificationConfig.useReranking config)
                (rescore rerank config document (retainedOf rank document classSet config))
                pair).
Proof.
  intros H Hin.
  destruct (classify_done _ _ _ _ _ H) as [primary [alternatives [tree [R [_ ->]]]]].
  unfold candidatesOf in Hin. simpl in Hin.
  assert (K : forall y, In y (primary :: alternatives) ->
                exists pair,
                  In pair (retainedOf rank document classSet config)
                  /\ y = candidate (ClassificationConfig.useReranking config)
                           (rescore rerank config document
                              (retainedOf rank document classSet config)) pair).
  { intros y Hy. rewrite <- R in Hy. apply (proj1 (In_rankCandidates _ _)) in Hy.
    unfold candidatesFor in Hy. apply in_map_iff in Hy as [pair [<- Hp]]. eauto. }
  destruct Hin as [<-|Hin].
  - destruct (K primary (or_introl eq_refl)) as [pair [Hp ->]]. eauto.
  - destruct (K x (or_intror Hin)) as [pair [Hp ->]].
    exists pair, None. split; [exact Hp|reflexivity].
Qed.

End PipelineFacts.

(** C1. In every result of the pipeline, each candidate (the primary one
    and every alternative, whatever its similarity rank) has an effective
    score equal to its similarity score when reranking is off, equal to
    its rerank score when reranking is on and the reranker scored its
    class, and equal to its similarity score when reranking is on and the
    reranker left its class out.  The rerank score is present exactly
    when reranking is on and the reranker's answer has a score for the
    class. *)
Theorem effective_score_rule
  (rank : string -> list ClassDefinition.t -> Z
          -> option (list (ClassDefinition.t * spec_float)))
  (rerank : string -> list (ClassDefinition.t * spec_float) -> string
            -> option (list (ClassDefinition.t * spec_float)))
  (judge : string -> string -> Core.Judgment)
  (document : string) (classSet : list Core.ClassEntry.t)
  (config : ClassificationConfig.t) (result : Core.Result.t) (log : list string)
  (x : Core.Candidate.t) :
  Core.classify rank rerank judge document classSet config = (Core.Done result, log) ->
  In x (Core.candidatesOf result) ->
  (ClassificationConfig.useReranking config = false ->
   Core.Candidate.effective x = Core.Candidate.similarity x)
  /\ (ClassificationConfig.useReranking config = true ->
      forall r, Core.Candidate.rerank x = Some r -> Core.Candidate.effective x = r)
  /\ (ClassificationConfig.useReranking config = true ->
      Core.Candidate.rerank x = None ->
      Core.Candidate.effective x = Core.Candidate.similarity x)
  /\ Core.Candidate.rerank x
     = (if ClassificationConfig.useReranking config
        then option_map Core.clamp
               (Core.scoreFor (ClassDefinition.id (Core.Candidate.class x))
                  (Core.rescore rerank config document
                     (Core.retainedOf rank document classSet config)))
        else None).
Proof.
  intros H Hin.
  destruct (candidatesOf_built _ _ _ _ _ _ _ _ _ H Hin) as [pair [attribute [_ ->]]].
  unfold Core.withAttribute, Core.candidate, Core.effectiveScore. simpl.
  destruct (ClassificationConfig.useReranking config); repeat split; try discriminate.
  - intros _ r ->. reflexivity.
  - intros _ ->. reflexivity.
Qed.

(** Whether the pipeline fails, and which class it predicts, is decided
    before the validation stage. *)
Lemma classify_predicted rank rerank judge document classSet config :
  Core.predictedOf (fst (Core.classify rank rerank judge document classSet config))
  = if String.eqb document EmptyString then None
    else if (List.length classSet =? 0) then None
    else if ((ClassificationConfig.topKCandidates config <? 1)%Z
             || (100 <? ClassificationConfig.topKCandidates config)%Z) then None
    else match rank document (map Core.ClassEntry.class classSet)
                     (ClassificationConfig.topKCandidates config) with
         | None => None
         | Some _ =>
             option_map Core.Candidate.class
               (hd_error (Core.rankCandidates
                            (Core.candidatesFor rank rerank document classSet config)))
         end.
Proof.
  unfold Core.classify, Core.candidatesFor, Core.retainedOf.
  destruct (String.eqb document EmptyString); [reflexivity|].
  destruct (List.length classSet =? 0); [reflexivity|].
  destruct (_ || _); [reflexivity|].
  destruct (rank _ _ _) as [ranked|]; [|reflexivity].
  destruct (Core.rankCandidates _) as [|primary alternatives]; [reflexivity|].
  destruct (Core.validatePrimary _ _ _ _ _ _) as [tree l]. reflexivity.
Qed.

(** C4. When a result carries an attribute score, it is on the primary
    candidate, there is an evaluation tree, and the score is 1.0 if the
    root of the tree is [satisfied = true] and 0.0 otherwise; no
    alternative carries one.  Switching attribute validation on or off
    changes neither the predicted class nor the alternatives. *)
Theorem attribute_score_is_binary
  (rank : string -> list ClassDefinition.t -> Z
          -> option (list (ClassDefinition.t * spec_float)))
  (rerank : string -> list (ClassDefinition.t * spec_float) -> string
            -> option (list (ClassDefinition.t * spec_float)))
  (judge : string -> string -> Core.Judgment)
  (document : string) (classSet : list Core.ClassEntry.t)
  (config : ClassificationConfig.t) (result : Core.Result.t) (log : list string) :
  Core.classify rank rerank judge document classSet config = (Core.Done result, log) ->
  (forall a,
      Core.Candidate.attribute (Core.Result.primaryCandidate result) = Some a ->
      exists tree,
        Core.Result.evaluationTree result = Some tree
        /\ a = (match satisfied tree with
                | Some true => Core.scoreOne
                | _ => Core.scoreZero
                end)
        /\ (a = Core.scoreOne \/ a = Core.scoreZero))
  /\ Forall (fun alternative => Core.Candidate.attribute alternative = None)
            (Core.Result.alternatives result)
  /\ (forall flag,
         exists result' log',
           Core.classify rank rerank judge document classSet
             (Core.setValidation flag config) = (Core.Done result', log')
           /\ Core.Result.predicted result' = Core.Result.predicted result
           /\ Core.Result.alternatives result' = Core.Result.alternatives result
           /\ Core.Candidate.effective (Core.Result.primaryCandidate result')
              = Core.Candidate.effective (Core.Result.primaryCandidate result)).
Proof.
  intros H.
  destruct (classify_done _ _ _ _ _ _ _ _ H)
    as [primary [alternatives [tree [R [V ->]]]]].
  simpl. split; [|split].
  - intros a Ha. destruct tree as [tree|]; [|discriminate].
    exists tree. simpl in Ha. inversion Ha; subst.
    split; [reflexivity|]. split; [reflexivity|].
    unfold Core.attributeScore. destruct (satisfied tree) as [[]|]; auto.
  - apply Forall_forall. intros alternative Hin.
    assert (K : In alternative (Core.rankCandidates
                                  (Core.candidatesFor rank rerank document classSet config))).
    { rewrite R. now right. }
    apply (proj1 (In_rankCandidates _ _)) in K.
    unfold Core.candidatesFor in K. apply in_map_iff in K as [pair [<- _]]. reflexivity.
  - intros flag.
    unfold Core.classify in H |- *. fold (Core.retainedOf rank document classSet config) in *.
    revert H. simpl.
    destruct (String.eqb document EmptyString); [discriminate|].
    destruct (List.length classSet =? 0); [discriminate|].
    destruct (_ || _); [discriminate|].
    unfold Core.candidatesFor, Core.retainedOf in R.
    destruct (rank _ _ _) as [ranked|]; [|discriminate].
    change (Core.rescore rerank (Core.setValidation flag config))
      with (Core.rescore rerank config).
    rewrite R. intros _.
    destruct (Core.validatePrimary judge (Core.setValidation flag config)
                document classSet primary []) as [tree' log'].
    eexists. eexists. split; [reflexivity|]. simpl. repeat split.
Qed.

(** The scenario with rerank disagreement of the spec. *)
Example reranked_scenario :
  Core.classify Samples.rank Samples.rerank Samples.judge "ten years at Acme"
    Samples.classSet (Samples.pipelineConfig true true)
  = (Core.Done Samples.rerankedResult, ["lists work experience"]).
Proof. vm_compute. reflexivity. Qed.

Lemma effective_score_rule_witness :
  Core.classify Samples.rank Samples.rerank Samples.judge "ten years at Acme"
    Samples.classSet (Samples.pipelineConfig true true)
  = (Core.Done Samples.rerankedResult, ["lists work experience"])
  /\ In Samples.invoiceCandidate (Core.candidatesOf Samples.rerankedResult)
  /\ (Core.Candidate.rerank Samples.invoiceCandidate = None ->
      Core.Candidate.effective Samples.invoiceCandidate
      = Core.Candidate.similarity Samples.invoiceCandidate).
Proof.
  assert (H : Core.classify Samples.rank Samples.rerank Samples.judge
                "ten years at Acme" Samples.classSet (Samples.pipelineConfig true true)
              = (Core.Done Samples.rerankedResult, ["lists work experience"]))
    by (vm_compute; reflexivity).
  assert (Hin : In Samples.invoiceCandidate (Core.candidatesOf Samples.rerankedResult))
    by (right; left; reflexivity).
  split; [exact H|]. split; [exact Hin|].
  exact (proj1 (proj2 (proj2
           (effective_score_rule Samples.rank Samples.rerank Samples.judge
              "ten years at Acme" Samples.classSet (Samples.pipelineConfig true true)
              Samples.rerankedResult ["lists work experience"]
              Samples.invoiceCandidate H Hin))) eq_refl).
Defined.

Lemma attribute_score_is_binary_witness :
  Core.classify Samples.rank Samples.rerank Samples.judge "ten years at Acme"
    Samples.classSet (Samples.pipelineConfig true true)
  = (Core.Done Samples.rerankedResult, ["lists work experience"])
  /\ exists tree,
       Core.Result.evaluationTree Samples.rerankedResult = Some tree
       /\ Core.scoreOne = (match satisfied tree with
                           | Some true => Core.scoreOne
                           | _ => Core.scoreZero
                           end)
       /\ (Core.scoreOne = Core.scoreOne \/ Core.scoreOne = Core.scoreZero).
Proof.
  assert (H : Core.classify Samples.rank Samples.rerank Samples.judge
                "ten years at Acme" Samples.classSet (Samples.pipelineConfig true true)
              = (Core.Done Samples.rerankedResult, ["lists work experience"]))
    by (vm_compute; reflexivity).
  split; [exact H|].
  exact (proj1 (attribute_score_is_binary Samples.rank Samples.rerank Samples.judge
                  "ten years at Acme" Samples.classSet (Samples.pipelineConfig true true)
                  Samples.rerankedResult ["lists work experience"] H)
           Core.scoreOne eq_refl).
Defined.

(** The front end reports the backend's attribute score as it is, and
    takes the predicted class from [predicted_class] alone. *)
Lemma transform_attribute_score metadata b result :
  ClassificationService.transform metadata b = Returned result ->
  ClassificationResult.attributeScore result = BackendResult.attribute_score b
  /\ exists predicted,
       BackendResult.predicted_class b = Some predicted
       /\ ClassDefinition.name (ClassificationResult.predictedClass result)
          = BackendClass.name predicted.
Proof.
  unfold ClassificationService.transform.
  destruct (BackendResult.predicted_class b) as [predicted|]; [|discriminate].
  intros H. inversion H. simpl. eauto.
Qed.

(* ================================================================== *)
(** * Further properties of the code *)
(* ================================================================== *)

(** ** Rule validation, in full *)

Lemma report_valid errs : isValid (report errs) = true <-> errs = [].
Proof.
  destruct errs; simpl; split; intros H; try reflexivity; discriminate.
Qed.

Lemma nodeErrors_nil op cs : nodeErrors op cs = [] <-> cs <> [].
Proof.
  destruct op, cs; simpl; split; intros H; try reflexivity; try discriminate;
    congruence.
Qed.

Lemma forEach_nil check ok index cs :
  (forall i entry, In entry cs -> (check i entry = [] <-> ok entry = true)) ->
  forEach check index cs = [] <-> forallb ok cs = true.
Proof.
  revert index. induction cs as [|c rest IH]; intros index H; simpl.
  - tauto.
  - rewrite andb_true_iff, <- (IH (S index)), <- (H index c (or_introl eq_refl)).
    + split.
      * intros E. apply app_eq_nil in E. exact E.
      * intros [-> ->]. reflexivity.
    + intros i entry Hin. apply H. now right.
Qed.

Lemma app_nil_iff {A : Type} (l1 l2 : list A) :
  l1 ++ l2 = [] <-> l1 = [] /\ l2 = [].
Proof.
  split; [apply app_eq_nil|]. intros [-> ->]. reflexivity.
Qed.

Lemma if_nil_iff (b : bool) (x : string) :
  (if b then [x] else []) = [] <-> negb b = true.
Proof. destruct b; simpl; split; intros H; try reflexivity; discriminate. Qed.

Lemma validateAttributeCondition_ok c :
  isValid (DatasetService.validateAttributeCondition c) = serviceConditionOk c.
Proof.
  apply eq_true_iff_eq.
  unfold DatasetService.validateAttributeCondition, serviceConditionOk.
  rewrite report_valid, !app_nil_iff, !if_nil_iff, !andb_true_iff.
  assert (T : (String.eqb (conditionTypeName (AttributeCondition.type c)) EmptyString
               || negb (includes ["text_match"; "numeric_range"; "boolean"; "custom"]
                          (conditionTypeName (AttributeCondition.type c)))) = false)
    by (destruct (AttributeCondition.type c); reflexivity).
  rewrite T.
  assert (L : negb (negb (String.eqb (AttributeCondition.description c) EmptyString)
                    && (200 <? String.length (AttributeCondition.description c))) = true
              <-> (String.length (AttributeCondition.description c) <=? 200) = true).
  { destruct (String.eqb (AttributeCondition.description c) EmptyString) eqn:E; simpl.
    - apply String.eqb_eq in E. rewrite E. simpl. tauto.
    - rewrite Nat.ltb_antisym, negb_involutive. tauto. }
  rewrite L. simpl. tauto.
Qed.

Lemma validateAttributeRule_wellFormed (rule : AttributeRule) :
  isValid (DatasetService.validateAttributeRule rule)
  = wellFormed serviceConditionOk rule.
Proof.
  induction rule as [op cs IH| | |r IH]
    using AttributeRule_ind'
    with (Q := fun entry =>
                 match entry with
                 | Nested r =>
                     isValid (DatasetService.validateAttributeRule r)
                     = wellFormed serviceConditionOk r
                 | _ => True
                 end); try exact I; try exact IH.
  apply eq_true_iff_eq.
  change (DatasetService.validateAttributeRule (Rule op cs))
    with (report (nodeErrors op cs
                    ++ forEach
                         (fun index entry =>
                            match entry with
                            | Text s =>
                                if JsString.blank (Some s)
                                then [prefixed "Condition" index "Cannot be empty"]
                                else []
                            | Nested r =>
                                if negb (isValid (DatasetService.validateAttributeRule r))
                                then [prefixed "Nested rule" index
                                        (JsString.join ", "
                                           (errors (DatasetService.validateAttributeRule r)))]
                                else []
                            | Condition c =>
                                if negb (isValid (DatasetService.validateAttributeCondition c))
                                then [prefixed "Condition" index
                                        (JsString.join ", "
                                           (errors (DatasetService.validateAttributeCondition c)))]
                                else []
                            end) 0 cs)).
  rewrite report_valid, app_nil_iff, nodeErrors_nil. simpl wellFormed.
  rewrite andb_true_iff.
  rewrite (forEach_nil _
             (fun entry =>
                match entry with
                | Text s => negb (JsString.blank (Some s))
                | Condition c => serviceConditionOk c
                | Nested r => wellFormed serviceConditionOk r
                end) 0 cs).
  - destruct cs; simpl; intuition congruence.
  - intros i entry Hin. rewrite Forall_forall in IH. specialize (IH _ Hin).
    destruct entry as [s|c|r].
    + apply if_nil_iff.
    + rewrite if_nil_iff, negb_involutive, validateAttributeCondition_ok. tauto.
    + rewrite if_nil_iff, negb_involutive, IH. tauto.
Qed.

(** X1. [validateAttributeRule] answers [isValid = true] exactly for the
    rules in which every node, nested ones included, has at least one
    condition, no text condition is blank, and every condition object
    has an id, a description, and a description of at most 200
    characters. *)
Theorem validateAttributeRule_characterised (rule : AttributeRule) :
  isValid (DatasetService.validateAttributeRule rule)
  = wellFormed serviceConditionOk rule.
Proof. apply validateAttributeRule_wellFormed. Qed.

Lemma validateRule_characterised (rule : AttributeRule) :
  isValid (AttributeEditor.validateRule rule) = wellFormed editorConditionOk rule.
Proof.
  induction rule as [op cs IH| | |r IH]
    using AttributeRule_ind'
    with (Q := fun entry =>
                 match entry with
                 | Nested r =>
                     isValid (AttributeEditor.validateRule r)
                     = wellFormed editorConditionOk r
                 | _ => True
                 end); try exact I; try exact IH.
  apply eq_true_iff_eq.
  change (AttributeEditor.validateRule (Rule op cs))
    with (report (nodeErrors op cs
                    ++ forEach
                         (fun index entry =>
                            match entry with
                            | Text s =>
                                if JsString.blank (Some s)
                                then [prefixed "Condition" index "Cannot be empty"]
                                else []
                            | Nested r =>
                                if negb (isValid (AttributeEditor.validateRule r))
                                then [prefixed "Nested rule" index
                                        (JsString.join ", "
                                           (errors (AttributeEditor.validateRule r)))]
                                else []
                            | Condition c =>
                                (if JsString.blank (Some (AttributeCondition.id c))
                                 then [prefixed "Condition" index "ID is required"]
                                 else [])
                                ++ (if JsString.blank (Some (AttributeCondition.description c))
                                    then [prefixed "Condition" index "Description is required"]
                                    else [])
                            end) 0 cs)).
  rewrite report_valid, app_nil_iff, nodeErrors_nil. simpl wellFormed.
  rewrite andb_true_iff.
  rewrite (forEach_nil _
             (fun entry =>
                match entry with
                | Text s => negb (JsString.blank (Some s))
                | Condition c => editorConditionOk c
                | Nested r => wellFormed editorConditionOk r
                end) 0 cs).
  - destruct cs; simpl; intuition congruence.
  - intros i entry Hin. rewrite Forall_forall in IH. specialize (IH _ Hin).
    destruct entry as [s|c|r].
    + apply if_nil_iff.
    + unfold editorConditionOk.
      rewrite app_nil_iff, !if_nil_iff, andb_true_iff. tauto.
    + rewrite if_nil_iff, negb_involutive, IH. tauto.
Qed.

Lemma wellFormed_weaken (ok1 ok2 : AttributeCondition.t -> bool) (rule : AttributeRule) :
  (forall c, ok1 c = true -> ok2 c = true) ->
  wellFormed ok1 rule = true -> wellFormed ok2 rule = true.
Proof.
  intros Hok.
  induction rule as [op cs IH| | |r IH]
    using AttributeRule_ind'
    with (Q := fun entry =>
                 match entry with
                 | Nested r => wellFormed ok1 r = true -> wellFormed ok2 r = true
                 | _ => True
                 end); try exact I; try exact IH.
  simpl. rewrite !andb_true_iff, !forallb_forall.
  intros [Hn Hall]. split; [exact Hn|].
  intros entry Hin. specialize (Hall _ Hin).
  rewrite Forall_forall in IH. specialize (IH _ Hin).
  destruct entry as [s|c|r]; auto.
Qed.

(** X2. The editor's [validateRule] accepts every rule that the
    service's [validateAttributeRule] accepts; the converse fails for
    every condition whose description has more than 200 characters: the
    editor accepts the rule (and enables Save once edited) while the
    service rejects it. *)
Theorem editor_accepts_more_than_service :
  (forall rule,
      isValid (DatasetService.validateAttributeRule rule) = true ->
      isValid (AttributeEditor.validateRule rule) = true)
  /\ (forall op c,
         editorConditionOk c = true ->
         200 < String.length (AttributeCondition.description c) ->
         AttributeEditor.canSave (Rule op [Condition c]) true = true
         /\ isValid (DatasetService.validateAttributeRule (Rule op [Condition c])) = false).
Proof.
  split.
  - intros rule.
    rewrite validateAttributeRule_wellFormed, validateRule_characterised.
    apply wellFormed_weaken. intros c. unfold serviceConditionOk, editorConditionOk.
    rewrite !andb_true_iff. tauto.
  - intros op c Hok Hlong. unfold AttributeEditor.canSave.
    rewrite validateRule_characterised, validateAttributeRule_wellFormed.
    simpl. rewrite Hok. split; [reflexivity|].
    unfold serviceConditionOk.
    apply Nat.leb_gt in Hlong. rewrite Hlong, !andb_false_r. reflexivity.
Qed.

Lemma editor_accepts_more_than_service_witness :
  editorConditionOk
    (AttributeCondition.mk "c1" (repeatChar 201 "a"%char) text_match None) = true
  /\ 200 < String.length
             (AttributeCondition.description
                (AttributeCondition.mk "c1" (repeatChar 201 "a"%char) text_match None))
  /\ AttributeEditor.canSave
       (Rule AND [Condition (AttributeCondition.mk "c1" (repeatChar 201 "a"%char)
                               text_match None)]) true = true
  /\ isValid (DatasetService.validateAttributeRule
                (Rule AND [Condition (AttributeCondition.mk "c1" (repeatChar 201 "a"%char)
                                        text_match None)])) = false.
Proof.
  assert (H1 : editorConditionOk
                 (AttributeCondition.mk "c1" (repeatChar 201 "a"%char) text_match None)
               = true) by (vm_compute; reflexivity).
  assert (H2 : 200 < String.length
                       (AttributeCondition.description
                          (AttributeCondition.mk "c1" (repeatChar 201 "a"%char)
                             text_match None)))
    by (vm_compute; apply Nat.leb_le; reflexivity).
  split; [exact H1|]. split; [exact H2|].
  exact (proj2 editor_accepts_more_than_service AND
           (AttributeCondition.mk "c1" (repeatChar 201 "a"%char) text_match None) H1 H2).
Defined.

(** ** Saving attributes *)

Lemma andThen_returns o k :
  andThen o k = Returned tt <-> o = Returned tt /\ k = Returned tt.
Proof.
  destruct o as [[]|t]; simpl; intuition discriminate.
Qed.

Lemma throwIf_returns cond e : throwIf cond e = Returned tt <-> cond = false.
Proof. destruct cond; simpl; split; intros H; try reflexivity; discriminate. Qed.

Lemma firstThrow_returns {A : Type} (check : nat -> A -> Outcome unit)
  (ok : A -> bool) index items :
  (forall i item, check i item = Returned tt <-> ok item = true) ->
  firstThrow check index items = Returned tt <-> forallb ok items = true.
Proof.
  intros H. revert index. induction items as [|item rest IH]; intros index; simpl.
  - tauto.
  - rewrite andThen_returns, andb_true_iff, H, IH. tauto.
Qed.

Lemma validateAttribute_returns index attr :
  AttributeService.validateAttribute index attr = Returned tt
  <-> attributeOk attr = true.
Proof.
  unfold AttributeService.validateAttribute, attributeOk.
  rewrite !andThen_returns, !throwIf_returns, !andb_true_iff, !negb_true_iff.
  destruct (ClassAttribute.requiredAttributes attr) as [rule|].
  - rewrite throwIf_returns, negb_false_iff, validateAttributeRule_wellFormed. tauto.
  - intuition discriminate.
Qed.

Lemma validateSaveRequest_returns request :
  AttributeService.validateSaveRequest request = Returned tt
  <-> saveRequestOk request = true.
Proof.
  unfold AttributeService.validateSaveRequest, AttributeService.validateDatasetId,
    saveRequestOk.
  rewrite !andThen_returns, !throwIf_returns, !andb_true_iff, negb_true_iff.
  rewrite (firstThrow_returns _ attributeOk 0 _ validateAttribute_returns).
  rewrite Nat.leb_le, Nat.leb_le, Nat.eqb_neq, Nat.ltb_ge.
  intuition lia.
Qed.

(** Whatever [validateSaveRequest] throws is a validation error. *)
Lemma validateSaveRequest_raises request t :
  AttributeService.validateSaveRequest request = Raised t ->
  exists e, t = ThrownValidation e.
Proof.
  unfold AttributeService.validateSaveRequest, AttributeService.validateDatasetId,
    andThen, throwIf.
  destruct (JsString.blank _); [intros [= <-]; eexists; reflexivity|].
  destruct (_ =? 0); [intros [= <-]; eexists; reflexivity|].
  destruct (50 <? _); [intros [= <-]; eexists; reflexivity|].
  generalize 0 as index.
  induction (SaveAttributesRequest.attributes request) as [|a rest IH];
    intros index; simpl; [discriminate|].
  unfold AttributeService.validateAttribute at 1. unfold andThen, throwIf.
  destruct (JsString.blank (Some (ClassAttribute.classId a)));
    [intros [= <-]; eexists; reflexivity|].
  destruct (JsString.blank (Some (ClassAttribute.className a)));
    [intros [= <-]; eexists; reflexivity|].
  destruct (ClassAttribute.requiredAttributes a) as [r|];
    [|intros [= <-]; eexists; reflexivity].
  destruct (negb _); [intros [= <-]; eexists; reflexivity|].
  apply IH.
Qed.

Lemma validateSaveRequest_rejects request :
  saveRequestOk request = false ->
  exists e, AttributeService.validateSaveRequest request = Raised (ThrownValidation e).
Proof.
  intros H.
  destruct (AttributeService.validateSaveRequest request) as [[]|t] eqn:V.
  - apply validateSaveRequest_returns in V. congruence.
  - destruct (validateSaveRequest_raises _ _ V) as [e ->]. eauto.
Qed.

Lemma attributeOk_empty_node attr rule :
  ClassAttribute.requiredAttributes attr = Some rule ->
  hasEmptyNode rule = true ->
  attributeOk attr = false.
Proof.
  intros Hrule Hempty. unfold attributeOk. rewrite Hrule.
  rewrite <- validateAttributeRule_wellFormed.
  rewrite (validateAttributeRule_empty_node _ Hempty). apply andb_false_r.
Qed.

Lemma saveRequestOk_attribute request attr :
  In attr (SaveAttributesRequest.attributes request) ->
  attributeOk attr = false ->
  saveRequestOk request = false.
Proof.
  intros Hin Hbad. unfold saveRequestOk.
  apply not_true_is_false. rewrite !andb_true_iff, forallb_forall.
  intros [_ Hall]. specialize (Hall _ Hin). congruence.
Qed.

(** X3. [validateSaveRequest] lets a request through exactly when the
    data set id is not blank, there are between 1 and 50 attributes, and
    every attribute has a class id, a class name and a rule that
    [validateAttributeRule] accepts; in particular a request with an
    attribute whose rule has a node without conditions is always
    rejected. *)
Theorem validateSaveRequest_characterised (request : SaveAttributesRequest.t) :
  (AttributeService.validateSaveRequest request = Returned tt
   <-> saveRequestOk request = true)
  /\ (forall attr rule,
         In attr (SaveAttributesRequest.attributes request) ->
         ClassAttribute.requiredAttributes attr = Some rule ->
         hasEmptyNode rule = true ->
         exists e, AttributeService.validateSaveRequest request
                   = Raised (ThrownValidation e)).
Proof.
  split; [apply validateSaveRequest_returns|].
  intros attr rule Hin Hrule Hempty.
  apply validateSaveRequest_rejects.
  apply (saveRequestOk_attribute _ attr Hin).
  exact (attributeOk_empty_node _ _ Hrule Hempty).
Qed.

Lemma validateSaveRequest_characterised_witness :
  In (ClassAttribute.mk "invoice" "Invoice" (Some (Rule AND [Nested (Rule OR [])])) false)
     (SaveAttributesRequest.attributes
        (SaveAttributesRequest.mk "notes"
           [ClassAttribute.mk "invoice" "Invoice"
              (Some (Rule AND [Nested (Rule OR [])])) false]))
  /\ hasEmptyNode (Rule AND [Nested (Rule OR [])]) = true
  /\ exists e,
       AttributeService.validateSaveRequest
         (SaveAttributesRequest.mk "notes"
            [ClassAttribute.mk "invoice" "Invoice"
               (Some (Rule AND [Nested (Rule OR [])])) false])
       = Raised (ThrownValidation e).
Proof.
  split; [left; reflexivity|]. split; [reflexivity|].
  exact (proj2 (validateSaveRequest_characterised
                  (SaveAttributesRequest.mk "notes"
                     [ClassAttribute.mk "invoice" "Invoice"
                        (Some (Rule AND [Nested (Rule OR [])])) false]))
           _ _ (or_introl eq_refl) eq_refl eq_refl).
Defined.

(** The message names the attribute and repeats the rule's errors. *)
Example save_rejection_message :
  AttributeService.validateSaveRequest
    (SaveAttributesRequest.mk "notes"
       [ClassAttribute.mk "invoice" "Invoice" (Some (Rule AND [Text "is dated"])) false;
        ClassAttribute.mk "resume" "Resume" (Some (Rule OR [])) false])
  = Raised (ThrownValidation
              (ErrorHandler.createValidationError
                 "Attribute 2 rule validation failed: Rule must have at least one condition"
                 (Some "attributes[1].requiredAttributes"))).
Proof. reflexivity. Qed.

(** ** Loading attributes and saving them back *)

Lemma isWhiteSpace_underscore : JsString.isWhiteSpace "_"%char = false.
Proof. reflexivity. Qed.

Lemma replaceSpaces_whitespaceOnly s :
  forall inRun,
    whitespaceOnly (JsString.replaceSpaces inRun s) = true ->
    s = EmptyString \/ inRun = true.
Proof.
  induction s as [|c rest IH]; intros inRun; simpl; [now left|].
  destruct (JsString.isWhiteSpace c) eqn:W.
  - destruct inRun; [now right|]. simpl. discriminate.
  - simpl. rewrite W. discriminate.
Qed.

Lemma toLowerCase_empty s : JsString.toLowerCase s = EmptyString -> s = EmptyString.
Proof. destruct s; simpl; [reflexivity|discriminate]. Qed.

(** A class id made from a name is blank only if the name is empty. *)
Lemma classId_blank name :
  JsString.blank (Some (ClassificationService.classId name)) = true -> name = EmptyString.
Proof.
  rewrite blank_whitespaceOnly. unfold ClassificationService.classId. intros H.
  apply replaceSpaces_whitespaceOnly in H as [H|H]; [|discriminate].
  now apply toLowerCase_empty.
Qed.

Lemma processedAttribute_ok generatedFlag cls :
  attributeOk (AttributeService.processedAttribute generatedFlag cls)
  = negb (JsString.blank (Some (AttributeService.class_name cls)))
    && match AttributeService.required_attributes cls with
       | Some rule => wellFormed serviceConditionOk rule
       | None => false
       end.
Proof.
  destruct cls as [name description rule].
  unfold attributeOk, AttributeService.processedAttribute.
  cbn [ClassAttribute.classId ClassAttribute.className ClassAttribute.requiredAttributes
       AttributeService.class_name AttributeService.required_attributes].
  destruct (JsString.blank (Some (ClassificationService.classId name))) eqn:B.
  - apply classId_blank in B. rewrite B. reflexivity.
  - destruct rule as [rule|]; [reflexivity|].
    cbn [negb andb]. destruct (negb (JsString.blank (Some name))); reflexivity.
Qed.

(** X4. Saving back the attributes that [getAttributes] built from the
    backend's document: the request passes [validateSaveRequest] exactly
    when the data set id is not blank, there are 1 to 50 classes and
    every class has a name and a rule the service accepts; a class that
    came without [required_attributes] got the rule AND[] and makes the
    request fail.  What [saveAttributes] would send has the same class
    names and rules in the same order; the descriptions are rewritten. *)
Theorem loaded_attributes_saved_back
  (generatedFlag : bool) (datasetId : string)
  (classes : list AttributeService.AttributeClass) :
  let request :=
    SaveAttributesRequest.mk datasetId
      (AttributeService.processedAttributes generatedFlag classes) in
  (AttributeService.validateSaveRequest request = Returned tt
   <-> JsString.blank (Some datasetId) = false
       /\ 1 <= List.length classes <= 50
       /\ forallb loadedClassOk classes = true)
  /\ (forall cls,
         In cls classes ->
         AttributeService.required_attributes cls = None ->
         exists e, AttributeService.validateSaveRequest request
                   = Raised (ThrownValidation e))
  /\ AttributeService.savedClasses request
     = map (fun cls =>
              AttributeService.mkAttributeClass
                (AttributeService.class_name cls)
                (AttributeService.class_name cls ++ " class attributes")%string
                (Some (loadedRule cls)))
           classes.
Proof.
  intros request.
  assert (F : forallb attributeOk
                (AttributeService.processedAttributes generatedFlag classes)
              = forallb loadedClassOk classes).
  { unfold AttributeService.processedAttributes.
    induction classes as [|cls rest IH]; simpl; [reflexivity|].
    now rewrite processedAttribute_ok, IH. }
  split; [|split].
  - rewrite validateSaveRequest_returns. unfold saveRequestOk, request.
    cbn [SaveAttributesRequest.datasetId SaveAttributesRequest.attributes].
    rewrite F. unfold AttributeService.processedAttributes. rewrite length_map.
    rewrite !andb_true_iff, negb_true_iff, !Nat.leb_le. tauto.
  - intros cls Hin Hnone. apply validateSaveRequest_rejects.
    unfold saveRequestOk, request.
    cbn [SaveAttributesRequest.datasetId SaveAttributesRequest.attributes].
    rewrite F. apply not_true_is_false. rewrite !andb_true_iff, forallb_forall.
    intros [_ Hall]. specialize (Hall _ Hin). unfold loadedClassOk in Hall.
    rewrite Hnone, andb_false_r in Hall. discriminate.
  - unfold AttributeService.savedClasses, request, AttributeService.processedAttributes.
    cbn [SaveAttributesRequest.attributes]. rewrite map_map. reflexivity.
Qed.

Lemma loaded_attributes_saved_back_witness :
  In (AttributeService.mkAttributeClass "Resume" "A curriculum vitae" None)
     [AttributeService.mkAttributeClass "Invoice" "A request for payment"
        (Some (Rule AND [Text "mentions a monetary amount"]));
      AttributeService.mkAttributeClass "Resume" "A curriculum vitae" None]
  /\ exists e,
       AttributeService.validateSaveRequest
         (SaveAttributesRequest.mk "notes"
            (AttributeService.processedAttributes true
               [AttributeService.mkAttributeClass "Invoice" "A request for payment"
                  (Some (Rule AND [Text "mentions a monetary amount"]));
                AttributeService.mkAttributeClass "Resume" "A curriculum vitae" None]))
       = Raised (ThrownValidation e).
Proof.
  split; [right; left; reflexivity|].
  exact (proj1 (proj2 (loaded_attributes_saved_back true "notes"
                         [AttributeService.mkAttributeClass "Invoice"
                            "A request for payment"
                            (Some (Rule AND [Text "mentions a monetary amount"]));
                          AttributeService.mkAttributeClass "Resume"
                            "A curriculum vitae" None]))
           _ (or_intror (or_introl eq_refl)) eq_refl).
Defined.

(** ** Editing a rule in the condition builder *)

Lemma wellFormed_app ok op cs extra :
  wellFormed ok (Rule op (cs ++ extra)) = true ->
  forallb (fun entry =>
             match entry with
             | Text s => negb (JsString.blank (Some s))
             | Condition c => ok c
             | Nested r => wellFormed ok r
             end) extra = true.
Proof.
  simpl. rewrite andb_true_iff, forallb_app, andb_true_iff. tauto.
Qed.

Lemma wellFormed_added ok op cs entry :
  match entry with
  | Text s => JsString.blank (Some s) = true
  | Condition c => ok c = false
  | Nested r => wellFormed ok r = false
  end ->
  wellFormed ok (Rule op (cs ++ [entry])) = false.
Proof.
  intros H. apply not_true_is_false. intros W.
  apply wellFormed_app in W. cbn [forallb] in W. rewrite andb_true_r in W.
  destruct entry; rewrite H in W; discriminate.
Qed.

(** X5. A new condition or group added in the builder is an empty text
    or a rule without conditions: whatever the rule was, after
    [addCondition] or [addNestedRule] both validators reject it and the
    editor's Save button is disabled, until the new entry is filled in. *)
Theorem added_entry_invalidates_rule (rule : AttributeRule) (op : Operator)
  (hasChanges : bool) :
  isValid (AttributeEditor.validateRule (ConditionBuilder.addCondition rule)) = false
  /\ isValid (DatasetService.validateAttributeRule (ConditionBuilder.addCondition rule))
     = false
  /\ AttributeEditor.canSave (ConditionBuilder.addCondition rule) hasChanges = false
  /\ isValid (AttributeEditor.validateRule (ConditionBuilder.addNestedRule op rule)) = false
  /\ isValid (DatasetService.validateAttributeRule (ConditionBuilder.addNestedRule op rule))
     = false
  /\ AttributeEditor.canSave (ConditionBuilder.addNestedRule op rule) hasChanges = false.
Proof.
  unfold AttributeEditor.canSave.
  rewrite !validateRule_characterised, !validateAttributeRule_wellFormed.
  unfold ConditionBuilder.addCondition, ConditionBuilder.addNestedRule.
  rewrite !(wellFormed_added _ _ _ (Text EmptyString)) by reflexivity.
  rewrite !(wellFormed_added _ _ _ (Nested (Rule op []))) by reflexivity.
  repeat split.
Qed.

Lemma without_last cs entry :
  ConditionBuilder.without (List.length cs) (cs ++ [entry]) = cs.
Proof. induction cs as [|c rest IH]; simpl; [reflexivity|now rewrite IH]. Qed.

Lemma without_beyond index cs :
  List.length cs <= index -> ConditionBuilder.without index cs = cs.
Proof.
  revert index. induction cs as [|c rest IH]; intros index H; simpl; [reflexivity|].
  destruct index as [|i]; simpl in H; [lia|]. rewrite IH; [reflexivity|lia].
Qed.

Lemma without_length index cs :
  index < List.length cs ->
  List.length (ConditionBuilder.without index cs) = List.length cs - 1.
Proof.
  revert index. induction cs as [|c rest IH]; intros index H; simpl in *; [lia|].
  destruct index as [|i]; simpl; [lia|]. rewrite IH; lia.
Qed.

Lemma assign_inside index condition cs :
  index < List.length cs ->
  exists cs',
    ConditionBuilder.assign index condition cs = Some cs'
    /\ List.length cs' = List.length cs
    /\ nth_error cs' index = Some condition
    /\ (forall other, other <> index -> nth_error cs' other = nth_error cs other).
Proof.
  revert index. induction cs as [|c rest IH]; intros index H; simpl in H; [lia|].
  destruct index as [|i]; simpl.
  - eexists. repeat split. intros [|o] Ho; [congruence|reflexivity].
  - destruct (IH i) as [cs' [E [L [N O]]]]; [lia|].
    rewrite E. simpl. eexists. split; [reflexivity|].
    split; [simpl; now rewrite L|]. split; [exact N|].
    intros [|o] Ho; [reflexivity|]. simpl. apply O. congruence.
Qed.

Lemma rule_eta rule : Rule (operator rule) (conditions rule) = rule.
Proof. destruct rule; reflexivity. Qed.

(** X6. The builder's edits compose as expected: removing the entry just
    added gives the rule back; removing at an index that does not exist
    changes nothing, removing an existing one shortens the rule by one;
    replacing the entry at an existing index changes that entry and no
    other; switching the operator twice gives the rule back, and
    switching it never changes what the validators report. *)
Theorem builder_edits_compose (rule : AttributeRule) :
  ConditionBuilder.removeCondition (List.length (conditions rule))
    (ConditionBuilder.addCondition rule) = rule
  /\ (forall op,
         ConditionBuilder.removeCondition (List.length (conditions rule))
           (ConditionBuilder.addNestedRule op rule) = rule)
  /\ (forall index,
         List.length (conditions rule) <= index ->
         ConditionBuilder.removeCondition index rule = rule)
  /\ (forall index,
         index < List.length (conditions rule) ->
         List.length (conditions (ConditionBuilder.removeCondition index rule))
         = List.length (conditions rule) - 1)
  /\ (forall index condition,
         index < List.length (conditions rule) ->
         exists rule',
           ConditionBuilder.updateCondition index condition rule = Some rule'
           /\ operator rule' = operator rule
           /\ List.length (conditions rule') = List.length (conditions rule)
           /\ nth_error (conditions rule') index = Some condition
           /\ (forall other,
                  other <> index ->
                  nth_error (conditions rule') other = nth_error (conditions rule) other))
  /\ ConditionBuilder.toggleOperator (ConditionBuilder.toggleOperator rule) = rule
  /\ DatasetService.validateAttributeRule (ConditionBuilder.toggleOperator rule)
     = DatasetService.validateAttributeRule rule
  /\ AttributeEditor.validateRule (ConditionBuilder.toggleOperator rule)
     = AttributeEditor.validateRule rule.
Proof.
  destruct rule as [op cs].
  unfold ConditionBuilder.removeCondition, ConditionBuilder.addCondition,
    ConditionBuilder.addNestedRule, ConditionBuilder.updateCondition,
    ConditionBuilder.toggleOperator.
  cbn [operator conditions].
  split; [now rewrite without_last|].
  split; [intros o; now rewrite without_last|].
  split; [intros index H; now rewrite without_beyond|].
  split; [intros index H; now apply without_length|].
  split.
  - intros index condition H.
    destruct (assign_inside index condition cs H) as [cs' [E [L [N O]]]].
    rewrite E. eexists. split; [reflexivity|]. repeat split; assumption.
  - destruct op; repeat split.
Qed.

Lemma builder_edits_compose_witness :
  1 < List.length (conditions Samples.invoiceRule)
  /\ exists rule',
       ConditionBuilder.updateCondition 1 (Text "states a total") Samples.invoiceRule
       = Some rule'
       /\ operator rule' = operator Samples.invoiceRule
       /\ List.length (conditions rule') = List.length (conditions Samples.invoiceRule)
       /\ nth_error (conditions rule') 1 = Some (Text "states a total")
       /\ (forall other,
              other <> 1 ->
              nth_error (conditions rule') other
              = nth_error (conditions Samples.invoiceRule) other).
Proof.
  assert (H : 1 < List.length (conditions Samples.invoiceRule)) by (simpl; lia).
  split; [exact H|].
  exact (proj1 (proj2 (proj2 (proj2 (proj2 (builder_edits_compose Samples.invoiceRule)))))
           1 (Text "states a total") H).
Defined.

(** ** What the classification service sends, and when it reports success *)

Lemma respond_cases metadata apiClient call log :
  exists outcome,
    ClassificationService.respond metadata (apiClient call) log = (outcome, log)
    /\ (forall response,
           outcome = Returned response ->
           ApiResponse.success response = true ->
           answered apiClient call).
Proof.
  unfold ClassificationService.respond.
  destruct (ApiResponse.success (apiClient call)) eqn:S; simpl.
  - destruct (ApiResponse.data (apiClient call)) as [b|] eqn:D.
    + unfold Svc.bind, Svc.lift, Svc.ret, ClassificationService.transform.
      destruct (BackendResult.predicted_class b) eqn:P.
      * eexists. split; [reflexivity|]. intros response _ _.
        split; [exact S|]. exists b. split; [exact D|]. congruence.
      * eexists. split; [reflexivity|]. discriminate.
    + unfold Svc.throw. eexists. split; [reflexivity|]. discriminate.
  - unfold Svc.ret, ClassificationService.passThrough. eexists.
    split; [reflexivity|]. intros response [= <-]. simpl. rewrite S. discriminate.
Qed.

Lemma classifyText_sends
  (apiClient : BackendCall -> ApiResponse.t BackendResult.t)
  (stack : string -> option string) (stringify : ValidationError.t -> string)
  request log :
  exists response,
    ClassificationService.classifyText apiClient stack stringify request log
    = (Returned response, log ++ textCallOf request)
    /\ (ApiResponse.success response = true ->
        exists call, textCallOf request = [call] /\ answered apiClient call).
Proof.
  unfold ClassificationService.classifyText, textCallOf, Svc.tryCatch, Svc.bind,
    Svc.lift.
  destruct (ClassificationService.validateTextRequest request) as [[]|t].
  2:{ unfold Svc.ret. rewrite app_nil_r. eexists. split; [reflexivity|]. discriminate. }
  destruct (ClassifyTextRequest.config request) as [config|].
  2:{ unfold Svc.throw, Svc.ret. rewrite app_nil_r. eexists.
      split; [reflexivity|]. discriminate. }
  unfold Svc.send.
  destruct (respond_cases ClassificationService.textMetadata apiClient
              (PostClassifyText (ClassifyTextRequest.text request)
                 (ClassifyTextRequest.datasetId request)
                 (ClassificationService.configPayload config))
              (log ++ [PostClassifyText (ClassifyTextRequest.text request)
                         (ClassifyTextRequest.datasetId request)
                         (ClassificationService.configPayload config)]))
    as [outcome [E H]].
  rewrite E. destruct outcome as [response|thrown].
  + exists response. split; [reflexivity|]. intros S. eexists. split; [reflexivity|].
    exact (H response eq_refl S).
  + unfold Svc.ret. eexists. split; [reflexivity|]. discriminate.
Qed.

Lemma classifyPDF_sends
  (apiClient : BackendCall -> ApiResponse.t BackendResult.t)
  (stack : string -> option string) (stringify : ValidationError.t -> string)
  request log :
  exists response,
    ClassificationService.classifyPDF apiClient stack stringify request log
    = (Returned response, log ++ pdfCallOf request)
    /\ (ApiResponse.success response = true ->
        exists call, pdfCallOf request = [call] /\ answered apiClient call).
Proof.
  unfold ClassificationService.classifyPDF, pdfCallOf, Svc.tryCatch, Svc.bind,
    Svc.lift.
  destruct (ClassificationService.validatePDFRequest request) as [[]|t].
  2:{ unfold Svc.ret. rewrite app_nil_r. eexists. split; [reflexivity|]. discriminate. }
  destruct (ClassifyPDFRequest.file request) as [file|].
  2:{ unfold Svc.throw, Svc.ret. rewrite app_nil_r. eexists.
      split; [reflexivity|]. discriminate. }
  destruct (ClassifyPDFRequest.config request) as [config|].
  2:{ unfold Svc.throw, Svc.ret. rewrite app_nil_r. eexists.
      split; [reflexivity|]. discriminate. }
  unfold Svc.send.
  destruct (respond_cases ClassificationService.pdfMetadata apiClient
              (UploadClassifyPdf file (ClassifyPDFRequest.datasetId request)
                 (ClassificationService.configPayload config))
              (log ++ [UploadClassifyPdf file (ClassifyPDFRequest.datasetId request)
                         (ClassificationService.configPayload config)]))
    as [outcome [E H]].
  rewrite E. destruct outcome as [response|thrown].
  + exists response. split; [reflexivity|]. intros S. eexists. split; [reflexivity|].
    exact (H response eq_refl S).
  + unfold Svc.ret. eexists. split; [reflexivity|]. discriminate.
Qed.

(** X7. [classifyText] and [classifyPDF] never throw.  They send one
    request to the backend when the request passes validation and none
    otherwise, and they report success only when the backend answered
    that request successfully with a payload that has a predicted
    class. *)
Theorem classification_sends_one_call
  (apiClient : BackendCall -> ApiResponse.t BackendResult.t)
  (stack : string -> option string) (stringify : ValidationError.t -> string) :
  (forall request log,
      exists response,
        ClassificationService.classifyText apiClient stack stringify request log
        = (Returned response, log ++ textCallOf request)
        /\ (ApiResponse.success response = true ->
            exists call, textCallOf request = [call] /\ answered apiClient call))
  /\ (forall request log,
         exists response,
           ClassificationService.classifyPDF apiClient stack stringify request log
           = (Returned response, log ++ pdfCallOf request)
           /\ (ApiResponse.success response = true ->
               exists call, pdfCallOf request = [call] /\ answered apiClient call)).
Proof.
  split; intros request log; [apply classifyText_sends|apply classifyPDF_sends].
Qed.

Lemma classification_sends_one_call_witness :
  exists response,
    ClassificationService.classifyText Samples.client Samples.noStack Samples.showError
      (Samples.textRequest "Progress Note" 5) []
    = (Returned response, [] ++ textCallOf (Samples.textRequest "Progress Note" 5))
    /\ ApiResponse.success response = true
    /\ exists call,
         textCallOf (Samples.textRequest "Progress Note" 5) = [call]
         /\ answered Samples.client call.
Proof.
  destruct (proj1 (classification_sends_one_call Samples.client Samples.noStack
                     Samples.showError)
              (Samples.textRequest "Progress Note" 5) []) as [response [E H]].
  exists response. split; [exact E|].
  assert (S : ApiResponse.success response = true).
  { vm_compute in E. injection E as <-. reflexivity. }
  split; [exact S|exact (H S)].
Defined.

(** ** Class ids *)

Lemma lowerChar_idempotent c : JsString.lowerChar (JsString.lowerChar c) = JsString.lowerChar c.
Proof. destruct c as [[] [] [] [] [] [] [] []]; vm_compute; reflexivity. Qed.

Lemma lowerChar_whitespace c :
  JsString.isWhiteSpace (JsString.lowerChar c) = JsString.isWhiteSpace c.
Proof. destruct c as [[] [] [] [] [] [] [] []]; vm_compute; reflexivity. Qed.

Lemma toLowerCase_replaceSpaces inRun s :
  JsString.toLowerCase (JsString.replaceSpaces inRun s)
  = JsString.replaceSpaces inRun (JsString.toLowerCase s).
Proof.
  revert inRun. induction s as [|c rest IH]; intros inRun; [reflexivity|].
  cbn [JsString.replaceSpaces JsString.toLowerCase].
  rewrite lowerChar_whitespace.
  destruct (JsString.isWhiteSpace c); [destruct inRun|];
    cbn [JsString.toLowerCase]; rewrite ?IH; reflexivity.
Qed.

Lemma toLowerCase_idempotent s :
  JsString.toLowerCase (JsString.toLowerCase s) = JsString.toLowerCase s.
Proof.
  induction s as [|c rest IH]; [reflexivity|].
  cbn [JsString.toLowerCase]. now rewrite lowerChar_idempotent, IH.
Qed.

Lemma replaceSpaces_clean inRun s :
  Forall (fun c => JsString.isWhiteSpace c = false)
         (list_ascii_of_string (JsString.replaceSpaces inRun s)).
Proof.
  revert inRun. induction s as [|c rest IH]; intros inRun; [constructor|].
  cbn [JsString.replaceSpaces].
  destruct (JsString.isWhiteSpace c) eqn:W; [destruct inRun|];
    cbn [list_ascii_of_string]; try constructor; auto.
Qed.

Lemma replaceSpaces_fixed inRun s :
  Forall (fun c => JsString.isWhiteSpace c = false) (list_ascii_of_string s) ->
  JsString.replaceSpaces inRun s = s.
Proof.
  revert inRun. induction s as [|c rest IH]; intros inRun H; [reflexivity|].
  cbn [list_ascii_of_string] in H. inversion H as [|? ? Hc Hrest]; subst.
  cbn [JsString.replaceSpaces]. rewrite Hc. now rewrite IH.
Qed.

Lemma toLowerCase_lower s :
  Forall (fun c => JsString.lowerChar c = c)
         (list_ascii_of_string (JsString.toLowerCase s)).
Proof.
  induction s as [|c rest IH]; [constructor|].
  cbn [JsString.toLowerCase list_ascii_of_string].
  constructor; [apply lowerChar_idempotent|exact IH].
Qed.

(** X8. The id the service derives from a class name ([predictedClass.id],
    every alternative's id, every loaded attribute's [classId]) has no
    white space and no letter that [toLowerCase] would change, and
    deriving an id from an id changes nothing. *)
Theorem classId_is_normal (name : string) :
  Forall (fun c => JsString.isWhiteSpace c = false /\ JsString.lowerChar c = c)
         (list_ascii_of_string (ClassificationService.classId name))
  /\ ClassificationService.classId (ClassificationService.classId name)
     = ClassificationService.classId name.
Proof.
  unfold ClassificationService.classId. split.
  - apply Forall_and; [apply replaceSpaces_clean|].
    rewrite <- (toLowerCase_idempotent name), <- toLowerCase_replaceSpaces.
    apply toLowerCase_lower.
  - rewrite toLowerCase_replaceSpaces, toLowerCase_idempotent.
    apply replaceSpaces_fixed, replaceSpaces_clean.
Qed.

(** ** The store over a whole session *)

Section StoreSession.

Import ClassificationStore StoreActions.

Variable apiClient : BackendCall -> ApiResponse.t BackendResult.t.
Variable stack : string -> option string.
Variable stringify : ValidationError.t -> string.

Lemma firstn_cons_bound {A : Type} (x : A) (l : list A) :
  List.length l <= 50 -> List.length (firstn 50 (x :: l)) <= 50.
Proof. intros _. apply firstn_le_length. Qed.

Lemma step_history a s log :
  List.length (resultHistory s) <= 50 ->
  List.length (resultHistory (fst (step apiClient stack stringify a (s, log)))) <= 50.
Proof.
  intros H. destruct a; cbn [step fst]; try exact H.
  - unfold addToHistory, resultHistory at 1. apply firstn_le_length.
  - simpl. lia.
  - destruct (classifyText apiClient stack stringify request s log)
      as [[settled s'] log'] eqn:E.
    cbn [fst]. apply classifyText_settles in E. destruct settled as [result|e].
    + destruct E as [_ ->]. apply firstn_le_length.
    + destruct E as [_ ->]. exact H.
  - destruct (classifyPDF apiClient stack stringify request s log)
      as [[settled s'] log'] eqn:E.
    cbn [fst]. apply classifyPDF_settles in E. destruct settled as [result|e].
    + destruct E as [_ ->]. apply firstn_le_length.
    + destruct E as [_ ->]. exact H.
  - simpl. lia.
Qed.

Lemma step_log a s log :
  exists calls,
    snd (step apiClient stack stringify a (s, log)) = log ++ calls
    /\ List.length calls <= 1.
Proof.
  destruct a; cbn [step snd];
    try (exists []; split; [now rewrite app_nil_r|simpl; lia]).
  - unfold classifyText.
    destruct (classifyText_sends apiClient stack stringify request log)
      as [response [E _]].
    exists (textCallOf request). rewrite E.
    split.
    + destruct (negb (ApiResponse.success response));
        [|destruct (ApiResponse.data response)]; reflexivity.
    + unfold textCallOf. destruct (ClassificationService.validateTextRequest request);
        [destruct (ClassifyTextRequest.config request)|]; simpl; lia.
  - unfold classifyPDF.
    destruct (classifyPDF_sends apiClient stack stringify request log)
      as [response [E _]].
    exists (pdfCallOf request). rewrite E.
    split.
    + destruct (negb (ApiResponse.success response));
        [|destruct (ApiResponse.data response)]; reflexivity.
    + unfold pdfCallOf. destruct (ClassificationService.validatePDFRequest request);
        [destruct (ClassifyPDFRequest.file request);
         [destruct (ClassifyPDFRequest.config request)|]|]; simpl; lia.
Qed.

End StoreSession.

Lemma run_bounds apiClient stack stringify actions :
  forall s log,
    List.length (ClassificationStore.resultHistory s) <= 50 ->
    List.length
      (ClassificationStore.resultHistory
         (fst (fold_left (fun state a => StoreActions.step apiClient stack stringify a state)
                 actions (s, log)))) <= 50
    /\ exists calls,
         snd (fold_left (fun state a => StoreActions.step apiClient stack stringify a state)
                actions (s, log)) = log ++ calls
         /\ List.length calls <= List.length actions.
Proof.
  induction actions as [|a rest IH]; intros s log H; cbn [fold_left List.length].
  - split; [exact H|]. exists []. split; [now rewrite app_nil_r|simpl; lia].
  - pose proof (step_history apiClient stack stringify a s log H) as Hh.
    destruct (step_log apiClient stack stringify a s log) as [calls [Hl Hc]].
    destruct (StoreActions.step apiClient stack stringify a (s, log)) as [s1 log1].
    cbn [fst snd] in Hh, Hl. subst log1.
    destruct (IH s1 (log ++ calls) Hh) as [Hb [calls' [E Hc']]].
    split; [exact Hb|]. exists (calls ++ calls'). rewrite E, app_assoc.
    split; [reflexivity|]. rewrite length_app. lia.
Qed.

(** X9. Whatever sequence of store actions a session performs from the
    initial store (setters, classifications, clearing, reset), the result
    history never holds more than 50 results, and the backend has been
    called at most once per action. *)
Theorem store_session_bounds
  (apiClient : BackendCall -> ApiResponse.t BackendResult.t)
  (stack : string -> option string) (stringify : ValidationError.t -> string)
  (actions : list StoreActions.Action) :
  List.length
    (ClassificationStore.resultHistory
       (fst (StoreActions.run apiClient stack stringify actions))) <= 50
  /\ List.length (snd (StoreActions.run apiClient stack stringify actions))
     <= List.length actions.
Proof.
  unfold StoreActions.run.
  destruct (run_bounds apiClient stack stringify actions
              ClassificationStore.initialState []) as [H [calls [E Hc]]].
  { simpl. lia. }
  split; [exact H|]. rewrite E. simpl. exact Hc.
Qed.

(** X10. A text request that fails validation never reaches the backend
    through the store either: the store's [classifyText] rejects with the
    error 'Failed to classify text' (code CLASSIFICATION_FAILED) whose
    details are the service's 'Classification failed', keeps that error,
    ends with [isClassifying = false] and leaves the current result, the
    history and the configuration as they were. *)
Theorem store_rejects_invalid_text
  (apiClient : BackendCall -> ApiResponse.t BackendResult.t)
  (stack : string -> option string) (stringify : ValidationError.t -> string)
  (request : ClassifyTextRequest.t) (e : ValidationError.t)
  (s : ClassificationStore.ClassificationState) (log : list BackendCall) :
  ClassificationService.validateTextRequest request = Raised (ThrownValidation e) ->
  let appError :=
    storeError "CLASSIFICATION_FAILED" "Failed to classify text" "Classification failed" in
  exists s',
    ClassificationStore.classifyText apiClient stack stringify request s log
    = (ClassificationStore.Rejected appError, s', log)
    /\ ClassificationStore.error s' = Some appError
    /\ ClassificationStore.isClassifying s' = false
    /\ ClassificationStore.currentResult s' = ClassificationStore.currentResult s
    /\ ClassificationStore.resultHistory s' = ClassificationStore.resultHistory s
    /\ ClassificationStore.config s' = ClassificationStore.config s
    /\ ClassificationStore.pdfExtractionResult s'
       = ClassificationStore.pdfExtractionResult s.
Proof.
  intros V appError. unfold ClassificationStore.classifyText.
  rewrite (classifyText_invalid apiClient stack stringify request e log V).
  simpl. eexists. split; [reflexivity|]. repeat split.
Qed.

Lemma store_rejects_invalid_text_witness :
  ClassificationService.validateTextRequest (Samples.textRequest "note" 0)
  = Raised (ThrownValidation
              (ErrorHandler.createValidationError
                 "Top K candidates must be between 1 and 100"
                 (Some "config.topKCandidates")))
  /\ exists s',
       ClassificationStore.classifyText Samples.client Samples.noStack Samples.showError
         (Samples.textRequest "note" 0) ClassificationStore.initialState []
       = (ClassificationStore.Rejected
            (storeError "CLASSIFICATION_FAILED" "Failed to classify text"
               "Classification failed"), s', [])
       /\ ClassificationStore.error s'
          = Some (storeError "CLASSIFICATION_FAILED" "Failed to classify text"
                    "Classification failed")
       /\ ClassificationStore.isClassifying s' = false
       /\ ClassificationStore.currentResult s'
          = ClassificationStore.currentResult ClassificationStore.initialState
       /\ ClassificationStore.resultHistory s'
          = ClassificationStore.resultHistory ClassificationStore.initialState
       /\ ClassificationStore.config s'
          = ClassificationStore.config ClassificationStore.initialState
       /\ ClassificationStore.pdfExtractionResult s'
          = ClassificationStore.pdfExtractionResult ClassificationStore.initialState.
Proof.
  split; [reflexivity|].
  exact (store_rejects_invalid_text Samples.client Samples.noStack Samples.showError
           (Samples.textRequest "note" 0) _ ClassificationStore.initialState []
           eq_refl).
Defined.

(** ** PDF metadata, from the backend to the store *)

Lemma lookup_cons key k v rest :
  Js.lookup key ((k, v) :: rest)
  = if String.eqb k key then v else Js.lookup key rest.
Proof. reflexivity. Qed.

Lemma lookup_override key other value fields :
  Js.lookup key
    (filter (fun kv => negb (String.eqb (fst kv) other)) fields ++ [(other, value)])
  = if String.eqb other key then value else Js.lookup key fields.
Proof.
  induction fields as [|[k v] rest IH].
  - cbn [filter app]. rewrite lookup_cons. reflexivity.
  - cbn [filter fst]. rewrite lookup_cons.
    destruct (String.eqb k other) eqn:E; cbn [negb].
    + rewrite IH. apply String.eqb_eq in E. subst k.
      destruct (String.eqb other key); reflexivity.
    + rewrite <- app_comm_cons, lookup_cons, IH.
      destruct (String.eqb k key) eqn:E2; [|reflexivity].
      apply String.eqb_eq in E2. subst k. rewrite String.eqb_sym, E. reflexivity.
Qed.

Lemma lookup_pdfMetadata b :
  Js.lookup "pdf_metadata" (ClassificationService.pdfMetadata b)
  = BackendResult.pdf_metadata b
  /\ forall key,
       key <> "pdf_metadata" ->
       Js.lookup key (ClassificationService.pdfMetadata b)
       = Js.lookup key (ClassificationService.listOr (BackendResult.metadata b)).
Proof.
  unfold ClassificationService.pdfMetadata. split.
  - rewrite lookup_override, String.eqb_refl. reflexivity.
  - intros key Hne. rewrite lookup_override.
    destruct (String.eqb "pdf_metadata" key) eqn:E; [|reflexivity].
    apply String.eqb_eq in E. congruence.
Qed.

Lemma transform_metadata metadata b result :
  ClassificationService.transform metadata b = Returned result ->
  ClassificationResult.metadata result = metadata b.
Proof.
  unfold ClassificationService.transform.
  destruct (BackendResult.predicted_class b); [|discriminate].
  intros H. inversion H. reflexivity.
Qed.

(** X11. When the store's [classifyPDF] resolves, the [pdf_metadata] key
    of the result's metadata holds exactly what the backend sent under
    [pdf_metadata], also when the backend's own metadata had such a key;
    all other keys read as in the backend's metadata; and the store
    replaces its PDF extraction result by one built from that value when
    the value is truthy, and keeps the old one otherwise. *)
Theorem pdf_metadata_reaches_store
  (apiClient : BackendCall -> ApiResponse.t BackendResult.t)
  (stack : string -> option string) (stringify : ValidationError.t -> string)
  (request : ClassifyPDFRequest.t) (s s' : ClassificationStore.ClassificationState)
  (log log' : list BackendCall) (result : ClassificationResult.t) :
  ClassificationStore.classifyPDF apiClient stack stringify request s log
  = (ClassificationStore.Resolved result, s', log') ->
  exists file config b,
    ClassifyPDFRequest.file request = Some file
    /\ ClassifyPDFRequest.config request = Some config
    /\ ApiResponse.data
         (apiClient (UploadClassifyPdf file (ClassifyPDFRequest.datasetId request)
                       (ClassificationService.configPayload config)))
       = Some b
    /\ Js.lookup "pdf_metadata" (ClassificationResult.metadata result)
       = BackendResult.pdf_metadata b
    /\ (forall key,
           key <> "pdf_metadata" ->
           Js.lookup key (ClassificationResult.metadata result)
           = Js.lookup key (ClassificationService.listOr (BackendResult.metadata b)))
    /\ ClassificationStore.pdfExtractionResult s'
       = if Js.truthy (BackendResult.pdf_metadata b)
         then Some (ClassificationStore.extraction (BackendResult.pdf_metadata b))
         else ClassificationStore.pdfExtractionResult s.
Proof.
  unfold ClassificationStore.classifyPDF.
  destruct (ClassificationService.classifyPDF apiClient stack stringify request log)
    as [[response|thrown] l] eqn:E; [|discriminate].
  destruct (negb (ApiResponse.success response)); [discriminate|].
  destruct (ApiResponse.data response) as [r|] eqn:D; [|discriminate].
  intros H. inversion H; subst; clear H.
  destruct (classifyPDF_data _ _ _ _ _ _ _ _ E D)
    as [file [config [b [Hf [Hc [Hb T]]]]]].
  exists file, config, b.
  rewrite (transform_metadata _ _ _ T).
  destruct (lookup_pdfMetadata b) as [L1 L2].
  repeat split; try assumption.
  rewrite L1. destruct (Js.truthy (BackendResult.pdf_metadata b)); reflexivity.
Qed.

Lemma pdf_metadata_reaches_store_witness :
  exists result s' log',
    ClassificationStore.classifyPDF PdfSamples.client Samples.noStack Samples.showError
      (Samples.pdfRequest (Some Samples.report) 5) ClassificationStore.initialState []
    = (ClassificationStore.Resolved result, s', log')
    /\ Js.lookup "pdf_metadata" (ClassificationResult.metadata result) = PdfSamples.pages
    /\ ClassificationStore.pdfExtractionResult s'
       = Some (ClassificationStore.extraction PdfSamples.pages).
Proof.
  destruct (ClassificationStore.classifyPDF PdfSamples.client Samples.noStack
              Samples.showError (Samples.pdfRequest (Some Samples.report) 5)
              ClassificationStore.initialState [])
    as [[[result|e] s'] log'] eqn:E; [|vm_compute in E; discriminate].
  exists result, s', log'. split; [reflexivity|].
  destruct (pdf_metadata_reaches_store _ _ _ _ _ _ _ _ _ E)
    as [file [config [b [Hf [Hc [Hb [L [_ P]]]]]]]].
  vm_compute in Hf. inversion Hf; subst file.
  vm_compute in Hc. inversion Hc; subst config.
  vm_compute in Hb. inversion Hb; subst b.
  split; [exact L|exact P].
Defined.

(** ** The Classify page *)

Section ClassifyPage.

Variable apiClient : BackendCall -> ApiResponse.t BackendResult.t.
Variable stack : string -> option string.
Variable stringify : ValidationError.t -> string.

Lemma store_classifyText_sends request s log settled s' log' :
  ClassificationStore.classifyText apiClient stack stringify request s log
  = (settled, s', log') ->
  log' = log ++ textCallOf request
  /\ ClassificationStore.config s' = ClassificationStore.config s.
Proof.
  unfold ClassificationStore.classifyText.
  destruct (classifyText_sends apiClient stack stringify request log)
    as [response [E _]].
  rewrite E.
  destruct (negb (ApiResponse.success response));
    [|destruct (ApiResponse.data response)];
    intros H; inversion H; subst; split; reflexivity.
Qed.

Lemma store_classifyPDF_sends request s log settled s' log' :
  ClassificationStore.classifyPDF apiClient stack stringify request s log
  = (settled, s', log') ->
  log' = log ++ pdfCallOf request
  /\ ClassificationStore.config s' = ClassificationStore.config s.
Proof.
  unfold ClassificationStore.classifyPDF.
  destruct (classifyPDF_sends apiClient stack stringify request log)
    as [response [E _]].
  rewrite E.
  destruct (negb (ApiResponse.success response));
    [|destruct (ApiResponse.data response) as [result|]];
    intros H; inversion H; subst; split; try reflexivity.
  destruct (Js.truthy (Js.lookup "pdf_metadata" (ClassificationResult.metadata result)));
    reflexivity.
Qed.

Lemma textCallOf_ok request :
  (forall config,
      ClassifyTextRequest.config request = Some config ->
      inSlider (ClassificationConfig.topKCandidates config)) ->
  Forall Classify.callOk (textCallOf request).
Proof.
  intros Hk. unfold textCallOf.
  destruct (ClassificationService.validateTextRequest request) as [[]|t] eqn:V;
    [|constructor].
  destruct (ClassifyTextRequest.config request) as [config|] eqn:C; [|constructor].
  constructor; [|constructor]. cbn [Classify.callOk].
  unfold ClassificationService.validateTextRequest in V.
  destruct (JsString.blank (ClassifyTextRequest.text request)); [discriminate|].
  destruct (JsString.blank (ClassifyTextRequest.datasetId request)); [discriminate|].
  repeat split; try apply (Hk config eq_refl).
Qed.

Lemma pdfCallOf_ok request :
  (forall config,
      ClassifyPDFRequest.config request = Some config ->
      inSlider (ClassificationConfig.topKCandidates config)) ->
  Forall Classify.callOk (pdfCallOf request).
Proof.
  intros Hk. unfold pdfCallOf.
  destruct (ClassificationService.validatePDFRequest request) as [[]|t] eqn:V;
    [|constructor].
  destruct (ClassifyPDFRequest.file request) as [file|] eqn:F; [|constructor].
  destruct (ClassifyPDFRequest.config request) as [config|] eqn:C; [|constructor].
  constructor; [|constructor]. cbn [Classify.callOk].
  unfold ClassificationService.validatePDFRequest in V. rewrite F in V.
  destruct (ClassificationService.validatePDFFile (Some file)) as [[]|t]; [|discriminate].
  destruct (JsString.blank (ClassifyPDFRequest.datasetId request)); [discriminate|].
  repeat split; try apply (Hk config eq_refl).
Qed.

Lemma handleClassifyText_ok p :
  Classify.pageOk p -> Classify.pageOk (Classify.handleClassifyText apiClient stack stringify p).
Proof.
  intros Hp. pose proof Hp as [Hx [Hk Hl]]. unfold Classify.handleClassifyText.
  destruct (Classify.selectedDataset p) as [dataset|]; [|exact Hp].
  destruct (JsString.blank (Some (Classify.documentText p))); [exact Hp|].
  destruct (ClassificationStore.classifyText apiClient stack stringify
              (Classify.textRequest dataset p) (Classify.store p) (Classify.log p))
    as [[settled s'] log'] eqn:E.
  apply store_classifyText_sends in E. destruct E as [-> C].
  unfold Classify.pageOk. cbn [Classify.documentText Classify.selectedFile Classify.store
                      Classify.log].
  rewrite C. repeat split; try assumption; try apply Hk.
  apply Forall_app. split; [assumption|].
  apply textCallOf_ok. intros config H. inversion H; subst. exact Hk.
Qed.

Lemma handleClassifyPDF_ok p :
  Classify.pageOk p -> Classify.pageOk (Classify.handleClassifyPDF apiClient stack stringify p).
Proof.
  intros Hp. pose proof Hp as [Hx [Hk Hl]]. unfold Classify.handleClassifyPDF.
  destruct (Classify.selectedDataset p) as [dataset|]; [|exact Hp].
  destruct (Classify.selectedFile p) as [file|] eqn:F; [|exact Hp].
  destruct (ClassificationStore.classifyPDF apiClient stack stringify
              (Classify.pdfRequest dataset file p) (Classify.store p) (Classify.log p))
    as [[settled s'] log'] eqn:E.
  apply store_classifyPDF_sends in E. destruct E as [-> C].
  unfold Classify.pageOk. cbn [Classify.documentText Classify.selectedFile Classify.store
                      Classify.log].
  rewrite C. repeat split; try assumption; try apply Hk.
  apply Forall_app. split; [assumption|].
  apply pdfCallOf_ok. intros config H. inversion H; subst. exact Hk.
Qed.

Lemma handleTextInput_ok text p :
  Classify.pageOk p -> Classify.pageOk (Classify.handleTextInput text p).
Proof.
  intros [Hx [Hk Hl]]. unfold Classify.handleTextInput, Classify.pageOk.
  cbn [Classify.documentText Classify.selectedFile Classify.store Classify.log].
  split; [right|split; [|exact Hl]].
  - destruct (Classify.selectedFile p); cbn [isSome orb]; [reflexivity|].
    destruct (isSome _); reflexivity.
  - destruct (isSome (Classify.selectedFile p) || isSome _); exact Hk.
Qed.

Lemma step_ok p e :
  Classify.pageOk p -> Classify.pageOk (Classify.step apiClient stack stringify p e).
Proof.
  intros Hp. pose proof Hp as [Hx [Hk Hl]].
  destruct e; cbn [Classify.step].
  - apply handleTextInput_ok, Hp.
  - split; [now left|split; [exact Hk|exact Hl]].
  - split; [exact Hx|split; [exact Hk|exact Hl]].
  - destruct (ClassificationOptions.handle e
                (ClassificationStore.config (Classify.store p))) as [c|] eqn:H;
      [|exact Hp].
    split; [exact Hx|split; [|exact Hl]].
    change (inSlider (ClassificationConfig.topKCandidates c)).
    destruct (handle_topK _ _ _ H) as [E|[v [_ E]]]; rewrite E;
      [exact Hk|apply clamp_inSlider].
  - unfold Classify.handleDatasetChange.
    destruct (find _ datasets); [|exact Hp].
    split; [exact Hx|split; [exact Hk|exact Hl]].
  - split; [exact Hx|split; [exact Hk|exact Hl]].
  - apply handleClassifyText_ok, Hp.
  - apply handleClassifyPDF_ok, Hp.
  - unfold Classify.onClassify.
    destruct (String.eqb (Classify.documentText p) EmptyString);
      [apply handleClassifyPDF_ok|apply handleClassifyText_ok]; exact Hp.
  - split; [exact Hx|split; [exact Hk|exact Hl]].
  - destruct (handleTextInput_ok text p Hp) as [Hx' [Hk' Hl']].
    split; [exact Hx'|split; [exact Hk'|exact Hl']].
Qed.

Lemma fold_ok events :
  forall p, Classify.pageOk p ->
    Classify.pageOk (fold_left (Classify.step apiClient stack stringify) events p).
Proof.
  induction events as [|e rest IH]; intros p Hp; cbn [fold_left]; [exact Hp|].
  apply IH, step_ok, Hp.
Qed.

End ClassifyPage.

(** X12. Whatever the user does on the Classify page (typing, uploading,
    moving the panel's controls, choosing a data set, pressing Classify),
    every request that reaches the backend carries a non-blank data set
    id and a [top_k_candidates] between 1 and 20, a text request carries
    a non-blank text, and a PDF request a file that passes
    [validatePDFFile]; and the page never holds a text and a file at
    once. *)
Theorem classify_page_requests_are_valid
  (apiClient : BackendCall -> ApiResponse.t BackendResult.t)
  (stack : string -> option string) (stringify : ValidationError.t -> string)
  (events : list Classify.Event) :
  let p := Classify.session apiClient stack stringify events in
  Forall Classify.callOk (Classify.log p)
  /\ (Classify.documentText p = EmptyString \/ Classify.selectedFile p = None).
Proof.
  intros p.
  destruct (fold_ok apiClient stack stringify events Classify.initialPage)
    as [Hx [_ Hl]].
  - unfold Classify.pageOk. cbn. repeat split; try lia; [now left|constructor].
  - split; assumption.
Qed.

Example classify_page_session_sends :
  Classify.log
    (Classify.session PdfSamples.client (fun _ => None) ValidationError.message
       [Classify.SetSelectedDataset notesDataset;
        Classify.TextInput "note";
        Classify.Options (ClassificationOptions.TopKChange 50);
        Classify.OnClassify;
        Classify.TextInput "   ";
        Classify.OnClassify])
  = [PostClassifyText (Some "note") (Some "notes")
       {| ConfigPayload.use_reranking := false;
          ConfigPayload.reranking_model := "us.amazon.nova-lite-v1:0";
          ConfigPayload.use_attribute_validation := false;
          ConfigPayload.top_k_candidates := 20 |}].
Proof. vm_compute. reflexivity. Qed.

(** ** The options panel *)

(** X13. Switching LLM reranking off and on again (or on and off) with
    the panel's toggle restores the switch but not the model: after two
    toggles the model is the first of the available models (none when
    the list is empty), whatever model had been chosen; the other
    settings are as before. *)
Theorem reranking_toggle_resets_model
  (availableModels : list string) (config : ClassificationConfig.t) :
  exists once twice,
    ClassificationOptions.handleToggleReranking availableModels config = Some once
    /\ ClassificationOptions.handleToggleReranking availableModels once = Some twice
    /\ ClassificationConfig.useReranking twice = ClassificationConfig.useReranking config
    /\ ClassificationConfig.rerankingModel twice = hd_error availableModels
    /\ ClassificationConfig.rerankingParams twice
       = ClassificationConfig.rerankingParams config
    /\ ClassificationConfig.useAttributeValidation twice
       = ClassificationConfig.useAttributeValidation config
    /\ ClassificationConfig.topKCandidates twice
       = ClassificationConfig.topKCandidates config.
Proof.
  unfold ClassificationOptions.handleToggleReranking.
  eexists. eexists. split; [reflexivity|]. split; [reflexivity|].
  destruct config as [r m ps a k]. cbn.
  destruct r; cbn; repeat split; reflexivity.
Qed.

(** X14. No control of the panel switches attribute validation on while
    the data set has no attributes: a handler passes on a configuration
    with validation newly on only when it is the validation toggle and
    attributes exist; the attribute check passes on a configuration only
    to switch validation off; and every handler other than these two
    leaves the setting as it is. *)
Theorem attribute_validation_needs_attributes
  (e : ClassificationOptions.Event) (config newConfig : ClassificationConfig.t) :
  ClassificationOptions.handle e config = Some newConfig ->
  match e with
  | ClassificationOptions.ToggleAttributeValidation attributesExist =>
      ClassificationConfig.useAttributeValidation newConfig
      = negb (ClassificationConfig.useAttributeValidation config)
      /\ (ClassificationConfig.useAttributeValidation newConfig = true ->
          attributesExist = true)
  | ClassificationOptions.CheckAttributes found =>
      found = false
      /\ ClassificationConfig.useAttributeValidation config = true
      /\ ClassificationConfig.useAttributeValidation newConfig = false
  | _ =>
      ClassificationConfig.useAttributeValidation newConfig
      = ClassificationConfig.useAttributeValidation config
  end.
Proof.
  destruct config as [r m ps a k].
  destruct e; cbn; intros H.
  - inversion H. reflexivity.
  - destruct a, attributesExist; cbn in H; inversion H; cbn; split;
      congruence.
  - inversion H. reflexivity.
  - inversion H. reflexivity.
  - destruct a, found; cbn in H; inversion H; cbn; repeat split.
Qed.

Lemma attribute_validation_needs_attributes_witness :
  ClassificationOptions.handle (ClassificationOptions.ToggleAttributeValidation true)
    ClassificationStore.defaultConfig
  = Some (ClassificationConfig.mk false (Some "us.amazon.nova-lite-v1:0") None true 5)
  /\ (true = negb false /\ (true = true -> true = true)).
Proof.
  split; [reflexivity|].
  exact (attribute_validation_needs_attributes
           (ClassificationOptions.ToggleAttributeValidation true)
           ClassificationStore.defaultConfig
           (ClassificationConfig.mk false (Some "us.amazon.nova-lite-v1:0") None true 5)
           eq_refl).
Defined.

(** ** The API client *)

Lemma retry_rounds (R : Type) (self : ApiClientConfig.t)
  (makeRequest : nat -> R + JsError.t) remaining :
  forall attempt lastError,
    (Z.of_nat attempt <= ApiClientConfig.retryAttempts self)%Z ->
    (Z.of_nat attempt + Z.of_nat remaining = ApiClientConfig.retryAttempts self + 1)%Z ->
    exists last,
      attempt <= last
      /\ (Z.of_nat last <= ApiClientConfig.retryAttempts self)%Z
      /\ snd (ApiClient.retry R self makeRequest remaining attempt lastError)
         = ApiClient.rounds self attempt (last - attempt) ++ [ApiClient.Fetch last]
      /\ (forall i, attempt <= i < last ->
            exists error,
              makeRequest i = inr error /\ ApiClient.isClientError error = false)
      /\ match makeRequest last with
         | inl response =>
             fst (ApiClient.retry R self makeRequest remaining attempt lastError)
             = inl response
         | inr error =>
             fst (ApiClient.retry R self makeRequest remaining attempt lastError)
             = inr (Some error)
             /\ (Z.of_nat last = ApiClientConfig.retryAttempts self
                 \/ ApiClient.isClientError error = true)
         end.
Proof.
  induction remaining as [|remaining IH]; intros attempt lastError Hle Hsum; [lia|].
  cbn [ApiClient.retry].
  destruct (makeRequest attempt) as [response|error] eqn:M.
  - exists attempt. rewrite Nat.sub_diag, M. cbn.
    repeat split; try lia; try reflexivity; try (intros i Hi; lia).
  - destruct (Z.of_nat attempt =? ApiClientConfig.retryAttempts self)%Z eqn:L;
      cbn [orb].
    + apply Z.eqb_eq in L. exists attempt. rewrite Nat.sub_diag, M. cbn.
      repeat split; try lia; try reflexivity; try (intros i Hi; lia); try (now left).
    + apply Z.eqb_neq in L.
      destruct (ApiClient.isClientError error) eqn:C.
      * exists attempt. rewrite Nat.sub_diag, M. cbn.
        repeat split; try lia; try reflexivity; try (intros i Hi; lia); try (now right).
      * destruct (IH (S attempt) (Some error)) as [last [H1 [H2 [H3 [H4 H5]]]]];
          [lia|lia|].
        exists last.
        destruct (ApiClient.retry R self makeRequest remaining (S attempt) (Some error))
          as [outcome effects].
        cbn [fst snd] in *. subst effects.
        split; [lia|]. split; [exact H2|]. split.
        { replace (last - attempt) with (S (last - S attempt)) by lia.
          reflexivity. }
        split; [|exact H5].
        intros i Hi. destruct (Nat.eq_dec i attempt) as [->|N].
        { exists error. split; assumption. }
        apply H4. lia.
Qed.

Lemma totalDelay_rounds self count :
  forall from last,
    ApiClient.totalDelay (ApiClient.rounds self from count ++ [ApiClient.Fetch last])
    = (ApiClientConfig.retryDelay self
       * (2 ^ Z.of_nat (from + count) - 2 ^ Z.of_nat from))%Z.
Proof.
  induction count as [|count IH]; intros from last; cbn [ApiClient.rounds app
    ApiClient.totalDelay].
  - rewrite Nat.add_0_r. lia.
  - rewrite IH. replace (from + S count) with (S from + count) by lia.
    replace (Z.of_nat (S from)) with (Z.of_nat from + 1)%Z by lia.
    rewrite Z.pow_add_r by lia. lia.
Qed.

Lemma fetches_rounds self count :
  forall from last,
    ApiClient.fetches (ApiClient.rounds self from count ++ [ApiClient.Fetch last])
    = seq from count ++ [last].
Proof.
  induction count as [|count IH]; intros from last; cbn; [reflexivity|].
  rewrite IH. reflexivity.
Qed.

(** X15. With a non-negative [retryAttempts], [request] calls
    [makeRequest] for the attempts 0, 1, ..., last in turn, with
    [last <= retryAttempts], and waits [retryDelay * 2^i] after the failed
    attempt [i] and before the next, so [retryDelay * (2^last - 1)] in
    all; every attempt before the last threw an error that is not a
    client error; and the last attempt either returned, and its response
    is the result, or threw, and then it was attempt [retryAttempts] or a
    client error, and the result is the failure that [handleError] makes
    of that error. *)
Theorem request_retries (R : Type) (self : ApiClientConfig.t)
  (makeRequest : nat -> R + JsError.t) :
  (0 <= ApiClientConfig.retryAttempts self)%Z ->
  exists last,
    (Z.of_nat last <= ApiClientConfig.retryAttempts self)%Z
    /\ snd (ApiClient.request R self makeRequest)
       = ApiClient.rounds self 0 last ++ [ApiClient.Fetch last]
    /\ ApiClient.fetches (snd (ApiClient.request R self makeRequest))
       = seq 0 (S last)
    /\ ApiClient.totalDelay (snd (ApiClient.request R self makeRequest))
       = (ApiClientConfig.retryDelay self * (2 ^ Z.of_nat last - 1))%Z
    /\ (forall i, i < last ->
          exists error,
            makeRequest i = inr error /\ ApiClient.isClientError error = false)
    /\ match makeRequest last with
       | inl response =>
           fst (ApiClient.request R self makeRequest) = ApiClient.Passed response
       | inr error =>
           fst (ApiClient.request R self makeRequest)
           = ApiClient.Failed (ApiClient.handleError error)
           /\ (Z.of_nat last = ApiClientConfig.retryAttempts self
               \/ ApiClient.isClientError error = true)
       end.
Proof.
  intros Hpos. unfold ApiClient.request.
  destruct (retry_rounds R self makeRequest
              (Z.to_nat (ApiClientConfig.retryAttempts self + 1)) 0 None)
    as [last [_ [H2 [H3 [H4 H5]]]]]; [simpl; lia|lia|].
  destruct (ApiClient.retry R self makeRequest
              (Z.to_nat (ApiClientConfig.retryAttempts self + 1)) 0 None)
    as [outcome effects].
  cbn [fst snd] in *. rewrite Nat.sub_0_r in H3. subst effects.
  exists last. split; [exact H2|]. split; [reflexivity|].
  split; [rewrite fetches_rounds, seq_S; reflexivity|].
  split; [rewrite totalDelay_rounds; simpl; reflexivity|].
  split; [intros i Hi; apply H4; lia|].
  destruct (makeRequest last) as [response|error].
  - rewrite H5. reflexivity.
  - destruct H5 as [-> H5]. split; [reflexivity|exact H5].
Qed.

Lemma request_retries_witness :
  (0 <= ApiClientConfig.retryAttempts ApiClient.apiClient)%Z
  /\ exists last,
       (Z.of_nat last <= ApiClientConfig.retryAttempts ApiClient.apiClient)%Z
       /\ snd (ApiClient.request string ApiClient.apiClient flaky)
          = ApiClient.rounds ApiClient.apiClient 0 last ++ [ApiClient.Fetch last]
       /\ ApiClient.fetches (snd (ApiClient.request string ApiClient.apiClient flaky))
          = seq 0 (S last)
       /\ ApiClient.totalDelay (snd (ApiClient.request string ApiClient.apiClient flaky))
          = (ApiClientConfig.retryDelay ApiClient.apiClient * (2 ^ Z.of_nat last - 1))%Z
       /\ (forall i, i < last ->
             exists error,
               flaky i = inr error /\ ApiClient.isClientError error = false)
       /\ match flaky last with
          | inl response =>
              fst (ApiClient.request string ApiClient.apiClient flaky)
              = ApiClient.Passed response
          | inr error =>
              fst (ApiClient.request string ApiClient.apiClient flaky)
              = ApiClient.Failed (ApiClient.handleError error)
              /\ (Z.of_nat last = ApiClientConfig.retryAttempts ApiClient.apiClient
                  \/ ApiClient.isClientError error = true)
          end.
Proof.
  split; [vm_compute; discriminate|].
  apply (request_retries string ApiClient.apiClient flaky).
  vm_compute. discriminate.
Defined.

Example request_flaky :
  ApiClient.request string ApiClient.apiClient flaky
  = (ApiClient.Passed "pong",
     [ApiClient.Fetch 0; ApiClient.Delay 1000; ApiClient.Fetch 1;
      ApiClient.Delay 2000; ApiClient.Fetch 2]).
Proof. vm_compute. reflexivity. Qed.

(** X16. The constructor replaces a [retryAttempts], [timeout] or
    [retryDelay] of 0 by the defaults 3, 30000 and 1000, and an empty
    [baseUrl] by the local one, so no client has any of them 0 or empty;
    hence retries cannot be switched off: a client built with a
    non-negative (or no) [retryAttempts] that meets an error other than a
    client error on its first attempt waits [retryDelay] and tries
    again. *)
Theorem retries_cannot_be_disabled (R : Type) (config : PartialApiClientConfig.t)
  (makeRequest : nat -> R + JsError.t) (error : JsError.t) :
  let self := ApiClient.constructor config in
  ApiClientConfig.retryAttempts self <> 0%Z
  /\ ApiClientConfig.timeout self <> 0%Z
  /\ ApiClientConfig.retryDelay self <> 0%Z
  /\ ApiClientConfig.baseUrl self <> EmptyString
  /\ (PartialApiClientConfig.retryAttempts config = Some 0%Z ->
      ApiClientConfig.retryAttempts self = 3%Z)
  /\ ((0 <= ApiClientConfig.retryAttempts self)%Z ->
      makeRequest 0 = inr error ->
      ApiClient.isClientError error = false ->
      exists rest,
        snd (ApiClient.request R self makeRequest)
        = ApiClient.Fetch 0 :: ApiClient.Delay (ApiClientConfig.retryDelay self)
          :: ApiClient.Fetch 1 :: rest).
Proof.
  intros self.
  assert (Hn : forall v d, d <> 0%Z -> ApiClient.numberOr v d <> 0%Z).
  { intros [v|] d Hd; cbn; [|exact Hd].
    destruct (v =? 0)%Z eqn:E; [exact Hd|]. now apply Z.eqb_neq in E. }
  assert (Hr : ApiClientConfig.retryAttempts self <> 0%Z).
  { apply (Hn (PartialApiClientConfig.retryAttempts config) 3%Z). lia. }
  split; [exact Hr|].
  split; [apply (Hn (PartialApiClientConfig.timeout config) 30000%Z); lia|].
  split; [apply (Hn (PartialApiClientConfig.retryDelay config) 1000%Z); lia|].
  split.
  { unfold self. cbn. destruct (PartialApiClientConfig.baseUrl config) as [u|]; cbn;
      [|discriminate].
    destruct (String.eqb u EmptyString) eqn:E; [discriminate|].
    now apply String.eqb_neq in E. }
  split.
  { intros E. unfold self. cbn. rewrite E. reflexivity. }
  intros Hpos M C. unfold ApiClient.request.
  destruct (Z.to_nat (ApiClientConfig.retryAttempts self + 1)) as [|[|n]] eqn:F;
    [lia|lia|].
  cbn [ApiClient.retry]. rewrite M, C.
  replace (Z.of_nat 0 =? ApiClientConfig.retryAttempts self)%Z with false
    by (symmetry; apply Z.eqb_neq; lia).
  cbn [orb].
  destruct (makeRequest 1) as [response|error1].
  - eexists. cbn. rewrite Z.mul_1_r. reflexivity.
  - destruct ((Z.of_nat 1 =? ApiClientConfig.retryAttempts self)%Z
              || ApiClient.isClientError error1).
    + eexists. cbn. rewrite Z.mul_1_r. reflexivity.
    + destruct (ApiClient.retry R self makeRequest n 2 (Some error1))
        as [outcome effects].
      eexists. cbn. rewrite Z.mul_1_r. reflexivity.
Qed.

(** X17. A client built with a negative [retryAttempts] never calls
    [makeRequest]: the loop body does not run, [lastError] is still
    [null], and [request] rejects with the [TypeError] of
    [handleError(null)] instead of settling with a response. *)
Theorem negative_retryAttempts_rejects (R : Type) (config : PartialApiClientConfig.t)
  (makeRequest : nat -> R + JsError.t) (n : Z) :
  PartialApiClientConfig.retryAttempts config = Some n ->
  (n < 0)%Z ->
  ApiClient.request R (ApiClient.constructor config) makeRequest
  = (ApiClient.RejectedTypeError, []).
Proof.
  intros E Hn. unfold ApiClient.request, ApiClient.constructor.
  cbn [ApiClientConfig.retryAttempts]. rewrite E. cbn [ApiClient.numberOr].
  replace (n =? 0)%Z with false by (symmetry; apply Z.eqb_neq; lia).
  replace (Z.to_nat (n + 1)) with 0 by lia.
  reflexivity.
Qed.

Lemma negative_retryAttempts_rejects_witness :
  PartialApiClientConfig.retryAttempts
    (PartialApiClientConfig.mk None None (Some (-1)%Z) None) = Some (-1)%Z
  /\ (-1 < 0)%Z
  /\ ApiClient.request string
       (ApiClient.constructor (PartialApiClientConfig.mk None None (Some (-1)%Z) None))
       flaky
     = (ApiClient.RejectedTypeError, []).
Proof.
  split; [reflexivity|]. split; [reflexivity|].
  exact (negative_retryAttempts_rejects string
           (PartialApiClientConfig.mk None None (Some (-1)%Z) None) flaky (-1)%Z
           eq_refl eq_refl).
Defined.

Lemma retries_cannot_be_disabled_witness :
  exists rest,
    snd (ApiClient.request string
           (ApiClient.constructor (PartialApiClientConfig.mk None None (Some 0%Z) None))
           flaky)
    = ApiClient.Fetch 0 :: ApiClient.Delay 1000 :: ApiClient.Fetch 1 :: rest.
Proof.
  apply (proj2 (proj2 (proj2 (proj2 (proj2
           (retries_cannot_be_disabled string
              (PartialApiClientConfig.mk None None (Some 0%Z) None)
              flaky (newError "Failed to fetch"))))))).
  - vm_compute. discriminate.
  - reflexivity.
  - reflexivity.
Defined.

(** *** Texts of HTTP errors *)

Lemma includes_avoids c sub a :
  forall b, avoids c a = true ->
    JsText.includes (a ++ b) (String c sub) = JsText.includes b (String c sub).
Proof.
  induction a as [|d rest IH]; intros b H; [reflexivity|].
  cbn [append JsText.includes].
  cbn [avoids] in H. apply andb_true_iff in H. destruct H as [Hd Hr].
  replace (String.prefix (String c sub) (String d (rest ++ b))) with false.
  - cbn [orb]. apply IH, Hr.
  - cbn [String.prefix]. destruct (ascii_dec c d) as [->|N]; [|reflexivity].
    rewrite Ascii.eqb_refl in Hd. discriminate.
Qed.

Lemma string_append_nil_r (s : string) : (s ++ EmptyString)%string = s.
Proof. induction s as [|c rest IH]; cbn; [reflexivity|now rewrite IH]. Qed.

Lemma includes_none c sub a :
  avoids c a = true -> JsText.includes a (String c sub) = false.
Proof.
  intros H. pose proof (includes_avoids c sub a EmptyString H) as E.
  rewrite string_append_nil_r in E. exact E.
Qed.

Lemma includes_app_r sub a :
  forall b, JsText.includes b sub = true -> JsText.includes (a ++ b) sub = true.
Proof.
  induction a as [|d rest IH]; intros b H; [exact H|].
  cbn [append JsText.includes]. rewrite (IH b H). apply orb_true_r.
Qed.

Lemma allDigits_uint d : allDigits (NilEmpty.string_of_uint d) = true.
Proof. induction d; cbn; auto. Qed.

Lemma allDigits_ofNat n : allDigits (JsString.ofNat n) = true.
Proof. apply allDigits_uint. Qed.

Lemma allDigits_avoids c s :
  JsText.isDigit c = false -> allDigits s = true -> avoids c s = true.
Proof.
  intros Hc. induction s as [|d rest IH]; [reflexivity|].
  cbn [allDigits avoids]. intros H. apply andb_true_iff in H. destruct H as [Hd Hr].
  rewrite (IH Hr), andb_true_r.
  destruct (Ascii.eqb d c) eqn:E; [|reflexivity].
  apply Ascii.eqb_eq in E. congruence.
Qed.

Lemma avoids_app c a b :
  avoids c (a ++ b) = avoids c a && avoids c b.
Proof.
  induction a as [|d rest IH]; [reflexivity|].
  cbn [append avoids]. rewrite IH. apply andb_assoc.
Qed.

Lemma takeDigits_app ds c rest :
  allDigits ds = true -> JsText.isDigit c = false ->
  JsText.takeDigits (ds ++ String c rest) = ds
  /\ JsText.dropDigits (ds ++ String c rest) = String c rest.
Proof.
  intros H Hc. induction ds as [|d more IH].
  - cbn. rewrite Hc. split; reflexivity.
  - cbn [allDigits] in H. apply andb_true_iff in H. destruct H as [Hd Hm].
    cbn [append JsText.takeDigits JsText.dropDigits]. rewrite Hd.
    destruct (IH Hm) as [-> ->]. split; reflexivity.
Qed.

Lemma takeDigits_all ds :
  allDigits ds = true ->
  JsText.takeDigits ds = ds /\ JsText.dropDigits ds = EmptyString.
Proof.
  induction ds as [|d more IH]; intros H; [split; reflexivity|].
  cbn [allDigits] in H. apply andb_true_iff in H. destruct H as [Hd Hm].
  cbn [JsText.takeDigits JsText.dropDigits]. rewrite Hd.
  destruct (IH Hm) as [-> ->]. split; reflexivity.
Qed.

Lemma digitsValue_uint d :
  forall a, JsText.digitsValue (Z.of_nat a) (NilEmpty.string_of_uint d)
            = Z.of_nat (Nat.of_uint_acc d a).
Proof.
  induction d; intros a; cbn [NilEmpty.string_of_uint JsText.digitsValue Nat.of_uint_acc];
    [reflexivity|..];
    rewrite <- IHd; f_equal; rewrite Nat.tail_mul_spec;
    match goal with
    | |- context [nat_of_ascii ?c] =>
        let v := eval vm_compute in (nat_of_ascii c) in
        change (nat_of_ascii c) with v
    end; lia.
Qed.

Lemma parseInt_ofNat n : JsText.parseInt (JsString.ofNat n) = Z.of_nat n.
Proof.
  unfold JsText.parseInt, JsString.ofNat.
  change 0%Z with (Z.of_nat 0). rewrite digitsValue_uint.
  f_equal. apply DecimalNat.Unsigned.of_to.
Qed.

Lemma ofNat_nonempty n : JsString.ofNat n <> EmptyString.
Proof.
  unfold JsString.ofNat. intros E.
  assert (N : Nat.to_uint n = Decimal.Nil).
  { destruct (Nat.to_uint n); cbn in E; try discriminate. reflexivity. }
  pose proof (DecimalNat.Unsigned.to_of (Nat.to_uint n)) as T.
  rewrite DecimalNat.Unsigned.of_to, N in T. discriminate.
Qed.

Lemma substring_all s : String.substring 0 (String.length s) s = s.
Proof. induction s as [|c rest IH]; cbn; [reflexivity|now rewrite IH]. Qed.

Lemma httpMatch_here s ds :
  String.prefix "HTTP " s = true ->
  JsText.takeDigits (String.substring 5 (String.length s - 5) s) = ds ->
  ds <> EmptyString ->
  String.prefix ":" (JsText.dropDigits (String.substring 5 (String.length s - 5) s)) = true ->
  JsText.httpMatch s = Some ds.
Proof.
  intros P T N D. destruct s as [|c rest]; [discriminate|].
  cbn [JsText.httpMatch]. rewrite P, T, D.
  destruct (String.eqb ds EmptyString) eqn:E;
    [apply String.eqb_eq in E; contradiction|reflexivity].
Qed.

Lemma httpMatch_next c rest :
  String.prefix "HTTP " (String c rest) = false
  \/ String.prefix ":"
       (JsText.dropDigits
          (String.substring 5 (String.length (String c rest) - 5) (String c rest)))
     = false ->
  JsText.httpMatch (String c rest) = JsText.httpMatch rest.
Proof.
  intros H. cbn [JsText.httpMatch].
  destruct H as [H|H]; rewrite H; [reflexivity|].
  rewrite andb_false_r. destruct (String.prefix "HTTP " (String c rest)); reflexivity.
Qed.

Lemma httpMatch_avoids s :
  avoids "H" s = true -> JsText.httpMatch s = None.
Proof.
  induction s as [|d rest IH]; intros H; [reflexivity|].
  cbn [avoids] in H. apply andb_true_iff in H. destruct H as [Hd Hr].
  rewrite httpMatch_next; [apply IH, Hr|left].
  cbn [String.prefix]. destruct (ascii_dec "H" d) as [<-|N]; [discriminate|reflexivity].
Qed.

Lemma httpMatch_status ds rest :
  allDigits ds = true -> ds <> EmptyString ->
  JsText.httpMatch ("HTTP " ++ ds ++ String ":" rest) = Some ds.
Proof.
  intros H N.
  destruct (takeDigits_app ds ":" rest H eq_refl) as [T D].
  apply httpMatch_here; try assumption.
  - cbn. destruct (ds ++ String ":" rest)%string; reflexivity.
  - cbn [append String.length Nat.sub String.substring]. now rewrite Nat.sub_0_r, substring_all.
  - cbn [append String.length Nat.sub String.substring]. rewrite Nat.sub_0_r, substring_all, D.
    cbn. destruct rest; reflexivity.
Qed.

Lemma httpMatch_bare ds :
  allDigits ds = true -> JsText.httpMatch ("HTTP " ++ ds) = None.
Proof.
  intros H.
  destruct (takeDigits_all ds H) as [T D].
  assert (A : avoids "H" ("TTP " ++ ds) = true).
  { rewrite avoids_app, (allDigits_avoids "H" ds eq_refl H). reflexivity. }
  change ("HTTP " ++ ds)%string with (String "H" ("TTP " ++ ds)).
  rewrite httpMatch_next; [exact (httpMatch_avoids _ A)|right].
  cbn [append String.length Nat.sub String.substring]. rewrite Nat.sub_0_r, substring_all, D.
  reflexivity.
Qed.

Lemma string_append_assoc (a b c : string) :
  ((a ++ b) ++ c)%string = (a ++ b ++ c)%string.
Proof. induction a as [|d rest IH]; cbn; [reflexivity|now rewrite IH]. Qed.

Lemma httpError_searches status detail c sub :
  JsText.isDigit c = false ->
  avoids c "HTTP " = true ->
  avoids c ": " = true ->
  JsText.includes (JsError.message (ApiClient.httpError status detail)) (String c sub)
  = JsText.includes detail (String c sub).
Proof.
  intros Hc Ha Hb. unfold ApiClient.httpError, newError. cbn [JsError.message].
  change ("HTTP " ++ JsString.ofNat status ++ ": " ++ detail)%string
    with ("HTTP " ++ JsString.ofNat status ++ (": " ++ detail))%string.
  rewrite <- (string_append_assoc (JsString.ofNat status) ": " detail).
  rewrite <- (string_append_assoc "HTTP " (JsString.ofNat status ++ ": ") detail).
  apply includes_avoids.
  rewrite !avoids_app, Ha, Hb, (allDigits_avoids c _ Hc (allDigits_ofNat status)).
  reflexivity.
Qed.

Lemma httpError_match status detail :
  JsText.httpMatch (JsError.message (ApiClient.httpError status detail))
  = Some (JsString.ofNat status).
Proof.
  unfold ApiClient.httpError, newError. cbn [JsError.message].
  change (": " ++ detail)%string with (String ":" (String " " detail)).
  apply httpMatch_status; [apply allDigits_ofNat|apply ofNat_nonempty].
Qed.

(** X18. For a response that is not ok, [makeRequest] throws
    'HTTP <status>: <detail>'.  When the detail mentions none of
    'timeout', 'Failed to fetch' and 'NetworkError', [handleError] reads
    the status back from that text: the error carries the whole text and
    the status code, and it is marked unrecoverable exactly for the
    statuses 401 and 403. *)
Theorem http_status_decides_recovery (status : nat) (detail : string) :
  JsText.includes detail "timeout" = false ->
  JsText.includes detail "Failed to fetch" = false ->
  JsText.includes detail "NetworkError" = false ->
  ApiClient.handleError (ApiClient.httpError status detail)
  = NetworkErrors.createNetworkError
      ("HTTP " ++ JsString.ofNat status ++ ": " ++ detail)%string
      (Some (Z.of_nat status)) None
  /\ (NetworkError.recoverable (ApiClient.handleError (ApiClient.httpError status detail))
      = false
      <-> status = 401 \/ status = 403).
Proof.
  intros Ht Hf Hn.
  assert (E : ApiClient.handleError (ApiClient.httpError status detail)
              = NetworkErrors.createNetworkError
                  ("HTTP " ++ JsString.ofNat status ++ ": " ++ detail)%string
                  (Some (Z.of_nat status)) None).
  { unfold ApiClient.handleError.
    rewrite (httpError_searches status detail "t" "imeout" eq_refl eq_refl eq_refl), Ht.
    rewrite (httpError_searches status detail "F" "ailed to fetch" eq_refl eq_refl eq_refl), Hf.
    rewrite (httpError_searches status detail "N" "etworkError" eq_refl eq_refl eq_refl), Hn.
    rewrite httpError_match, parseInt_ofNat. reflexivity. }
  split; [exact E|]. rewrite E.
  unfold NetworkErrors.createNetworkError, NetworkErrors.isNot.
  cbn [NetworkError.recoverable].
  rewrite andb_false_iff, !negb_false_iff, !Z.eqb_eq. lia.
Qed.

Lemma http_status_decides_recovery_witness :
  JsText.includes "Unauthorized" "timeout" = false
  /\ JsText.includes "Unauthorized" "Failed to fetch" = false
  /\ JsText.includes "Unauthorized" "NetworkError" = false
  /\ ApiClient.handleError (ApiClient.httpError 401 "Unauthorized")
     = NetworkErrors.createNetworkError "HTTP 401: Unauthorized" (Some 401%Z) None
  /\ (NetworkError.recoverable
        (ApiClient.handleError (ApiClient.httpError 401 "Unauthorized")) = false
      <-> 401 = 401 \/ 401 = 403).
Proof.
  split; [reflexivity|]. split; [reflexivity|]. split; [reflexivity|].
  exact (http_status_decides_recovery 401 "Unauthorized" eq_refl eq_refl eq_refl).
Defined.

(** X19. A detail that mentions 'timeout' overrides the status: whatever
    the status of the response, also 401 or 403, [handleError] reports
    'Request timeout' with status code 408, recoverable. *)
Theorem timeout_text_overrides_status (status : nat) (detail : string) :
  JsText.includes detail "timeout" = true ->
  ApiClient.handleError (ApiClient.httpError status detail)
  = {| NetworkError.type := network;
       NetworkError.message := "Request timeout";
       NetworkError.statusCode := Some 408%Z;
       NetworkError.endpoint := None;
       NetworkError.recoverable := true;
       NetworkError.suggestedAction := "The request timed out. Please try again." |}.
Proof.
  intros Ht. unfold ApiClient.handleError.
  rewrite (httpError_searches status detail "t" "imeout" eq_refl eq_refl eq_refl), Ht.
  reflexivity.
Qed.

Lemma timeout_text_overrides_status_witness :
  JsText.includes "Session timeout" "timeout" = true
  /\ ApiClient.handleError (ApiClient.httpError 401 "Session timeout")
     = {| NetworkError.type := network;
          NetworkError.message := "Request timeout";
          NetworkError.statusCode := Some 408%Z;
          NetworkError.endpoint := None;
          NetworkError.recoverable := true;
          NetworkError.suggestedAction := "The request timed out. Please try again." |}.
Proof.
  split; [reflexivity|].
  exact (timeout_text_overrides_status 401 "Session timeout" eq_refl).
Defined.

(** X20. [uploadFile] builds the error of a failed upload without the
    colon [handleError] looks for: when the server's body names no
    error, the failure carries the text 'HTTP <status>' but no status
    code, and it is marked recoverable with the generic advice, also for
    the statuses 401 and 403. *)
Theorem upload_failure_hides_status (status : nat) (errorText : option string) :
  errorText = None \/ errorText = Some EmptyString ->
  ApiClient.uploadFailure errorText status
  = {| NetworkError.type := network;
       NetworkError.message := ("HTTP " ++ JsString.ofNat status)%string;
       NetworkError.statusCode := None;
       NetworkError.endpoint := None;
       NetworkError.recoverable := true;
       NetworkError.suggestedAction := "Please try again or check your connection." |}.
Proof.
  intros H.
  assert (E : ClassificationService.stringOr errorText
                ("HTTP " ++ JsString.ofNat status)%string
              = ("HTTP " ++ JsString.ofNat status)%string).
  { destruct H as [->| ->]; reflexivity. }
  unfold ApiClient.uploadFailure. rewrite E.
  unfold ApiClient.handleError, newError. cbn [JsError.name JsError.message].
  pose proof (allDigits_ofNat status) as D.
  assert (S : forall c sub, JsText.isDigit c = false -> avoids c "HTTP " = true ->
                JsText.includes ("HTTP " ++ JsString.ofNat status) (String c sub) = false).
  { intros c sub Hc Ha. apply includes_none.
    rewrite avoids_app, Ha, (allDigits_avoids c _ Hc D). reflexivity. }
  rewrite (S "t"%char "imeout" eq_refl eq_refl).
  rewrite (S "F"%char "ailed to fetch" eq_refl eq_refl).
  rewrite (S "N"%char "etworkError" eq_refl eq_refl).
  rewrite (httpMatch_bare _ D).
  replace (String.eqb ("HTTP " ++ JsString.ofNat status) EmptyString) with false
    by reflexivity.
  reflexivity.
Qed.

Lemma upload_failure_hides_status_witness :
  (@None string = None \/ @None string = Some EmptyString)
  /\ ApiClient.uploadFailure None 401
     = {| NetworkError.type := network;
          NetworkError.message := "HTTP 401";
          NetworkError.statusCode := None;
          NetworkError.endpoint := None;
          NetworkError.recoverable := true;
          NetworkError.suggestedAction :=
            "Please try again or check your connection." |}.
Proof.
  split; [left; reflexivity|].
  exact (upload_failure_hides_status 401 None (or_introl eq_refl)).
Defined.

Lemma prefix_nil s : String.prefix EmptyString s = true.
Proof. destruct s; reflexivity. Qed.

Lemma prefix_one c s rest :
  c <> ":"%char ->
  String.prefix (String c EmptyString) (s ++ String ":" rest)
  = String.prefix (String c EmptyString) s.
Proof.
  intros N. destruct s as [|d more]; cbn [append String.prefix].
  - destruct (ascii_dec c ":"); [contradiction|reflexivity].
  - destruct (ascii_dec c d); [|reflexivity]. now rewrite !prefix_nil.
Qed.

Lemma isClientError_httpError (status : nat) (detail : string) :
  ApiClient.isClientError (ApiClient.httpError status detail)
  = String.prefix "4" (JsString.ofNat status) || JsText.includes detail "HTTP 4".
Proof.
  unfold ApiClient.isClientError.
  pose proof (httpError_searches status detail "H" "TTP 4") as S.
  unfold ApiClient.httpError, newError in *. cbn [JsError.message] in *.
  change ("HTTP " ++ JsString.ofNat status ++ ": " ++ detail)%string
    with (String "H" ("TTP " ++ JsString.ofNat status ++ String ":" (String " " detail))).
  cbn [JsText.includes]. f_equal.
  - cbn [append String.prefix].
    repeat (destruct (ascii_dec _ _) as [_|C]; [|exfalso; apply C; reflexivity]).
    apply (prefix_one "4"). discriminate.
  - change ("TTP " ++ JsString.ofNat status ++ String ":" (String " " detail))%string
      with ("TTP " ++ JsString.ofNat status ++ (": " ++ detail))%string.
    rewrite <- (string_append_assoc (JsString.ofNat status) ": " detail).
    rewrite <- (string_append_assoc "TTP " (JsString.ofNat status ++ ": ") detail).
    apply includes_avoids.
    rewrite !avoids_app, (allDigits_avoids "H" _ eq_refl (allDigits_ofNat status)).
    reflexivity.
Qed.

(** X21. [isClientError] looks for the text 'HTTP 4' anywhere in the
    message.  For the error of a response that is not ok it holds exactly
    when the decimal status starts with the digit 4 (400 to 499, but also
    4, 40 to 49 or 4000) or the detail sent by the server itself contains
    'HTTP 4', whatever the status. *)
Theorem client_error_test (status : nat) (detail : string) :
  ApiClient.isClientError (ApiClient.httpError status detail)
  = String.prefix "4" (JsString.ofNat status) || JsText.includes detail "HTTP 4".
Proof. exact (isClientError_httpError status detail). Qed.




(** ** Data set ids and requests *)

Lemma allChars_app p a b : allChars p (a ++ b) = allChars p a && allChars p b.
Proof.
  induction a as [|c rest IH]; [reflexivity|].
  cbn [append allChars]. rewrite IH. apply andb_assoc.
Qed.

Lemma allChars_weaken (p q : ascii -> bool) s :
  (forall c, p c = true -> q c = true) -> allChars p s = true -> allChars q s = true.
Proof.
  intros H. induction s as [|c rest IH]; [reflexivity|].
  cbn [allChars]. rewrite !andb_true_iff. intros [Hc Hr]. split; auto.
Qed.

Lemma allChars_substring p s :
  forall n m, allChars p s = true -> allChars p (String.substring n m s) = true.
Proof.
  induction s as [|c rest IH]; intros n m H; [destruct n, m; reflexivity|].
  cbn [allChars] in H. apply andb_true_iff in H. destruct H as [Hc Hr].
  destruct n as [|n]; destruct m as [|m]; cbn [String.substring allChars];
    try reflexivity; try (apply IH; exact Hr).
  rewrite Hc. apply IH. exact Hr.
Qed.

Lemma length_substring s :
  forall n m, String.length (String.substring n m s) <= m.
Proof.
  induction s as [|c rest IH]; intros n m; [destruct n, m; cbn; lia|].
  destruct n as [|n]; destruct m as [|m]; cbn [String.substring String.length];
    try lia; try apply IH.
  specialize (IH 0 m). lia.
Qed.

Lemma length_append (a b : string) :
  String.length (a ++ b) = String.length a + String.length b.
Proof. induction a as [|c rest IH]; cbn; [reflexivity|now rewrite IH]. Qed.

Lemma allChars_keepChars p s : allChars p (keepChars p s) = true.
Proof.
  induction s as [|c rest IH]; [reflexivity|].
  cbn [keepChars]. destruct (p c) eqn:E; [|exact IH].
  cbn [allChars]. now rewrite E, IH.
Qed.

Lemma allChars_replaceSpaces (p q : ascii -> bool) s :
  (forall c, p c = true -> JsString.isWhiteSpace c = false -> q c = true) ->
  q "_"%char = true ->
  allChars p s = true ->
  forall inRun, allChars q (JsString.replaceSpaces inRun s) = true.
Proof.
  intros Hpq Hu. induction s as [|c rest IH]; intros H inRun; [reflexivity|].
  cbn [allChars] in H. apply andb_true_iff in H. destruct H as [Hc Hr].
  cbn [JsString.replaceSpaces].
  destruct (JsString.isWhiteSpace c) eqn:W.
  - destruct inRun; cbn [allChars]; rewrite ?Hu; apply IH; exact Hr.
  - cbn [allChars]. rewrite (Hpq c Hc W). apply IH. exact Hr.
Qed.

Lemma isIdChar_not_space c : Datasets.isIdChar c = true -> JsString.isWhiteSpace c = false.
Proof.
  destruct c as [[] [] [] [] [] [] [] []]; vm_compute; intros H;
    try reflexivity; discriminate.
Qed.

Lemma blank_first c rest :
  JsString.isWhiteSpace c = false -> JsString.blank (Some (String c rest)) = false.
Proof.
  intros W. unfold JsString.blank, JsString.trim.
  cbn [JsString.trimStart]. rewrite W. cbn [JsString.trimEnd].
  destruct (JsString.trimEnd rest); [rewrite W|]; reflexivity.
Qed.

Lemma validateDatasetId_returns id :
  Datasets.validateDatasetId id = Returned tt
  <-> 1 <= String.length id <= 100 /\ allChars Datasets.isIdChar id = true.
Proof.
  unfold Datasets.validateDatasetId, Datasets.idPattern.
  rewrite !andThen_returns, !throwIf_returns, orb_false_iff, negb_false_iff,
    andb_true_iff, negb_true_iff, !Nat.ltb_ge.
  split.
  - intros [_ [[H1 H2] [_ H3]]]. split; [lia|exact H3].
  - intros [H1 H2]. destruct id as [|c rest]; [cbn in H1; lia|].
    split; [|split; [lia|split; [reflexivity|exact H2]]].
    apply blank_first, isIdChar_not_space.
    cbn [allChars] in H2. apply andb_true_iff in H2. apply H2.
Qed.

(** X23. The data set service accepts an id exactly when it has between
    1 and 100 characters, all of them letters, digits, underscores or
    hyphens; and the message about the length is only ever caused by an
    id of more than 100 characters, never by a short one. *)
Theorem validateDatasetId_characterised (id : string) :
  (Datasets.validateDatasetId id = Returned tt
   <-> 1 <= String.length id <= 100 /\ allChars Datasets.isIdChar id = true)
  /\ (Datasets.validateDatasetId id
      = Raised (ThrownValidation
                  (ErrorHandler.createValidationError
                     "Dataset ID must be between 1 and 100 characters" (Some "id")))
      <-> JsString.blank (Some id) = false /\ 100 < String.length id).
Proof.
  split; [apply validateDatasetId_returns|].
  unfold Datasets.validateDatasetId.
  destruct (JsString.blank (Some id)) eqn:B; cbn [throwIf andThen].
  - split; [discriminate|intros [H _]; discriminate].
  - destruct (String.length id <? 1) eqn:L1.
    + apply Nat.ltb_lt in L1. destruct id; [discriminate|cbn in L1; lia].
    + cbn [orb]. destruct (100 <? String.length id) eqn:L2; cbn [throwIf andThen].
      * apply Nat.ltb_lt in L2. split; [intros _; split; [reflexivity|exact L2]|
                                        reflexivity].
      * apply Nat.ltb_ge in L2.
        destruct (negb (Datasets.idPattern id)); cbn [throwIf];
          (split; [discriminate|intros [_ H]; lia]).
Qed.

Lemma digit36_idChar k :
  k < 36 ->
  (isLower (Datasets.digit36 (N.of_nat k)) || JsText.isDigit (Datasets.digit36 (N.of_nat k)))
  = true
  /\ Datasets.value36 (Datasets.digit36 (N.of_nat k)) = N.of_nat k.
Proof.
  intros H. do 36 (destruct k as [|k]; [vm_compute; split; reflexivity|]). lia.
Qed.

Lemma digit36_mod n :
  (isLower (Datasets.digit36 (n mod 36)) || JsText.isDigit (Datasets.digit36 (n mod 36)))
  = true
  /\ Datasets.value36 (Datasets.digit36 (n mod 36)) = (n mod 36)%N.
Proof.
  pose proof (N.mod_upper_bound n 36 ltac:(discriminate)) as B.
  rewrite <- (N2Nat.id (n mod 36)). apply digit36_idChar. lia.
Qed.

Lemma toString36From_chars fuel :
  forall n digits,
    allChars (fun c => isLower c || JsText.isDigit c) digits = true ->
    allChars (fun c => isLower c || JsText.isDigit c)
      (Datasets.toString36From fuel n digits) = true.
Proof.
  induction fuel as [|fuel IH]; intros n digits H; [exact H|].
  cbn [Datasets.toString36From].
  assert (H' : allChars (fun c => isLower c || JsText.isDigit c)
                 (String (Datasets.digit36 (n mod 36)) digits) = true).
  { cbn [allChars]. rewrite (proj1 (digit36_mod n)). exact H. }
  destruct (n / 36 =? 0)%N; [exact H'|apply IH, H'].
Qed.

Lemma toString36From_length fuel :
  forall n digits k,
    (n < 36 ^ N.of_nat (S k))%N ->
    1 + String.length digits
    <= String.length (Datasets.toString36From (S fuel) n digits)
    <= S k + String.length digits.
Proof.
  induction fuel as [|fuel IH]; intros n digits k H.
  - cbn [Datasets.toString36From]. destruct (n / 36 =? 0)%N; cbn; lia.
  - change (Datasets.toString36From (S (S fuel)) n digits)
      with (if (n / 36 =? 0)%N
            then String (Datasets.digit36 (n mod 36)) digits
            else Datasets.toString36From (S fuel) (n / 36)
                   (String (Datasets.digit36 (n mod 36)) digits)).
    destruct (n / 36 =? 0)%N eqn:E; [cbn; lia|].
    apply N.eqb_neq in E.
    destruct k as [|k].
    + exfalso. apply E. apply N.div_small. cbn in H. exact H.
    + assert (Hq : (n / 36 < 36 ^ N.of_nat (S k))%N).
      { apply N.Div0.div_lt_upper_bound.
        replace (N.of_nat (S (S k))) with (N.succ (N.of_nat (S k))) in H by lia.
        rewrite N.pow_succ_r' in H. exact H. }
      specialize (IH (n / 36)%N (String (Datasets.digit36 (n mod 36)) digits) k Hq).
      cbn [String.length] in IH. lia.
Qed.

Lemma parse36_app a : forall acc b,
  Datasets.parse36 acc (a ++ b) = Datasets.parse36 (Datasets.parse36 acc a) b.
Proof.
  induction a as [|c rest IH]; intros acc b; [reflexivity|].
  cbn [append Datasets.parse36]. apply IH.
Qed.

Lemma toString36From_value fuel :
  forall n digits,
    (n < 2 ^ N.of_nat fuel)%N ->
    exists ds,
      Datasets.toString36From fuel n digits = (ds ++ digits)%string
      /\ forall acc,
           Datasets.parse36 acc ds = (acc * 36 ^ N.of_nat (String.length ds) + n)%N.
Proof.
  induction fuel as [|fuel IH]; intros n digits H.
  - exists EmptyString. split; [reflexivity|]. intros acc. cbn in *. lia.
  - cbn [Datasets.toString36From].
    destruct (n / 36 =? 0)%N eqn:E.
    + apply N.eqb_eq in E.
      exists (String (Datasets.digit36 (n mod 36)) EmptyString).
      split; [reflexivity|]. intros acc.
      cbn [Datasets.parse36 String.length]. rewrite (proj2 (digit36_mod n)).
      pose proof (N.div_mod n 36 ltac:(discriminate)) as D. rewrite E in D.
      change (36 ^ N.of_nat 1)%N with 36%N. lia.
    + apply N.eqb_neq in E.
      assert (Hq : (n / 36 < 2 ^ N.of_nat fuel)%N).
      { apply N.Div0.div_lt_upper_bound.
        replace (N.of_nat (S fuel)) with (N.succ (N.of_nat fuel)) in H by lia.
        rewrite N.pow_succ_r' in H. lia. }
      destruct (IH (n / 36)%N (String (Datasets.digit36 (n mod 36)) digits) Hq)
        as [ds [E1 E2]].
      exists (ds ++ String (Datasets.digit36 (n mod 36)) EmptyString)%string.
      split.
      * rewrite E1, string_append_assoc. reflexivity.
      * intros acc. rewrite parse36_app, E2.
        cbn [Datasets.parse36]. rewrite (proj2 (digit36_mod n)).
        rewrite length_append. cbn [String.length].
        replace (N.of_nat (String.length ds + 1)) with (N.succ (N.of_nat (String.length ds)))
          by lia.
        rewrite N.pow_succ_r'.
        pose proof (N.div_mod n 36 ltac:(discriminate)) as D. lia.
Qed.

Lemma toString36_value n : Datasets.parse36 0 (Datasets.toString36 n) = n.
Proof.
  unfold Datasets.toString36.
  destruct (toString36From_value (S (N.to_nat (N.log2 n))) n EmptyString) as [ds [E V]].
  - destruct (N.eq_dec n 0) as [->|Hn]; [reflexivity|].
    replace (N.of_nat (S (N.to_nat (N.log2 n)))) with (N.succ (N.log2 n)) by lia.
    apply N.log2_spec. lia.
  - rewrite E, string_append_nil_r, V. lia.
Qed.

Lemma cleanName_chars name :
  allChars Datasets.isIdChar (Datasets.cleanName name) = true
  /\ String.length (Datasets.cleanName name) <= 50.
Proof.
  unfold Datasets.cleanName. split; [|apply length_substring].
  apply allChars_substring.
  apply (allChars_replaceSpaces
           (fun c => isLower c || JsText.isDigit c || JsString.isWhiteSpace c)).
  - intros c H W. rewrite W, orb_false_r in H. unfold Datasets.isIdChar.
    apply orb_true_iff in H. destruct H as [-> | ->]; [reflexivity|].
    now rewrite !orb_true_r.
  - reflexivity.
  - apply allChars_keepChars.
Qed.

(** X24. Every id that [saveDataset] generates for a new data set is one
    that [validateDatasetId] accepts, whatever the name: what is left of
    the name has at most 50 characters out of a-z, 0-9 and the
    underscore, and the time stamp in base 36 adds at most 11 digits. *)
Theorem generated_id_is_valid (name : string) (now : N) :
  (now <= 8640000000000000)%N ->
  Datasets.validateDatasetId (Datasets.generateDatasetId name now) = Returned tt
  /\ String.length (Datasets.generateDatasetId name now) <= 62.
Proof.
  intros Hnow. destruct (cleanName_chars name) as [Hc Hl].
  assert (Ht : allChars Datasets.isIdChar (Datasets.toString36 now) = true).
  { apply (allChars_weaken (fun c => isLower c || JsText.isDigit c)).
    - intros c H. unfold Datasets.isIdChar.
      apply orb_true_iff in H. destruct H as [-> | ->]; [reflexivity|].
      now rewrite !orb_true_r.
    - apply toString36From_chars. reflexivity. }
  assert (Hn : 1 <= String.length (Datasets.toString36 now) <= 11).
  { unfold Datasets.toString36.
    pose proof (toString36From_length (N.to_nat (N.log2 now)) now EmptyString 10) as L.
    cbn [String.length] in L.
    assert (B : (now < 36 ^ N.of_nat 11)%N).
    { eapply N.le_lt_trans; [exact Hnow|]. vm_compute. reflexivity. }
    specialize (L B). lia. }
  assert (Hlen : String.length (Datasets.generateDatasetId name now)
                 = String.length (Datasets.cleanName name) + 1
                   + String.length (Datasets.toString36 now)).
  { unfold Datasets.generateDatasetId. rewrite !length_append. cbn. lia. }
  split; [|lia].
  apply validateDatasetId_returns. split; [lia|].
  unfold Datasets.generateDatasetId. rewrite !allChars_app, Hc, Ht. reflexivity.
Qed.

Lemma generated_id_is_valid_witness :
  (1762128000000 <= 8640000000000000)%N
  /\ Datasets.validateDatasetId (Datasets.generateDatasetId "Clinic Notes (2024)" 1762128000000)
     = Returned tt
  /\ String.length (Datasets.generateDatasetId "Clinic Notes (2024)" 1762128000000) <= 62.
Proof.
  split; [vm_compute; discriminate|].
  apply (generated_id_is_valid "Clinic Notes (2024)" 1762128000000).
  vm_compute. discriminate.
Defined.

Example generateDatasetId_sample :
  Datasets.generateDatasetId "Clinic  Notes (2024)" 1762128000000
  = "clinic_notes_2024_mhidiio0".
Proof. vm_compute. reflexivity. Qed.

Lemma indexOf_first name pre :
  forall rest,
    ~ In name pre ->
    Datasets.indexOf name (pre ++ name :: rest) = Some (List.length pre).
Proof.
  induction pre as [|p more IH]; intros rest H; cbn [app Datasets.indexOf List.length].
  - now rewrite String.eqb_refl.
  - destruct (String.eqb p name) eqn:E.
    + apply String.eqb_eq in E. exfalso. apply H. now left.
    + rewrite IH; [reflexivity|]. intros Hin. apply H. now right.
Qed.

Lemma indexOf_earlier name pre :
  forall rest,
    In name pre ->
    exists i, Datasets.indexOf name (pre ++ rest) = Some i /\ i < List.length pre.
Proof.
  induction pre as [|p more IH]; intros rest H; [contradiction|].
  cbn [app Datasets.indexOf List.length].
  destruct (String.eqb p name) eqn:E.
  - exists 0. split; [reflexivity|lia].
  - destruct H as [->|H]; [rewrite String.eqb_refl in E; discriminate|].
    destruct (IH rest H) as [i [-> Hi]]. exists (S i). split; [reflexivity|lia].
Qed.

Lemma duplicatesFrom_nil names :
  forall pre,
    Datasets.duplicatesFrom (pre ++ names) (List.length pre) names = []
    <-> NoDup names /\ forall name, In name names -> ~ In name pre.
Proof.
  induction names as [|name rest IH]; intros pre.
  - cbn. split; [intros _; split; [constructor|contradiction]|reflexivity].
  - cbn [Datasets.duplicatesFrom].
    destruct (in_dec string_dec name pre) as [Hin|Hout].
    + destruct (indexOf_earlier name pre (name :: rest) Hin) as [i [-> Hi]].
      replace (i =? List.length pre) with false by (symmetry; apply Nat.eqb_neq; lia).
      split; [discriminate|].
      intros [_ H]. exfalso. apply (H name); [now left|exact Hin].
    + rewrite (indexOf_first name pre rest Hout), Nat.eqb_refl.
      replace (pre ++ name :: rest) with ((pre ++ [name]) ++ rest)
        by (rewrite <- app_assoc; reflexivity).
      replace (S (List.length pre)) with (List.length (pre ++ [name]))
        by (rewrite length_app; cbn; lia).
      rewrite IH. split.
      * intros [Hnd H]. split.
        { constructor; [|exact Hnd]. intros Hr. apply (H name Hr).
          apply in_or_app. right. now left. }
        { intros x [<-|Hx]; [exact Hout|].
          intros Hp. apply (H x Hx). apply in_or_app. now left. }
      * intros [Hnd H]. inversion Hnd as [|? ? Hnot Hnd']; subst. split; [exact Hnd'|].
        intros x Hx Hp. apply in_app_or in Hp. destruct Hp as [Hp|[<-|[]]].
        { apply (H x); [now right|exact Hp]. }
        { exact (Hnot Hx). }
Qed.

Lemma validateClass_returns index cls :
  Datasets.validateClass index cls = Returned tt <-> Datasets.classOk cls = true.
Proof.
  unfold Datasets.validateClass, Datasets.classOk.
  rewrite !andThen_returns, !throwIf_returns, !andb_true_iff, !negb_true_iff,
    !Nat.ltb_ge, !Nat.leb_le. tauto.
Qed.

Lemma validateDatasetRequest_returns request :
  Datasets.validateDatasetRequest request = Returned tt
  <-> datasetRequestOk request = true /\ NoDup (Datasets.classNames request).
Proof.
  unfold Datasets.validateDatasetRequest, datasetRequestOk.
  rewrite !andThen_returns, !throwIf_returns.
  rewrite (firstThrow_returns Datasets.validateClass Datasets.classOk 0 _
             validateClass_returns).
  rewrite !andb_true_iff, !negb_true_iff, orb_false_iff, !Nat.ltb_ge, !Nat.leb_le,
    Nat.eqb_neq.
  assert (D : List.length (Datasets.duplicates request) <= 0
              <-> NoDup (Datasets.classNames request)).
  { unfold Datasets.duplicates.
    pose proof (duplicatesFrom_nil (Datasets.classNames request) []) as H.
    cbn [app List.length] in H.
    destruct (Datasets.duplicatesFrom (Datasets.classNames request) 0
                (Datasets.classNames request)) as [|d more].
    - split; [intros _; apply H; reflexivity|cbn; lia].
    - split; [cbn; lia|intros N].
      assert (E : d :: more = []) by (apply H; split; [exact N|intros name _ []]).
      discriminate. }
  rewrite D.
  split.
  - intros [H1 [[_ H2] [H3 [H4 [H5 [H6 [H7 H8]]]]]]].
    repeat split; try assumption; lia.
  - intros [[[[[[[H1 H2] H3] H4] H5] H6] H7] H8].
    repeat split; try assumption; try lia.
    destruct (CreateDatasetRequest.name request); [discriminate|cbn; lia].
Qed.

(** X25. [validateDatasetRequest] accepts a new data set exactly when the
    name is not blank and has at most 100 characters, the description is
    not blank and has at most 500, there are between 1 and 50 classes,
    each with a name of at most 100 and a description of at most 500
    characters, neither blank, and no two classes have names that are
    equal up to case. *)
Theorem validateDatasetRequest_characterised (request : CreateDatasetRequest.t) :
  Datasets.validateDatasetRequest request = Returned tt
  <-> datasetRequestOk request = true
      /\ NoDup (map (fun cls => JsString.toLowerCase (ClassDraft.name cls))
                  (CreateDatasetRequest.classes request)).
Proof. exact (validateDatasetRequest_returns request). Qed.

Example duplicate_class_names_rejected :
  Datasets.validateDatasetRequest
    (CreateDatasetRequest.mk "Notes" "Clinical notes"
       [ClassDraft.mk "Intake" "First visit";
        ClassDraft.mk "Follow-up" "Later visit";
        ClassDraft.mk "INTAKE" "Another first visit"])
  = Raised (ThrownValidation
              (ErrorHandler.createValidationError
                 "Duplicate class names found: intake" (Some "classes"))).
Proof. vm_compute. reflexivity. Qed.

(** X26. The attribute service checks a data set id less strictly than
    the data set service: every id the data set service accepts is
    accepted by the attribute service, but the attribute service also
    accepts any non-blank id that is longer than 100 characters or holds
    a character other than a letter, a digit, an underscore or a hyphen,
    which the data set service refuses. *)
Theorem attribute_service_accepts_more_ids (id : string) :
  (Datasets.validateDatasetId id = Returned tt ->
   AttributeService.validateDatasetId id = Returned tt)
  /\ (AttributeService.validateDatasetId id = Returned tt ->
      100 < String.length id \/ allChars Datasets.isIdChar id = false ->
      exists e, Datasets.validateDatasetId id = Raised (ThrownValidation e)).
Proof.
  unfold AttributeService.validateDatasetId. rewrite throwIf_returns. split.
  - unfold Datasets.validateDatasetId. rewrite andThen_returns, throwIf_returns. tauto.
  - intros B H.
    destruct (Datasets.validateDatasetId id) as [[]|[e|msg]] eqn:V.
    + apply validateDatasetId_returns in V. destruct V as [L C].
      destruct H as [H|H]; [lia|congruence].
    + eexists. reflexivity.
    + unfold Datasets.validateDatasetId, andThen, throwIf in V.
      repeat match type of V with
             | context [if ?c then _ else _] => destruct c
             end; discriminate.
Qed.

Lemma attribute_service_accepts_more_ids_witness :
  AttributeService.validateDatasetId "clinic notes" = Returned tt
  /\ (100 < String.length "clinic notes"
      \/ allChars Datasets.isIdChar "clinic notes" = false)
  /\ exists e, Datasets.validateDatasetId "clinic notes" = Raised (ThrownValidation e).
Proof.
  split; [reflexivity|]. split; [right; reflexivity|].
  exact (proj2 (attribute_service_accepts_more_ids "clinic notes") eq_refl
           (or_intror eq_refl)).
Defined.

(** X27. On the Classify page the button is enabled exactly when pressing
    it starts a classification.  In every state the page can reach: when
    [canClassify] is false, [onClassify] changes nothing; when it is
    true, a data set is selected and either the text is not blank, no
    file is held and the store's [classifyText] runs on that text, or the
    text is empty, a file is held and the store's [classifyPDF] runs on
    that file. *)
Theorem classify_button_matches_handler
  (apiClient : BackendCall -> ApiResponse.t BackendResult.t)
  (stack : string -> option string) (stringify : ValidationError.t -> string)
  (events : list Classify.Event) :
  let p := Classify.session apiClient stack stringify events in
  let after := Classify.onClassify apiClient stack stringify p in
  (Classify.canClassify p = false -> after = p)
  /\ (Classify.canClassify p = true ->
      exists dataset,
        Classify.selectedDataset p = Some dataset
        /\ ((JsString.blank (Some (Classify.documentText p)) = false
             /\ Classify.selectedFile p = None
             /\ exists settled s' log',
                  ClassificationStore.classifyText apiClient stack stringify
                    (Classify.textRequest dataset p) (Classify.store p) (Classify.log p)
                  = (settled, s', log')
                  /\ Classify.store after = s' /\ Classify.log after = log')
            \/ (Classify.documentText p = EmptyString
                /\ exists file settled s' log',
                     Classify.selectedFile p = Some file
                     /\ ClassificationStore.classifyPDF apiClient stack stringify
                          (Classify.pdfRequest dataset file p) (Classify.store p)
                          (Classify.log p)
                        = (settled, s', log')
                     /\ Classify.store after = s' /\ Classify.log after = log'))).
Proof.
  intros p after.
  destruct (fold_ok apiClient stack stringify events Classify.initialPage) as [Hx _].
  { split; [now left|split; [cbn; lia|constructor]]. }
  fold (Classify.session apiClient stack stringify events) in Hx. fold p in Hx.
  unfold after, Classify.onClassify, Classify.canClassify,
    Classify.handleClassifyText, Classify.handleClassifyPDF.
  destruct (Classify.selectedDataset p) as [dataset|]; cbn [isSome andb].
  2:{ split; [intros _; destruct (String.eqb _ _); reflexivity|discriminate]. }
  destruct (JsString.blank (Some (Classify.documentText p))) eqn:B; cbn [negb orb].
  - destruct (Classify.selectedFile p) as [file|] eqn:F; cbn [isSome].
    + split; [discriminate|]. intros _.
      destruct Hx as [Hx|Hx]; [|discriminate].
      exists dataset. split; [reflexivity|]. right. split; [exact Hx|].
      rewrite Hx. cbn [String.eqb].
      destruct (ClassificationStore.classifyPDF apiClient stack stringify
                  (Classify.pdfRequest dataset file p) (Classify.store p)
                  (Classify.log p)) as [[settled s'] log'] eqn:E.
      exists file, settled, s', log'. repeat split. exact E.
    + split; [|discriminate]. intros _.
      destruct (String.eqb (Classify.documentText p) EmptyString); reflexivity.
  - split; [discriminate|]. intros _.
    exists dataset. split; [reflexivity|]. left. split; [reflexivity|].
    assert (N : String.eqb (Classify.documentText p) EmptyString = false).
    { destruct (Classify.documentText p); [discriminate|reflexivity]. }
    assert (F : Classify.selectedFile p = None).
    { destruct Hx as [Hx|Hx]; [|exact Hx]. rewrite Hx in N. discriminate. }
    split; [exact F|]. rewrite N.
    destruct (ClassificationStore.classifyText apiClient stack stringify
                (Classify.textRequest dataset p) (Classify.store p) (Classify.log p))
      as [[settled s'] log'] eqn:E.
    exists settled, s', log'. repeat split.
Qed.

(** ** File checks: the upload service and the classification service *)

Lemma lastIndexOf_app c a :
  forall b, FileUploadService.lastIndexOf c (a ++ String c b) <> None.
Proof.
  induction a as [|d rest IH]; intros b; cbn [append FileUploadService.lastIndexOf].
  - destruct (FileUploadService.lastIndexOf c b); [discriminate|].
    rewrite Ascii.eqb_refl. discriminate.
  - specialize (IH b).
    destruct (FileUploadService.lastIndexOf c (rest ++ String c b));
      [discriminate|contradiction].
Qed.

Lemma getFileExtension_cons d rest :
  FileUploadService.getFileExtension (String d rest)
  = match FileUploadService.lastIndexOf "." rest with
    | Some _ => FileUploadService.getFileExtension rest
    | None => if Ascii.eqb d "." then String d rest else EmptyString
    end.
Proof.
  unfold FileUploadService.getFileExtension. cbn [FileUploadService.lastIndexOf].
  destruct (FileUploadService.lastIndexOf "." rest) as [i|]; [reflexivity|].
  destruct (Ascii.eqb d "."); [|reflexivity].
  rewrite Nat.sub_0_r. apply substring_all.
Qed.

Lemma getFileExtension_suffix suffix :
  FileUploadService.lastIndexOf "." suffix = None ->
  forall s,
    FileUploadService.getFileExtension s = String "." suffix
    <-> exists pre, s = (pre ++ String "." suffix)%string.
Proof.
  intros Hs. induction s as [|d rest IH].
  - split; [discriminate|]. intros [[|c pre] H]; discriminate.
  - rewrite getFileExtension_cons.
    destruct (FileUploadService.lastIndexOf "." rest) as [i|] eqn:L.
    + rewrite IH. split.
      * intros [pre ->]. exists (String d pre). reflexivity.
      * intros [[|c pre] H]; cbn [append] in H; inversion H; subst.
        { rewrite Hs in L. discriminate. }
        { exists pre. reflexivity. }
    + destruct (Ascii.eqb d ".") eqn:E.
      * apply Ascii.eqb_eq in E. subst d. split.
        { intros H. exists EmptyString. exact H. }
        { intros [[|c pre] H]; cbn [append] in H; inversion H; subst; [reflexivity|].
          exfalso. exact (lastIndexOf_app "." pre suffix L). }
      * split; [discriminate|].
        intros [[|c pre] H]; cbn [append] in H; inversion H; subst.
        { rewrite Ascii.eqb_refl in E. discriminate. }
        { exfalso. exact (lastIndexOf_app "." pre suffix L). }
Qed.

Lemma substring_skip pre :
  forall m s, String.substring (String.length pre) m (pre ++ s) = String.substring 0 m s.
Proof. induction pre as [|c rest IH]; intros m s; [reflexivity|]. cbn. apply IH. Qed.

Lemma substring_split s :
  forall n m,
    n + m = String.length s ->
    s = (String.substring 0 n s ++ String.substring n m s)%string.
Proof.
  induction s as [|c rest IH]; intros n m H.
  - cbn in H. assert (n = 0) by lia. assert (m = 0) by lia. subst. reflexivity.
  - destruct n as [|n].
    + cbn [String.substring append]. cbn in H. subst m. now rewrite substring_all.
    + cbn [String.substring append]. f_equal. apply IH. cbn in H. lia.
Qed.

Lemma endsWith_suffix s suffix :
  JsString.endsWith s suffix = true <-> exists pre, s = (pre ++ suffix)%string.
Proof.
  unfold JsString.endsWith. rewrite andb_true_iff, Nat.leb_le, String.eqb_eq. split.
  - intros [L E].
    exists (String.substring 0 (String.length s - String.length suffix) s).
    pose proof (substring_split s (String.length s - String.length suffix)
                  (String.length suffix)) as S.
    rewrite E in S. apply S. lia.
  - intros [pre ->]. rewrite length_append. split; [lia|].
    replace (String.length pre + String.length suffix - String.length suffix)
      with (String.length pre) by lia.
    rewrite substring_skip. apply substring_all.
Qed.

Lemma lowerChar_dot c : Ascii.eqb (JsString.lowerChar c) "." = Ascii.eqb c ".".
Proof. destruct c as [[] [] [] [] [] [] [] []]; vm_compute; reflexivity. Qed.

Lemma lastIndexOf_toLowerCase s :
  FileUploadService.lastIndexOf "." (JsString.toLowerCase s)
  = FileUploadService.lastIndexOf "." s.
Proof.
  induction s as [|c rest IH]; [reflexivity|].
  cbn [JsString.toLowerCase FileUploadService.lastIndexOf].
  rewrite IH, lowerChar_dot. reflexivity.
Qed.

Lemma toLowerCase_substring s :
  forall n m,
    JsString.toLowerCase (String.substring n m s)
    = String.substring n m (JsString.toLowerCase s).
Proof.
  induction s as [|c rest IH]; intros n m; [destruct n, m; reflexivity|].
  destruct n as [|n]; destruct m as [|m];
    cbn [String.substring JsString.toLowerCase]; try reflexivity; try apply IH.
  now rewrite IH.
Qed.

Lemma length_toLowerCase s : String.length (JsString.toLowerCase s) = String.length s.
Proof. induction s as [|c rest IH]; cbn; [reflexivity|now rewrite IH]. Qed.

Lemma getFileExtension_toLowerCase s :
  JsString.toLowerCase (FileUploadService.getFileExtension s)
  = FileUploadService.getFileExtension (JsString.toLowerCase s).
Proof.
  unfold FileUploadService.getFileExtension.
  rewrite lastIndexOf_toLowerCase, length_toLowerCase.
  destruct (FileUploadService.lastIndexOf "." s); [|reflexivity].
  apply toLowerCase_substring.
Qed.

Lemma extension_is_pdf name :
  String.eqb (JsString.toLowerCase (FileUploadService.getFileExtension name)) ".pdf"
  = JsString.endsWith (JsString.toLowerCase name) ".pdf".
Proof.
  apply eq_true_iff_eq.
  rewrite String.eqb_eq, getFileExtension_toLowerCase, endsWith_suffix.
  apply (getFileExtension_suffix "pdf"). reflexivity.
Qed.

Lemma endsWith_not_blank name :
  JsString.endsWith (JsString.toLowerCase name) ".pdf" = true ->
  JsString.blank (Some name) = false.
Proof.
  intros H. rewrite blank_whitespaceOnly.
  apply endsWith_suffix in H. destruct H as [pre H].
  revert pre H. induction name as [|c rest IH]; intros pre H.
  - destruct pre; discriminate.
  - cbn [whitespaceOnly]. destruct (JsString.isWhiteSpace c) eqn:W; [|reflexivity].
    cbn [andb]. cbn [JsString.toLowerCase] in H.
    destruct pre as [|d pre]; cbn [append] in H; inversion H as [[Hc Hr]].
    + exfalso. revert W Hc. clear.
      destruct c as [[] [] [] [] [] [] [] []]; vm_compute; intros W Hc;
        first [discriminate W|discriminate Hc].
    + apply (IH pre Hr).
Qed.

Lemma validatePDFFile_returns f :
  ClassificationService.validatePDFFile (Some f) = Returned tt
  <-> JsString.endsWith (JsString.toLowerCase (File.name f)) ".pdf" = true
      /\ (File.size f <= 50 * 1024 * 1024)%N
      /\ File.size f <> 0%N.
Proof.
  unfold ClassificationService.validatePDFFile, ClassificationService.maxSize.
  rewrite !andThen_returns, !throwIf_returns, negb_false_iff, N.ltb_ge, N.eqb_neq.
  tauto.
Qed.

(** X28. With its default options, and with those [uploadForClassification]
    passes on, the upload service's [validateFile] finds a file valid
    exactly when the classification service's [validatePDFFile] accepts it
    and its name has at most 255 characters: the extension after the last
    dot is '.pdf' in some letter case exactly when the lower-cased name
    ends with '.pdf', the size limits agree, and such a name is never
    blank. *)
Theorem file_checks_agree (formatFileSize : N -> string) (f : File.t)
  (options : FileOptions.t) :
  options = FileOptions.mk None None None \/ options = FileUploadService.uploadOptions ->
  FileValidationResult.isValid
    (FileUploadService.validateFile formatFileSize (Some f) options) = true
  <-> ClassificationService.validatePDFFile (Some f) = Returned tt
      /\ String.length (File.name f) <= 255.
Proof.
  intros Ho. rewrite validatePDFFile_returns.
  assert (E : FileValidationResult.isValid
                (FileUploadService.validateFile formatFileSize (Some f) options)
              = FileValidationResult.isValid
                  (FileUploadService.validateFile formatFileSize (Some f)
                     (FileOptions.mk None None None))).
  { destruct Ho as [->| ->]; reflexivity. }
  rewrite E. clear E Ho.
  unfold FileUploadService.validateFile, FileUploadService.defaultAllowedTypes,
    FileUploadService.defaultMaxSize, FileUploadService.sizeOr.
  cbn [FileOptions.maxSize FileOptions.allowedTypes FileOptions.minSize
       FileValidationResult.isValid existsb JsString.toLowerCase].
  change (JsString.toLowerCase ".pdf") with ".pdf".
  rewrite orb_false_r, extension_is_pdf.
  destruct (JsString.endsWith (JsString.toLowerCase (File.name f)) ".pdf") eqn:P.
  2:{ cbn [negb]. rewrite !length_app. cbn [List.length].
      split; [intros H; apply Nat.eqb_eq in H; lia|intros [[H _] _]; discriminate]. }
  rewrite (endsWith_not_blank _ P). cbn [negb app].
  destruct (File.size f =? 0)%N eqn:Z.
  { apply N.eqb_eq in Z. split; [discriminate|]. intros [[_ [_ H]] _]. contradiction. }
  apply N.eqb_neq in Z.
  destruct (File.size f <? 1)%N eqn:L1; [apply N.ltb_lt in L1; lia|].
  destruct (50 * 1024 * 1024 <? File.size f)%N eqn:L2.
  { apply N.ltb_lt in L2. split; [discriminate|]. intros [[_ [H _]] _]. lia. }
  apply N.ltb_ge in L2. cbn [app].
  destruct (255 <? String.length (File.name f)) eqn:L3.
  - apply Nat.ltb_lt in L3. split; [discriminate|]. intros [_ H]. lia.
  - apply Nat.ltb_ge in L3. split; [|reflexivity]. intros _. repeat split; assumption.
Qed.

Lemma file_checks_agree_witness :
  (FileOptions.mk None None None = FileOptions.mk None None None
   \/ FileOptions.mk None None None = FileUploadService.uploadOptions)
  /\ (FileValidationResult.isValid
        (FileUploadService.validateFile (fun _ => "50 MB") (Some Samples.report)
           (FileOptions.mk None None None)) = true
      <-> ClassificationService.validatePDFFile (Some Samples.report) = Returned tt
          /\ String.length (File.name Samples.report) <= 255).
Proof.
  split; [left; reflexivity|].
  exact (file_checks_agree (fun _ => "50 MB") Samples.report
           (FileOptions.mk None None None) (or_introl eq_refl)).
Defined.

(** ** The Attributes page *)

(** X29. The last attribute of a data set cannot be deleted from the
    Attributes page: when every attribute held for the data set belongs
    to the class being deleted, the request that [handleDeleteAttribute]
    passes on has no attributes, and [validateSaveRequest], which the
    service runs before it sends anything, refuses it. *)
Theorem last_attribute_cannot_be_deleted (selectedDatasetId classId : string)
  (currentAttributes : list ClassAttribute.t) (request : SaveAttributesRequest.t) :
  (forall attr, In attr currentAttributes -> ClassAttribute.classId attr = classId) ->
  AttributesPage.handleDeleteAttribute selectedDatasetId currentAttributes classId
  = Some request ->
  SaveAttributesRequest.attributes request = []
  /\ exists e, AttributeService.validateSaveRequest request = Raised (ThrownValidation e).
Proof.
  intros Hall. unfold AttributesPage.handleDeleteAttribute.
  destruct (String.eqb selectedDatasetId EmptyString); [discriminate|].
  intros H. inversion H; subst; clear H. cbn [SaveAttributesRequest.attributes].
  assert (E : AttributesPage.withoutClass classId currentAttributes = []).
  { unfold AttributesPage.withoutClass.
    induction currentAttributes as [|attr rest IH]; [reflexivity|].
    cbn [filter]. rewrite (Hall attr (or_introl eq_refl)), String.eqb_refl. cbn [negb].
    apply IH. intros a Ha. apply Hall. now right. }
  split; [exact E|].
  apply validateSaveRequest_rejects. unfold saveRequestOk.
  cbn [SaveAttributesRequest.attributes SaveAttributesRequest.datasetId].
  rewrite E. cbn. now rewrite andb_false_r.
Qed.

Lemma last_attribute_cannot_be_deleted_witness :
  (forall attr, In attr [invoiceAttribute] -> ClassAttribute.classId attr = "invoice")
  /\ AttributesPage.handleDeleteAttribute "notes" [invoiceAttribute] "invoice"
     = Some (SaveAttributesRequest.mk "notes" [])
  /\ SaveAttributesRequest.attributes (SaveAttributesRequest.mk "notes" []) = []
  /\ exists e,
       AttributeService.validateSaveRequest (SaveAttributesRequest.mk "notes" [])
       = Raised (ThrownValidation e).
Proof.
  assert (H : forall attr, In attr [invoiceAttribute] ->
                           ClassAttribute.classId attr = "invoice").
  { intros attr [<-|[]]. reflexivity. }
  split; [exact H|]. split; [reflexivity|].
  exact (last_attribute_cannot_be_deleted "notes" "invoice" [invoiceAttribute]
           (SaveAttributesRequest.mk "notes" []) H eq_refl).
Defined.

Lemma withAttribute_ids attribute current :
  classIds (AttributesPage.withAttribute attribute current)
  = classIds current
    ++ (if hasClass (ClassAttribute.classId attribute) current
        then [] else [ClassAttribute.classId attribute]).
Proof.
  unfold AttributesPage.withAttribute, classIds, hasClass.
  rewrite map_app. f_equal.
  - rewrite map_map. apply map_ext_in. intros attr _.
    destruct (String.eqb (ClassAttribute.classId attr) (ClassAttribute.classId attribute))
      eqn:E; [|reflexivity].
    apply String.eqb_eq in E. now rewrite E.
  - destruct (existsb _ current); reflexivity.
Qed.

Lemma hasClass_In classId current :
  hasClass classId current = true <-> In classId (classIds current).
Proof.
  unfold hasClass, classIds. rewrite existsb_exists, in_map_iff. split.
  - intros [attr [Hin E]]. apply String.eqb_eq in E. exists attr. split; assumption.
  - intros [attr [E Hin]]. exists attr. split; [exact Hin|]. now apply String.eqb_eq.
Qed.

Lemma withAttribute_ok attribute current :
  attributeOk attribute = true ->
  forallb attributeOk current = true ->
  forallb attributeOk (AttributesPage.withAttribute attribute current) = true.
Proof.
  intros Ha Hc. unfold AttributesPage.withAttribute.
  rewrite forallb_app. apply andb_true_iff. split.
  - rewrite forallb_forall in *. intros x Hx. apply in_map_iff in Hx.
    destruct Hx as [attr [E Hin]].
    destruct (String.eqb _ _) in E; subst x; [exact Ha|apply Hc, Hin].
  - destruct (existsb _ current); cbn; [reflexivity|now rewrite Ha].
Qed.

(** X30. Saving an attribute from the Attributes page replaces the
    entries of its class or, when there is none, adds it at the end: the
    class ids of the request are those held before, followed by the new
    one if it is new, so distinct ids stay distinct and the attribute is
    in the request; and when the attribute and all those held pass the
    service's checks, the selected id is not blank and fewer than 50 are
    held, [validateSaveRequest] accepts the request. *)
Theorem saved_attribute_request (selectedDatasetId : string)
  (currentAttributes : list ClassAttribute.t) (attribute : ClassAttribute.t)
  (request : SaveAttributesRequest.t) :
  AttributesPage.handleSaveAttribute selectedDatasetId currentAttributes attribute
  = Some request ->
  SaveAttributesRequest.datasetId request = selectedDatasetId
  /\ classIds (SaveAttributesRequest.attributes request)
     = classIds currentAttributes
       ++ (if hasClass (ClassAttribute.classId attribute) currentAttributes
           then [] else [ClassAttribute.classId attribute])
  /\ In attribute (SaveAttributesRequest.attributes request)
  /\ (NoDup (classIds currentAttributes) ->
      NoDup (classIds (SaveAttributesRequest.attributes request)))
  /\ (JsString.blank (Some selectedDatasetId) = false ->
      attributeOk attribute = true ->
      forallb attributeOk currentAttributes = true ->
      List.length currentAttributes < 50 ->
      AttributeService.validateSaveRequest request = Returned tt).
Proof.
  unfold AttributesPage.handleSaveAttribute.
  destruct (String.eqb selectedDatasetId EmptyString); [discriminate|].
  intros H. inversion H; subst; clear H.
  cbn [SaveAttributesRequest.attributes SaveAttributesRequest.datasetId].
  pose proof (withAttribute_ids attribute currentAttributes) as Ids.
  split; [reflexivity|]. split; [exact Ids|]. split; [|split].
  - unfold AttributesPage.withAttribute. apply in_or_app.
    destruct (existsb _ currentAttributes) eqn:E; [left|right; now left].
    apply existsb_exists in E. destruct E as [attr [Hin E]].
    apply in_map_iff. exists attr. rewrite E. split; [reflexivity|exact Hin].
  - intros N. rewrite Ids.
    destruct (hasClass (ClassAttribute.classId attribute) currentAttributes) eqn:E.
    + now rewrite app_nil_r.
    + apply NoDup_app; [exact N|constructor; [intros []|constructor]|].
      intros x Hx [<-|[]]. apply hasClass_In in Hx. congruence.
  - intros B Ha Hc L. apply validateSaveRequest_returns. unfold saveRequestOk.
    cbn [SaveAttributesRequest.attributes SaveAttributesRequest.datasetId].
    rewrite B, (withAttribute_ok _ _ Ha Hc). cbn [negb andb]. rewrite andb_true_r.
    assert (Len : List.length (AttributesPage.withAttribute attribute currentAttributes)
                  = List.length currentAttributes
                    + (if hasClass (ClassAttribute.classId attribute) currentAttributes
                       then 0 else 1)).
    { unfold AttributesPage.withAttribute, hasClass. rewrite length_app, length_map.
      destruct (existsb _ currentAttributes); reflexivity. }
    rewrite Len. apply andb_true_iff. split; [apply Nat.leb_le|apply Nat.leb_le].
    + destruct (hasClass _ _) eqn:E; [|lia].
      destruct currentAttributes; [discriminate|cbn; lia].
    + destruct (hasClass _ _); lia.
Qed.

Lemma saved_attribute_request_witness :
  AttributesPage.handleSaveAttribute "notes" [invoiceAttribute] receiptAttribute
  = Some (SaveAttributesRequest.mk "notes" [invoiceAttribute; receiptAttribute])
  /\ AttributeService.validateSaveRequest
       (SaveAttributesRequest.mk "notes" [invoiceAttribute; receiptAttribute])
     = Returned tt.
Proof.
  split; [reflexivity|].
  apply (proj2 (proj2 (proj2 (proj2
           (saved_attribute_request "notes" [invoiceAttribute] receiptAttribute
              (SaveAttributesRequest.mk "notes" [invoiceAttribute; receiptAttribute])
              eq_refl))))).
  - reflexivity.
  - reflexivity.
  - reflexivity.
  - cbn. lia.
Defined.
